(** * dio: content-addressed commit store and its HTTP handlers

    A shallow embedding of the server side of the repository
    (api/backend.go and the request handlers of package main) and the
    properties of its commit identifiers, blob store, branch table and
    upload workflow. *)

From Stdlib Require Import ZArith String Ascii List Lia DecimalString DecimalZ.
From stdpp Require Import gmap strings list sorting.
Import ListNotations.
Local Open Scope Z_scope.

(* ===================================================================== *)
(** ** crypto/sha256 and encoding/hex *)
(* ===================================================================== *)

(** Bytes are integers in 0..255, 32-bit words are integers with the
    wrap-around written out. *)
Module SHA256.
Definition w32 (x : Z) : Z := x mod 4294967296.
Definition add32 (x y : Z) : Z := w32 (x + y).
Definition rotr (n x : Z) : Z := Z.lor (Z.shiftr x n) (w32 (Z.shiftl x (32 - n))).
Definition shr (n x : Z) : Z := Z.shiftr x n.
Definition not32 (x : Z) : Z := 4294967295 - x.
Definition Ch (x y z : Z) : Z := Z.lxor (Z.land x y) (Z.land (not32 x) z).
Definition Maj (x y z : Z) : Z :=
  Z.lxor (Z.lxor (Z.land x y) (Z.land x z)) (Z.land y z).
Definition Sigma0 (x : Z) : Z := Z.lxor (Z.lxor (rotr 2 x) (rotr 13 x)) (rotr 22 x).
Definition Sigma1 (x : Z) : Z := Z.lxor (Z.lxor (rotr 6 x) (rotr 11 x)) (rotr 25 x).
Definition sigma0 (x : Z) : Z := Z.lxor (Z.lxor (rotr 7 x) (rotr 18 x)) (shr 3 x).
Definition sigma1 (x : Z) : Z := Z.lxor (Z.lxor (rotr 17 x) (rotr 19 x)) (shr 10 x).

(** The first [n] primes, found by trial division below [bound]. *)
Definition isPrime (p : nat) : bool :=
  forallb (fun d => negb (Nat.eqb (Nat.modulo p d) 0)) (seq 2 (p - 2)).
Definition primes (n bound : nat) : list Z :=
  map Z.of_nat (firstn n (filter isPrime (seq 2 bound))).

(** The largest [r] below 2^[bits] with [r]^3 <= [x]. *)
Fixpoint cubeRoot (bits : nat) (x r : Z) : Z :=
  match bits with
  | O => r
  | S b =>
      let r' := r + Z.shiftl 1 (Z.of_nat b) in
      cubeRoot b x (if r' * r' * r' <=? x then r' else r)
  end.

(** Round constants: the first 32 bits of the fractional parts of the
    cube roots of the first 64 primes. *)
Definition K : list Z :=
  Eval vm_compute in map (fun p => w32 (cubeRoot 36 (p * 2 ^ 96) 0)) (primes 64 320).

(** Initial hash value: the first 32 bits of the fractional parts of the
    square roots of the first 8 primes. *)
Definition H0 : list Z :=
  Eval vm_compute in map (fun p => w32 (Z.sqrt (p * 2 ^ 64))) (primes 8 20).

(** Big-endian bytes of [x], [n] of them. *)
Definition be_bytes (n : nat) (x : Z) : list Z :=
  map (fun i => (Z.shiftr x (8 * Z.of_nat i)) mod 256) (rev (seq 0 n)).

(** The byte 0x80, zeros up to 56 modulo 64, the bit length on 8 bytes. *)
Definition pad (msg : list Z) : list Z :=
  let l := Z.of_nat (length msg) in
  msg ++ [128] ++ repeat 0 (Z.to_nat ((55 - l) mod 64)) ++ be_bytes 8 (8 * l).

Fixpoint words (bs : list Z) : list Z :=
  match bs with
  | a :: b :: c :: d :: r => (((a * 256 + b) * 256 + c) * 256 + d) :: words r
  | _ => []
  end.

Fixpoint blocks (fuel : nat) (ws : list Z) : list (list Z) :=
  match fuel, ws with
  | S f, _ :: _ => firstn 16 ws :: blocks f (skipn 16 ws)
  | _, _ => []
  end.

(** Message schedule; [win] holds the last sixteen words, oldest first. *)
Fixpoint schedule (n : nat) (win : list Z) : list Z :=
  match n with
  | O => []
  | S n' =>
      let w := add32 (add32 (sigma1 (nth 14 win 0)) (nth 9 win 0))
                     (add32 (sigma0 (nth 1 win 0)) (nth 0 win 0)) in
      w :: schedule n' (tl win ++ [w])
  end.

Definition round (st : list Z) (kw : Z * Z) : list Z :=
  match st with
  | [a; b; c; d; e; f; g; h] =>
      let t1 := add32 (add32 (add32 h (Sigma1 e)) (add32 (Ch e f g) (fst kw))) (snd kw) in
      let t2 := add32 (Sigma0 a) (Maj a b c) in
      [add32 t1 t2; a; b; c; add32 d t1; e; f; g]
  | _ => st
  end.

Definition compress (h : list Z) (blk : list Z) : list Z :=
  let w := blk ++ schedule 48 blk in
  let st := fold_left round (combine K w) h in
  map (fun p => add32 (fst p) (snd p)) (combine h st).

Definition digest (msg : list Z) : list Z :=
  let ws := words (pad msg) in
  flat_map (be_bytes 4) (fold_left compress (blocks (length ws) ws) H0).
End SHA256.

(** A Go string or byte slice is a [string]: one [ascii] per byte. *)
Definition bytes_of (s : string) : list Z :=
  map (fun a => Z.of_N (N_of_ascii a)) (list_ascii_of_string s).

(** sha256.Sum256 *)
Definition Sum256 (data : string) : list Z := SHA256.digest (bytes_of data).

Definition hexdigit (n : Z) : ascii :=
  nth (Z.to_nat n) (list_ascii_of_string "0123456789abcdef") "0"%char.

(** hex.EncodeToString *)
Fixpoint EncodeToString (bs : list Z) : string :=
  match bs with
  | [] => EmptyString
  | b :: r => String (hexdigit (b / 16)) (String (hexdigit (b mod 16)) (EncodeToString r))
  end.

(* ===================================================================== *)
(** ** fmt and time *)
(* ===================================================================== *)

(** The verb %d. *)
Definition fmt_d (z : Z) : string := NilEmpty.string_of_int (Z.to_int z).

Fixpoint zeros (n : nat) : string :=
  match n with O => EmptyString | S n' => String "0" (zeros n') end.

(** time.appendInt: a minus sign for a negative value, then the digits,
    padded with zeros on the left up to [width]. *)
Definition appendInt (x : Z) (width : nat) : string :=
  let d := fmt_d (Z.abs x) in
  (if x <? 0 then "-" else "") +:+ zeros (width - String.length d) +:+ d.

(** A time.Time, as the civil reading the formatting functions work
    from: the date and clock in the time's own location, the nanosecond
    within the second, and the zone's abbreviation and offset in seconds
    east of UTC. *)
Record Time := mkTime {
  Year : Z; Month : Z; Day : Z;
  Hour : Z; Minute : Z; Second : Z; Nanosecond : Z;
  ZoneName : string; ZoneOffset : Z
}.

(** Days since 1970-01-01 of a civil date. *)
Definition daysFromCivil (y m d : Z) : Z :=
  let y' := if m <=? 2 then y - 1 else y in
  let era := y' / 400 in
  let yoe := y' - era * 400 in
  let doy := (153 * (if 2 <? m then m - 3 else m + 9) + 2) / 5 + d - 1 in
  era * 146097 + (yoe * 365 + yoe / 4 - yoe / 100 + doy) - 719468.

(** 0 is Sunday. *)
Definition Weekday (t : Time) : Z := (daysFromCivil (Year t) (Month t) (Day t) + 4) mod 7.

Definition dayName (w : Z) : string :=
  nth (Z.to_nat w) ["Sun"; "Mon"; "Tue"; "Wed"; "Thu"; "Fri"; "Sat"]%string "%!Weekday"%string.

Definition monthName (m : Z) : string :=
  nth (Z.to_nat (m - 1))
      ["Jan"; "Feb"; "Mar"; "Apr"; "May"; "Jun"; "Jul"; "Aug"; "Sep"; "Oct"; "Nov"; "Dec"]%string
      "%!Month"%string.

Definition clockText (t : Time) : string :=
  appendInt (Hour t) 2 +:+ ":" +:+ appendInt (Minute t) 2 +:+ ":" +:+ appendInt (Second t) 2.

(** The zone of RFC 3339, "Z07:00". *)
Definition zoneColon (offset : Z) : string :=
  if offset =? 0 then "Z"%string
  else
    let zone := Z.quot offset 60 in
    (if zone <? 0 then "-" else "+") +:+
    appendInt (Z.quot (Z.abs zone) 60) 2 +:+ ":" +:+ appendInt (Z.rem (Z.abs zone) 60) 2.

(** t.Format(time.RFC3339), layout "2006-01-02T15:04:05Z07:00". *)
Definition FormatRFC3339 (t : Time) : string :=
  appendInt (Year t) 4 +:+ "-" +:+ appendInt (Month t) 2 +:+ "-" +:+ appendInt (Day t) 2 +:+
  "T" +:+ clockText t +:+ zoneColon (ZoneOffset t).

(** The zone of UnixDate, "MST": the abbreviation, or the offset when the
    zone has none. *)
Definition zoneAbbrev (t : Time) : string :=
  if String.eqb (ZoneName t) "" then
    let zone := Z.quot (ZoneOffset t) 60 in
    (if zone <? 0 then "-" else "+") +:+
    appendInt (Z.quot (Z.abs zone) 60) 2 +:+ appendInt (Z.rem (Z.abs zone) 60) 2
  else ZoneName t.

(** t.Format(time.UnixDate), layout "Mon Jan _2 15:04:05 MST 2006". *)
Definition FormatUnixDate (t : Time) : string :=
  dayName (Weekday t) +:+ " " +:+ monthName (Month t) +:+ " " +:+
  (if Day t <? 10 then " " else "") +:+ appendInt (Day t) 0 +:+ " " +:+
  clockText t +:+ " " +:+ zoneAbbrev t +:+ " " +:+ appendInt (Year t) 4.

(* ===================================================================== *)
(** ** Data model *)
(* ===================================================================== *)

(** Modelled from the spec: the commit record, whose declaration is in a
    file of package main that is not available; the fields are those of
    the specification's data model, under the names createCommitID and
    dbUpload use. *)
Record commit := mkCommit {
  AuthorEmail : string;
  AuthorName : string;
  CommitterEmail : string;
  CommitterName : string;
  ID : string;
  Message : string;
  Parent : string;
  Timestamp : Time;
  Tree : string
}.

(** Modelled from the spec: the entry type and its constant DATABASE,
    declared in the same missing file. createDBTreeID converts the type
    to a string, so it is one; the value of the constant is not known,
    and nothing below depends on it but that it holds no zero byte. *)
Definition dbTreeEntryType := string.
Definition DATABASE : dbTreeEntryType := "db"%string.

(** Modelled from the spec: the tree entry tuple (entry_type, blob_digest,
    name, last_modified, size_bytes), under the names createDBTreeID
    uses. *)
Record dbTreeEntry := mkEntry {
  AType : dbTreeEntryType;
  Sha256 : string;
  Name : string;
  Last_Modified : Time;
  Size : Z
}.

(** Modelled from the spec: a tree is its identifier and its ordered
    entries. The field ID of the source is [TreeID] here, [ID] being the
    commit's. *)
Record dbTree := mkTree {
  TreeID : string;
  Entries : list dbTreeEntry
}.

(** The zero value of time.Time. *)
Definition zeroTime : Time := mkTime 1 1 1 0 0 0 0 "UTC" 0.

(* ===================================================================== *)
(** ** api/backend.go: identifiers *)
(* ===================================================================== *)

(** bytes.Buffer, written to by state passing. *)
Definition Buffer := string.
Definition WriteString (b : Buffer) (s : string) : Buffer := b +:+ s.
Definition WriteByte (b : Buffer) (c : ascii) : Buffer := b +:+ String c EmptyString.

Definition NUL : ascii := Ascii.zero.
Definition LF : ascii := "010"%char.
Definition nl : string := String LF EmptyString.

(** The bytes createCommitID hashes. *)
Definition commitBytes (c : commit) : Buffer :=
  let b := EmptyString in
  let b := WriteString b ("tree " +:+ Tree c +:+ nl) in
  let b := if negb (String.eqb (Parent c) "")
           then WriteString b ("parent " +:+ Parent c +:+ nl) else b in
  let b := WriteString b ("author " +:+ AuthorName c +:+ " <" +:+ AuthorEmail c +:+ "> " +:+
                          FormatUnixDate (Timestamp c) +:+ nl) in
  let b := if negb (String.eqb (CommitterEmail c) "")
           then WriteString b ("committer " +:+ CommitterName c +:+ " <" +:+ CommitterEmail c +:+
                               "> " +:+ FormatUnixDate (Timestamp c) +:+ nl)
           else b in
  let b := WriteString b (nl +:+ Message c) in
  WriteByte b NUL.

Definition createCommitID (c : commit) : string :=
  EncodeToString (Sum256 (commitBytes c)).

(** One turn of the loop of createDBTreeID. *)
Definition writeEntry (b : Buffer) (j : dbTreeEntry) : Buffer :=
  let b := WriteString b (AType j) in
  let b := WriteByte b NUL in
  let b := WriteString b (Sha256 j) in
  let b := WriteByte b NUL in
  let b := WriteString b (Name j) in
  let b := WriteByte b NUL in
  let b := WriteString b (FormatRFC3339 (Last_Modified j)) in
  let b := WriteByte b NUL in
  WriteString b (fmt_d (Size j) +:+ nl).

(** The bytes createDBTreeID hashes. *)
Definition treeBytes (entries : list dbTreeEntry) : Buffer :=
  fold_left writeEntry entries EmptyString.

Definition createDBTreeID (entries : list dbTreeEntry) : string :=
  EncodeToString (Sum256 (treeBytes entries)).

(* ===================================================================== *)
(** ** encoding/json: the text of a stored document *)
(* ===================================================================== *)

(** Only the length of this text is ever observed (os.Stat on an object
    file); what a stored document decodes to is kept in the store as the
    value itself, see [content] below. *)
Module JSON.
Definition dq : string := String (ascii_of_nat 34) EmptyString.

Definition escape (a : ascii) : string :=
  let n := Z.of_N (N_of_ascii a) in
  let u := "\u00" +:+ String (hexdigit (n / 16)) (String (hexdigit (n mod 16)) EmptyString) in
  if n =? 34 then "\" +:+ dq
  else if n =? 92 then "\\"
  else if n =? 10 then "\n"
  else if n =? 13 then "\r"
  else if n =? 9 then "\t"
  else if (n <? 32) || (n =? 60) || (n =? 62) || (n =? 38) then u
  else String a EmptyString.

Fixpoint escapes (s : string) : string :=
  match s with
  | EmptyString => EmptyString
  | String a r => escape a +:+ escapes r
  end.

Definition str (s : string) : string := dq +:+ escapes s +:+ dq.

Fixpoint dropZeros (rev_digits : list ascii) : list ascii :=
  match rev_digits with
  | "0"%char :: r => dropZeros r
  | _ => rev_digits
  end.

(** Layout RFC3339Nano: the fraction loses its trailing zeros. *)
Definition time (t : Time) : string :=
  let frac := string_of_list_ascii
                (rev (dropZeros (rev (list_ascii_of_string (appendInt (Nanosecond t) 9))))) in
  dq +:+
  appendInt (Year t) 4 +:+ "-" +:+ appendInt (Month t) 2 +:+ "-" +:+ appendInt (Day t) 2 +:+
  "T" +:+ clockText t +:+
  (if String.eqb frac "" then "" else "." +:+ frac) +:+ zoneColon (ZoneOffset t) +:+ dq.

(** Time.MarshalJSON refuses a year outside 0..9999. *)
Definition timeOK (t : Time) : bool := (0 <=? Year t) && (Year t <=? 9999).

Definition field (indent name value : string) : string :=
  indent +:+ dq +:+ name +:+ dq +:+ ": " +:+ value.

Fixpoint join (sep : string) (l : list string) : string :=
  match l with
  | [] => EmptyString
  | [x] => x
  | x :: r => x +:+ sep +:+ join sep r
  end.

Definition object (outer : string) (fields : list string) : string :=
  "{" +:+ nl +:+ join ("," +:+ nl) fields +:+ nl +:+ outer +:+ "}".

(** json.MarshalIndent(c, "", " ") *)
Definition commitText (c : commit) : string :=
  object ""
    [ field " " "AuthorEmail" (str (AuthorEmail c));
      field " " "AuthorName" (str (AuthorName c));
      field " " "CommitterEmail" (str (CommitterEmail c));
      field " " "CommitterName" (str (CommitterName c));
      field " " "ID" (str (ID c));
      field " " "Message" (str (Message c));
      field " " "Parent" (str (Parent c));
      field " " "Timestamp" (time (Timestamp c));
      field " " "Tree" (str (Tree c)) ].

Definition entryText (e : dbTreeEntry) : string :=
  "  " +:+
  object "  "
    [ field "   " "AType" (str (AType e));
      field "   " "Sha256" (str (Sha256 e));
      field "   " "Name" (str (Name e));
      field "   " "Last_Modified" (time (Last_Modified e));
      field "   " "Size" (fmt_d (Size e)) ].

(** json.MarshalIndent(t, "", " ") *)
Definition treeText (t : dbTree) : string :=
  object ""
    [ field " " "ID" (str (TreeID t));
      field " " "Entries"
        (match Entries t with
         | [] => "null"%string
         | es => "[" +:+ nl +:+ join ("," +:+ nl) (map entryText es) +:+ nl +:+ " ]"
         end) ].
(** The order encoding/json writes the keys of a map in: by their
    bytes. *)
Definition keyLe (a b : string * string) : Prop := String.leb (fst a) (fst b) = true.

#[global] Instance keyLe_dec (a b : string * string) : Decision (keyLe a b).
Proof. unfold keyLe. apply _. Defined.

Definition pair (kv : string * string) : string :=
  " " +:+ str (fst kv) +:+ ": " +:+ str (snd kv).

(** json.MarshalIndent(branches, "", " ") *)
Definition headsText (branches : gmap string string) : string :=
  match merge_sort keyLe (map_to_list branches) with
  | [] => "{}"%string
  | kvs => object "" (map pair kvs)
  end.
End JSON.

(* ===================================================================== *)
(** ** The storage directory *)
(* ===================================================================== *)

(** The three kinds of path the server builds under STORAGEDIR, by the
    name that goes into filepath.Join. The join is cleaned, so a name
    with a separator or a dot element can come to lie elsewhere:
    [located] below tells where. For a name that is one path element
    ([plainName]) each path is the place its kind and name say, and no
    two are the same place ([located_plain_inj]). *)
Inductive path :=
  | FilesPath (name : string)      (* STORAGEDIR/files/<name> *)
  | MetaDir (dbName : string)      (* STORAGEDIR/meta/<dbName> *)
  | BranchHeads (dbName : string). (* STORAGEDIR/meta/<dbName>/branchHeads *)

#[global] Instance path_eq_dec : EqDecision path.
Proof. solve_decision. Defined.

#[global] Instance path_countable : Countable path :=
  inj_countable'
    (fun p => match p with
              | FilesPath n => inl n
              | MetaDir d => inr (inl d)
              | BranchHeads d => inr (inr d)
              end)
    (fun s => match s with
              | inl n => FilesPath n
              | inr (inl d) => MetaDir d
              | inr (inr d) => BranchHeads d
              end)
    (fun p => match p with
              | FilesPath _ | MetaDir _ | BranchHeads _ => eq_refl
              end).

(** The elements of a name, cut at the separator. *)
Fixpoint elementsFrom (current : string) (s : string) : list string :=
  match s with
  | EmptyString => [current]
  | String a r =>
      if Ascii.eqb a "/" then current :: elementsFrom EmptyString r
      else elementsFrom (current +:+ String a EmptyString) r
  end.

Definition elements (s : string) : list string := elementsFrom EmptyString s.

(** filepath.Clean, element by element: empty and "." elements go, and
    ".." takes the element before it with it; [done] holds the elements
    kept so far, last first. *)
Fixpoint cleanOnto (done todo : list string) : list string :=
  match todo with
  | [] => rev done
  | e :: rest =>
      if String.eqb e "" || String.eqb e "." then cleanOnto done rest
      else if String.eqb e ".." then
        match done with
        | [] => cleanOnto [e] rest
        | d :: done' => if String.eqb d ".." then cleanOnto (e :: done) rest
                        else cleanOnto done' rest
        end
      else cleanOnto (e :: done) rest
  end.

(** Where a path lies under STORAGEDIR: the elements of
    filepath.Join(STORAGEDIR, "files", name) and the like, after
    STORAGEDIR. *)
Definition located (p : path) : list string :=
  cleanOnto []
    match p with
    | FilesPath name => "files"%string :: elements name
    | MetaDir dbName => "meta"%string :: elements dbName
    | BranchHeads dbName => "meta"%string :: elements dbName ++ ["branchHeads"%string]
    end.

Fixpoint noSeparator (s : string) : bool :=
  match s with
  | EmptyString => true
  | String a r => negb (Ascii.eqb a "/") && noSeparator r
  end.

(** A name that is one path element: not empty, not a dot element, with
    no separator in it. *)
Definition plainName (s : string) : bool :=
  negb (String.eqb s "") && negb (String.eqb s ".") && negb (String.eqb s "..") &&
  noSeparator s.

Definition plainPath (p : path) : bool :=
  match p with
  | FilesPath name => plainName name
  | MetaDir dbName | BranchHeads dbName => plainName dbName
  end.

(** utf8.ValidString, on the bytes of a string. *)
Definition continuation (b : Z) : bool := (128 <=? b) && (b <=? 191).

Definition second (a b : Z) : bool :=
  if a =? 224 then (160 <=? b) && (b <=? 191)
  else if a =? 237 then (128 <=? b) && (b <=? 159)
  else if a =? 240 then (144 <=? b) && (b <=? 191)
  else if a =? 244 then (128 <=? b) && (b <=? 143)
  else continuation b.

Fixpoint validBytes (l : list Z) : bool :=
  match l with
  | [] => true
  | a :: r =>
      if a <? 128 then validBytes r
      else
        match r with
        | [] => false
        | b :: r1 =>
            if (194 <=? a) && (a <=? 223) then continuation b && validBytes r1
            else
              match r1 with
              | [] => false
              | c :: r2 =>
                  if (224 <=? a) && (a <=? 239) then
                    second a b && continuation c && validBytes r2
                  else
                    match r2 with
                    | [] => false
                    | d :: r3 =>
                        (240 <=? a) && (a <=? 244) && second a b && continuation c &&
                        continuation d && validBytes r3
                    end
              end
        end
  end.

Definition validUTF8 (s : string) : bool := validBytes (bytes_of s).

(** What a path holds. A JSON document is kept as the value it decodes
    to; raw bytes are a [Blob]. Decoding raw bytes, or a document of
    another kind than the one asked for, is taken to fail. A handler
    that stores a branch table is taken to leave the document of that
    table: so it is where the branch name the request brings is valid
    UTF-8 ([validUTF8]); encoding/json writes U+FFFD for the bytes of a
    string that are not, and the file then decodes to another table. *)
Inductive content :=
  | Dir
  | Blob (data : string)
  | TreeDoc (t : dbTree)
  | CommitDoc (c : commit)
  | HeadsDoc (branches : gmap string string).

(** FileInfo.Size. The code reads the size of files under files/ only;
    0 stands for the size of a directory and of a branch table. *)
Definition fileSize (d : content) : Z :=
  match d with
  | Dir => 0
  | Blob data => Z.of_nat (String.length data)
  | TreeDoc t => Z.of_nat (String.length (JSON.treeText t))
  | CommitDoc c => Z.of_nat (String.length (JSON.commitText c))
  | HeadsDoc _ => 0
  end.

(** The bytes of a file that holds [d]. *)
Definition textOf (d : content) : string :=
  match d with
  | Dir => ""%string
  | Blob data => data
  | TreeDoc t => JSON.treeText t
  | CommitDoc c => JSON.commitText c
  | HeadsDoc branches => JSON.headsText branches
  end.

(** What a file holds when only the first [n] bytes of [d] got into it:
    a document cut short does not decode. *)
Definition cut (n : nat) (d : content) : content :=
  if (n <? String.length (textOf d))%nat then Blob (substring 0 n (textOf d)) else d.

(** The world a handler runs in: the directory tree, the paths at which
    a write or mkdir fails, the readings the clock is going to give, the
    log of the paths written so far, oldest first, and what a write that
    fails leaves of the file: ioutil.WriteFile opens the file with
    O_TRUNC and then writes and closes it, so when it fails the file is
    as it was ([None]: it was not opened), or holds the first bytes of
    the data ([Some n]: the first [n], all of them when there are no
    more). *)
Record world := mkWorld {
  disk : gmap path content;
  faulty : path -> bool;
  clock : list Time;
  trace : list path;
  torn : path -> option nat
}.

Definition setDisk (w : world) (p : path) (d : content) : world :=
  {| disk := <[p := d]> (disk w); faulty := faulty w; clock := clock w;
     trace := trace w ++ [p]; torn := torn w |}.

(** The calls a handler makes to its environment. os.Stat fails exactly
    when nothing is at the path; a mkdir that fails leaves the directory
    tree as it was; a write that fails leaves what [torn] says. *)
Inductive op : Type -> Type :=
  | Stat (p : path) : op (option Z)                  (* the size, or an error *)
  | MkdirAll (p : path) : op bool                    (* true: no error *)
  | ReadFile (p : path) : op (option content)
  | WriteFile (p : path) (d : content) : op bool     (* true: no error *)
  | Now : op Time.

(** A file can be written where its directory exists; files/ and meta/
    are made by main before the server starts. *)
Definition parentReady (w : world) (p : path) : bool :=
  match p with
  | BranchHeads db => match disk w !! MetaDir db with Some Dir => true | _ => false end
  | _ => true
  end.

Definition isDir (w : world) (p : path) : bool :=
  match disk w !! p with Some Dir => true | _ => false end.

Definition perform {X} (o : op X) (w : world) : X * world :=
  match o in op X return X * world with
  | Stat p => (fileSize <$> disk w !! p, w)
  | MkdirAll p =>
      if faulty w p then (false, w)
      else match disk w !! p with
           | Some Dir => (true, w)
           | Some _ => (false, w)
           | None => (true, setDisk w p Dir)
           end
  | ReadFile p =>
      (match disk w !! p with Some Dir => None | r => r end, w)
  | WriteFile p d =>
      if negb (parentReady w p) || isDir w p then (false, w)
      else if faulty w p then
        (false, match torn w p with
                | None => w
                | Some n => setDisk w p (cut n d)
                end)
      else (true, setDisk w p d)
  | Now =>
      (hd zeroTime (clock w),
       {| disk := disk w; faulty := faulty w; clock := tl (clock w); trace := trace w;
          torn := torn w |})
  end.

(** Handlers are programs over these calls. *)
Inductive prog (A : Type) : Type :=
  | Ret (a : A)
  | Vis {X : Type} (o : op X) (k : X -> prog A).
Arguments Ret {A} a.
Arguments Vis {A X} o k.

Fixpoint bind {A B} (p : prog A) (f : A -> prog B) : prog B :=
  match p with
  | Ret a => f a
  | Vis o k => Vis o (fun x => bind (k x) f)
  end.

Definition call {X} (o : op X) : prog X := Vis o Ret.

Notation "x <- c ;; k" := (bind c (fun x => k))
  (at level 100, c at next level, right associativity).

(** A handler run from start to end, alone. *)
Fixpoint run {A} (p : prog A) (w : world) : A * world :=
  match p with
  | Ret a => (a, w)
  | Vis o k => let '(x, w') := perform o w in run (k x) w'
  end.

(** One call of a handler; a finished handler stays as it is. *)
Definition step {A} (p : prog A) (w : world) : prog A * world :=
  match p with
  | Ret a => (Ret a, w)
  | Vis o k => let '(x, w') := perform o w in (k x, w')
  end.

(** Handlers served at the same time: [sched] names, call by call, the
    handler that makes the next call. *)
Fixpoint interleave {A} (sched : list nat) (pool : list (prog A)) (w : world)
  : list (prog A) * world :=
  match sched with
  | [] => (pool, w)
  | i :: rest =>
      match pool !! i with
      | None => interleave rest pool w
      | Some p => let '(p', w') := step p w in interleave rest (<[i := p']> pool) w'
      end
  end.

Definition finished {A} (p : prog A) : option A :=
  match p with Ret a => Some a | Vis _ _ => None end.

(* ===================================================================== *)
(** ** api/backend.go: the store *)
(* ===================================================================== *)

(** A Go error value; a function that returns error returns
    [option gerror], [None] for nil. *)
Inductive gerror :=
  | ErrIO (p : path)
  | ErrJSON.

Inductive result (A : Type) :=
  | Ok (a : A)
  | Err (e : gerror).
Arguments Ok {A} a.
Arguments Err {A} e.

Definition errorOf (p : path) (ok : bool) : option gerror :=
  if ok then None else Some (ErrIO p).

(** Check if a database already exists. *)
Definition dbExists (dbName : string) : prog bool :=
  f <- call (Stat (FilesPath dbName)) ;;
  Ret (match f with
       | None => false
       | Some _ => true
       end).

(** Load the branch heads for a database. backend.go declares the result
    a slice of branch; the handlers index it by branch name and store
    commit ids in it, so it is the map from branch name to commit id
    they use. *)
Definition getBranches (dbName : string) : prog (result (gmap string string)) :=
  b <- call (ReadFile (BranchHeads dbName)) ;;
  Ret (match b with
       | None => Err (ErrIO (BranchHeads dbName))
       | Some (HeadsDoc i) => Ok i
       | Some _ => Err ErrJSON
       end).

(** Store the branch heads for a database. *)
Definition storeBranches (dbName : string) (branches : gmap string string)
  : prog (option gerror) :=
  f <- call (Stat (MetaDir dbName)) ;;
  made <- match f with
          | None => call (MkdirAll (MetaDir dbName))
          | Some _ => Ret true
          end ;;
  if negb made then Ret (Some (ErrIO (MetaDir dbName)))
  else
    ok <- call (WriteFile (BranchHeads dbName) (HeadsDoc branches)) ;;
    Ret (errorOf (BranchHeads dbName) ok).

(** Store a commit. json.MarshalIndent fails on a time it cannot
    write. *)
Definition storeCommit (c : commit) : prog (option gerror) :=
  if negb (JSON.timeOK (Timestamp c)) then Ret (Some ErrJSON)
  else
    ok <- call (WriteFile (FilesPath (ID c)) (CommitDoc c)) ;;
    Ret (errorOf (FilesPath (ID c)) ok).

(** Store a database file. *)
Definition storeDatabase (db : string) : prog (option gerror) :=
  let sha := EncodeToString (Sum256 db) in
  let path := FilesPath sha in
  f <- call (Stat path) ;;
  match f with
  | None =>
      ok <- call (WriteFile path (Blob db)) ;;
      Ret (errorOf path ok)
  | Some size =>
      if negb (Z.of_nat (String.length db) =? size) then
        ok <- call (WriteFile path (Blob db)) ;;
        Ret (errorOf path ok)
      else Ret None
  end.

(** Store a tree. *)
Definition storeTree (t : dbTree) : prog (option gerror) :=
  if negb (forallb (fun e => JSON.timeOK (Last_Modified e)) (Entries t)) then Ret (Some ErrJSON)
  else
    ok <- call (WriteFile (FilesPath (TreeID t)) (TreeDoc t)) ;;
    Ret (errorOf (FilesPath (TreeID t)) ok).

(** Modelled from the spec: getCommit, which branchHistory calls and
    whose body is not available. A commit is looked up under its
    identifier in the object area, where storeCommit puts it; a missing
    object, or one that is not a commit document, is an error. *)
Definition getCommit (id : string) : prog (result commit) :=
  b <- call (ReadFile (FilesPath id)) ;;
  Ret (match b with
       | None => Err (ErrIO (FilesPath id))
       | Some (CommitDoc c) => Ok c
       | Some _ => Err ErrJSON
       end).

(* ===================================================================== *)
(** ** The request handlers *)
(* ===================================================================== *)

Record Request := mkRequest {
  Header : gmap string string;
  ParseFormError : option string;   (* what Request.ParseForm returns *)
  Form : gmap string string;
  Body : string
}.

Definition HeaderGet (r : Request) (key : string) : string := default ""%string (Header r !! key).
Definition FormValue (r : Request) (key : string) : string := default ""%string (Form r !! key).

Inductive payload :=
  | NoBody
  | ErrorString (s : string)
  | CommitsJson (history : list commit)
  | BranchesJson (branches : gmap string string).

Record Response := mkResponse {
  StatusCode : Z;
  Location : option string;
  Payload : payload
}.

Definition StatusOK : Z := 200.
Definition StatusCreated : Z := 201.
Definition StatusNoContent : Z := 204.
Definition StatusBadRequest : Z := 400.
Definition StatusNotFound : Z := 404.
Definition StatusConflict : Z := 409.
Definition StatusInternalServerError : Z := 500.

Definition WriteHeader (status : Z) : Response := mkResponse status None NoBody.
Definition WriteErrorString (status : Z) (msg : string) : Response :=
  mkResponse status None (ErrorString msg).
Definition WriteAsJson (v : payload) : Response := mkResponse StatusOK None v.

Definition isEmpty (s : string) : bool := String.eqb s "".

(** Creates a new branch for a database. *)
Definition branchCreate (r : Request) : prog Response :=
  match ParseFormError r with
  | Some err => Ret (WriteErrorString StatusBadRequest err)
  | None =>
      let dbName := FormValue r "database" in
      let fromBranch := FormValue r "from-branch" in
      let newBranch := FormValue r "new-branch" in
      if isEmpty dbName || isEmpty fromBranch || isEmpty newBranch then
        Ret (WriteHeader StatusBadRequest)
      else
        found <- dbExists dbName ;;
        if negb found then Ret (WriteHeader StatusNotFound)
        else
          loaded <- getBranches dbName ;;
          match loaded with
          | Err _ => Ret (WriteHeader StatusInternalServerError)
          | Ok branches =>
              match branches !! fromBranch with
              | None => Ret (WriteHeader StatusNotFound)
              | Some fromId =>
                  match branches !! newBranch with
                  | Some _ => Ret (WriteHeader StatusConflict)
                  | None =>
                      let branches := <[newBranch := fromId]> branches in
                      err <- storeBranches dbName branches ;;
                      match err with
                      | Some _ => Ret (WriteHeader StatusInternalServerError)
                      | None => Ret (WriteHeader StatusNoContent)
                      end
                  end
              end
          end
  end.

(** The loop of branchHistory: [c] is the commit loaded last, [history]
    what has been collected. The loop of the source has no bound; the
    walk gives [None] when [fuel] turns are not enough. *)
Fixpoint historyLoop (fuel : nat) (c : commit) (history : list commit)
  : prog (option Response) :=
  if negb (isEmpty (Parent c)) then
    match fuel with
    | O => Ret None
    | S fuel' =>
        loaded <- getCommit (Parent c) ;;
        match loaded with
        | Err _ => Ret (Some (WriteHeader StatusInternalServerError))
        | Ok c' => historyLoop fuel' c' (history ++ [c'])
        end
    end
  else Ret (Some (WriteAsJson (CommitsJson history))).

(** Returns the history for a branch. *)
Definition branchHistory (fuel : nat) (r : Request) : prog (option Response) :=
  let dbName := HeaderGet r "Database" in
  let branchName := HeaderGet r "Branch" in
  if isEmpty dbName || isEmpty branchName then Ret (Some (WriteHeader StatusBadRequest))
  else
    found <- dbExists dbName ;;
    if negb found then Ret (Some (WriteHeader StatusNotFound))
    else
      loaded <- getBranches dbName ;;
      match loaded with
      | Err _ => Ret (Some (WriteHeader StatusInternalServerError))
      | Ok branches =>
          match branches !! branchName with
          | None => Ret (Some (WriteHeader StatusNotFound))
          | Some id =>
              first <- getCommit id ;;
              match first with
              | Err _ => Ret (Some (WriteHeader StatusInternalServerError))
              | Ok c => historyLoop fuel c [c]
              end
          end
      end.

(** Returns the list of branch heads for a database. *)
Definition branchList (r : Request) : prog Response :=
  let dbName := HeaderGet r "Database" in
  if isEmpty dbName then Ret (WriteHeader StatusBadRequest)
  else
    found <- dbExists dbName ;;
    if negb found then Ret (WriteHeader StatusNotFound)
    else
      loaded <- getBranches dbName ;;
      match loaded with
      | Err _ => Ret (WriteHeader StatusInternalServerError)
      | Ok branches => Ret (WriteAsJson (BranchesJson branches))
      end.

Definition setParent (c : commit) (id : string) : commit :=
  mkCommit (AuthorEmail c) (AuthorName c) (CommitterEmail c) (CommitterName c)
           (ID c) (Message c) id (Timestamp c) (Tree c).

Definition setID (c : commit) (id : string) : commit :=
  mkCommit (AuthorEmail c) (AuthorName c) (CommitterEmail c) (CommitterName c)
           id (Message c) (Parent c) (Timestamp c) (Tree c).

(** The tree dbUpload builds for the body [buf], read at [now]. *)
Definition uploadTree (dbName buf : string) (now : Time) : dbTree :=
  let e := {| AType := DATABASE;
              Sha256 := EncodeToString (Sum256 buf);
              Name := dbName;
              Last_Modified := now;
              Size := Z.of_nat (String.length buf) |} in
  let entries := [] ++ [e] in
  {| TreeID := createDBTreeID entries; Entries := entries |}.

(** The commit dbUpload builds before it knows the parent; the fields it
    does not assign are empty. *)
Definition uploadCommit (t : dbTree) (now : Time) : commit :=
  {| AuthorEmail := "justin@postgresql.org";
     AuthorName := "Justin Clift";
     CommitterEmail := "";
     CommitterName := "";
     ID := "";
     Message := "";
     Parent := "";
     Timestamp := now;
     Tree := TreeID t |}.

(** The second half of dbUpload, from "Write the database to disk" on. *)
Definition uploadStore (dbName branchName buf : string) (t : dbTree) (c : commit)
    (branches : gmap string string) : prog Response :=
  err <- storeDatabase buf ;;
  match err with
  | Some _ => Ret (WriteHeader StatusInternalServerError)
  | None =>
      err <- storeTree t ;;
      match err with
      | Some _ => Ret (WriteHeader StatusInternalServerError)
      | None =>
          err <- storeCommit c ;;
          match err with
          | Some _ => Ret (WriteHeader StatusInternalServerError)
          | None =>
              err <- storeBranches dbName branches ;;
              match err with
              | Some _ => Ret (WriteHeader StatusInternalServerError)
              | None => Ret (mkResponse StatusCreated (Some ("/" +:+ dbName)) NoBody)
              end
          end
      end
  end.

(** Upload a database. *)
Definition dbUpload (r : Request) : prog Response :=
  let dbName := HeaderGet r "Name" in
  let branchName := HeaderGet r "Branch" in
  if isEmpty dbName || isEmpty branchName then Ret (WriteHeader StatusBadRequest)
  else
    let branchName := if isEmpty branchName then "master"%string else branchName in
    let buf := Body r in
    now <- call Now ;;
    let t := uploadTree dbName buf now in
    now <- call Now ;;
    let c := uploadCommit t now in
    found <- dbExists dbName ;;
    if found then
      loaded <- getBranches dbName ;;
      match loaded with
      | Err _ => Ret (WriteHeader StatusInternalServerError)
      | Ok branches =>
          let c := match branches !! branchName with
                   | Some id => setParent c id
                   | None => c
                   end in
          let c := setID c (createCommitID c) in
          let branches := <[branchName := ID c]> branches in
          uploadStore dbName branchName buf t c branches
      end
    else
      let c := setID c (createCommitID c) in
      let branches := <[branchName := ID c]> (∅ : gmap string string) in
      uploadStore dbName branchName buf t c branches.

(* ===================================================================== *)
(** ** main: the routes *)
(* ===================================================================== *)

Inductive handler :=
  | BranchCreate | BranchHistory | BranchList | DbUpload | DbDownload | DbList.

Record Route := mkRoute {
  RouteMethod : string;
  RoutePath : string;
  RouteConsumes : option string;
  RouteTo : handler
}.

(** The routes main adds to the web service. *)
Definition routes : list Route :=
  [ mkRoute "POST" "/branch_create" (Some "application/x-www-form-urlencoded"%string)
            BranchCreate;
    mkRoute "GET" "/branch_history" None BranchHistory;
    mkRoute "GET" "/branch_list" None BranchList;
    mkRoute "PUT" "/db_upload" None DbUpload;
    mkRoute "GET" "/db_download" None DbDownload;
    mkRoute "GET" "/db_list" None DbList ].

Definition StatusMethodNotAllowed : Z := 405.

(** The routes go-restful finds for a request by its path and its
    method: the routes of the path, and of these the ones of the method.
    The content types are matched after that, and can only turn the
    request away. *)
Definition routesOf (method target : string) : list Route :=
  List.filter (fun rt => String.eqb (RouteMethod rt) method)
    (List.filter (fun rt => String.eqb (RoutePath rt) target) routes).

(** The status go-restful answers with, no handler being called, when
    no route is found: 404 when no route has the path, 405 when routes
    have the path and none of them has the method. *)
Definition refused (method target : string) : option Z :=
  match List.filter (fun rt => String.eqb (RoutePath rt) target) routes with
  | [] => Some StatusNotFound
  | _ :: _ =>
      match routesOf method target with
      | [] => Some StatusMethodNotAllowed
      | _ :: _ => None
      end
  end.

(* ===================================================================== *)
(** ** Definitions the statements use *)
(* ===================================================================== *)

Definition sep (c : ascii) : string := String c EmptyString.

(** [freeb c s]: the byte [c] does not occur in [s]. *)
Fixpoint freeb (c : ascii) (s : string) : bool :=
  match s with
  | EmptyString => true
  | String a r => negb (Ascii.eqb a c) && freeb c r
  end.

(** A byte that is neither a decimal digit nor the minus sign. *)
Definition plainSep (c : ascii) : bool := freeb c "-0123456789".

Fixpoint concatBytes (l : list string) : string :=
  match l with
  | [] => EmptyString
  | s :: r => s +:+ concatBytes r
  end.

(** *** Commit serialization, as the specification words it *)

Definition treeLine (c : commit) : string := "tree " +:+ Tree c +:+ nl.
Definition parentLine (c : commit) : string := "parent " +:+ Parent c +:+ nl.
Definition authorLine (c : commit) : string :=
  "author " +:+ AuthorName c +:+ " <" +:+ AuthorEmail c +:+ "> " +:+
  FormatUnixDate (Timestamp c) +:+ nl.
Definition committerLine (c : commit) : string :=
  "committer " +:+ CommitterName c +:+ " <" +:+ CommitterEmail c +:+ "> " +:+
  FormatUnixDate (Timestamp c) +:+ nl.

Definition optional (present : bool) (line : string) : string :=
  if present then line else EmptyString.

(** Tree line, parent line only if present, author line, committer line
    only if [committerShown], blank line, message, sentinel byte. *)
Definition canonical (committerShown : commit → bool) (c : commit) : string :=
  concatBytes
    [ treeLine c;
      optional (negb (isEmpty (Parent c))) (parentLine c);
      authorLine c;
      optional (committerShown c) (committerLine c);
      nl;
      Message c;
      sep NUL ].

(** The specification's rule: both committer fields are non-empty. *)
Definition bothCommitterFields (c : commit) : bool :=
  negb (isEmpty (CommitterName c)) && negb (isEmpty (CommitterEmail c)).

(** The rule of createCommitID: the committer email is non-empty. *)
Definition committerEmailGiven (c : commit) : bool := negb (isEmpty (CommitterEmail c)).

(** Two commits with the same field values; the identifier is what is
    being computed and is not among them. *)
Definition sameFields (c c' : commit) : Prop :=
  Tree c = Tree c' ∧ Parent c = Parent c' ∧
  AuthorName c = AuthorName c' ∧ AuthorEmail c = AuthorEmail c' ∧
  CommitterName c = CommitterName c' ∧ CommitterEmail c = CommitterEmail c' ∧
  Timestamp c = Timestamp c' ∧ Message c = Message c'.

(** *** Tree serialization *)

(** The bytes of one tree entry: four fields each closed by a zero byte,
    then the size in decimal and a line feed. *)
Definition entryBytes (j : dbTreeEntry) : string :=
  AType j +:+ sep NUL +:+ Sha256 j +:+ sep NUL +:+ Name j +:+ sep NUL +:+
  FormatRFC3339 (Last_Modified j) +:+ sep NUL +:+ fmt_d (Size j) +:+ nl.

(** What the bytes of an entry retain of it: the modification time only
    as RFC 3339 prints it, to the second. *)
Definition entryFields (j : dbTreeEntry) : string * string * string * string * Z :=
  (AType j, Sha256 j, Name j, FormatRFC3339 (Last_Modified j), Size j).

(** No zero byte in the type, digest and name of an entry. *)
Definition nulFree (j : dbTreeEntry) : bool :=
  freeb NUL (AType j) && freeb NUL (Sha256 j) && freeb NUL (Name j).

(** *** Reading the store *)

(** os.Stat finds something at [p]. *)
Definition present (w : world) (p : path) : bool :=
  match disk w !! p with
  | Some _ => true
  | None => false
  end.

(** What getBranches gets from a store. *)
Definition loadHeads (w : world) (dbName : string) : result (gmap string string) :=
  match disk w !! BranchHeads dbName with
  | Some (HeadsDoc i) => Ok i
  | Some Dir | None => Err (ErrIO (BranchHeads dbName))
  | Some _ => Err ErrJSON
  end.

(** What getCommit gets from a store. *)
Definition loadCommit (w : world) (id : string) : result commit :=
  match disk w !! FilesPath id with
  | Some (CommitDoc c) => Ok c
  | Some Dir | None => Err (ErrIO (FilesPath id))
  | Some _ => Err ErrJSON
  end.

(** The world after the writes [l], oldest first. *)
Definition written (w : world) (l : list (path * content)) : world :=
  fold_left (fun w pd => setDisk w (fst pd) (snd pd)) l w.

(** The world after [n] readings of the clock. *)
Definition ticked (n : nat) (w : world) : world :=
  {| disk := disk w; faulty := faulty w; clock := drop n (clock w); trace := trace w;
     torn := torn w |}.

(** The [n]-th reading the clock is going to give. *)
Definition reading (w : world) (n : nat) : Time := hd zeroTime (drop n (clock w)).

(** ioutil.WriteFile succeeds at [p]. *)
Definition writable (w : world) (p : path) : bool :=
  negb (faulty w p || negb (parentReady w p) || isDir w p).

(** The world a write of [d] at [p] leaves when it fails: as it was when
    the file could not be opened, and otherwise what [torn] says. *)
Definition failedWrite (w : world) (p : path) (d : content) : world :=
  if negb (parentReady w p) || isDir w p then w
  else match torn w p with
       | None => w
       | Some n => setDisk w p (cut n d)
       end.

(** The response of a successful upload. *)
Definition created (dbName : string) : Response :=
  mkResponse StatusCreated (Some ("/" +:+ dbName)) NoBody.

(** The writes of a complete upload, in the order of the source: the
    database file unless storeDatabase skips it, the tree, the commit,
    the database's meta directory if it has to be made, the branch
    heads. *)
Definition uploadWrites (dbName buf : string) (t : dbTree) (c : commit)
    (branches : gmap string string) (blob dir : bool) : list (path * content) :=
  (if blob then [(FilesPath (EncodeToString (Sum256 buf)), Blob buf)] else []) ++
  [(FilesPath (TreeID t), TreeDoc t); (FilesPath (ID c), CommitDoc c)] ++
  (if dir then [(MetaDir dbName, Dir)] else []) ++
  [(BranchHeads dbName, HeadsDoc branches)].

(** storeDatabase writes the file: nothing is under the digest of the
    bytes, or what is there has another length. *)
Definition blobNeeded (w : world) (buf : string) : bool :=
  match disk w !! FilesPath (EncodeToString (Sum256 buf)) with
  | Some d => negb (Z.of_nat (String.length buf) =? fileSize d)
  | None => true
  end.

(** storeBranches makes the meta directory: os.Stat does not find it. *)
Definition dirNeeded (w : world) (dbName : string) : bool :=
  match disk w !! MetaDir dbName with
  | Some _ => false
  | None => true
  end.

(** The writes the second half of dbUpload is going to make from the
    world [w], if none fails. *)
Definition uploadPlan (dbName buf : string) (t : dbTree) (c : commit)
    (branches : gmap string string) (w : world) : list (path * content) :=
  uploadWrites dbName buf t c branches (blobNeeded w buf) (dirNeeded w dbName).

(** What the second half of dbUpload can come to, from the world [w]:
    the writes done are an initial part [l] of the writes planned; they
    are complete and the response is 201, or they stop short and the
    response is 500, and then the step after [l] has done nothing or was
    a write that failed. *)
Definition uploadOutcome (dbName buf : string) (t : dbTree) (c : commit)
    (branches : gmap string string) (w : world) (out : Response * world) : Prop :=
  let full := uploadPlan dbName buf t c branches w in
  ∃ l : list (path * content),
    l `prefix_of` full ∧
    ((fst out = created dbName ∧ l = full ∧ snd out = written w l) ∨
     (fst out = WriteHeader StatusInternalServerError ∧ l ≠ full ∧
      (snd out = written w l ∨
       ∃ p d, (l ++ [(p, d)]) `prefix_of` full ∧ d ≠ Dir ∧
              snd out = failedWrite (written w l) p d))).

(** The commit dbUpload builds for the request [r] in the world [w]: the
    parent is the head of the branch when the database is found and its
    branch table has the branch. *)
Definition uploadCommitFor (r : Request) (w : world) : commit :=
  let dbName := HeaderGet r "Name" in
  let c := uploadCommit (uploadTree dbName (Body r) (reading w 0)) (reading w 1) in
  let c := if present w (FilesPath dbName) then
             match loadHeads w dbName with
             | Ok branches =>
                 match branches !! HeaderGet r "Branch" with
                 | Some id => setParent c id
                 | None => c
                 end
             | Err _ => c
             end
           else c in
  setID c (createCommitID c).

(** The branch table dbUpload goes on to store. *)
Definition uploadHeadsFor (r : Request) (w : world) : gmap string string :=
  let old := if present w (FilesPath (HeaderGet r "Name")) then
               match loadHeads w (HeaderGet r "Name") with
               | Ok branches => branches
               | Err _ => ∅
               end
             else ∅ in
  <[HeaderGet r "Branch" := ID (uploadCommitFor r w)]> old.

(** The tree dbUpload builds for the request [r] in the world [w], and
    the writes it is going to make, if none fails. *)
Definition uploadTreeFor (r : Request) (w : world) : dbTree :=
  uploadTree (HeaderGet r "Name") (Body r) (reading w 0).

Definition uploadPlanFor (r : Request) (w : world) : list (path * content) :=
  uploadPlan (HeaderGet r "Name") (Body r) (uploadTreeFor r w) (uploadCommitFor r w)
             (uploadHeadsFor r w) w.

(** Two worlds that differ in the clock at most. *)
Definition sameStore (w1 w2 : world) : Prop :=
  disk w1 = disk w2 ∧ faulty w1 = faulty w2 ∧ trace w1 = trace w2 ∧ torn w1 = torn w2.

(** The database is found and its branch table does not load. *)
Definition headsUnreadable (w : world) (dbName : string) : bool :=
  present w (FilesPath dbName) &&
  match loadHeads w dbName with Ok _ => false | Err _ => true end.

(** *** Histories *)

(** [historyOf w id cs]: from the commit [id], following the parents in
    the store [w] gives the commits [cs], and the last has no parent. *)
Inductive historyOf (w : world) : string → list commit → Prop :=
  | history_root id c :
      loadCommit w id = Ok c → Parent c = ""%string → historyOf w id [c]
  | history_step id c cs :
      loadCommit w id = Ok c → Parent c ≠ ""%string →
      historyOf w (Parent c) cs → historyOf w id (c :: cs).

(** [dangling w id n]: following the parents from [id], the commit [n]
    steps away does not load. *)
Inductive dangling (w : world) : string → nat → Prop :=
  | dangling_here id e :
      loadCommit w id = Err e → dangling w id 0
  | dangling_later id c n :
      loadCommit w id = Ok c → Parent c ≠ ""%string →
      dangling w (Parent c) n → dangling w id (S n).

(** What a branch-history request for the branch [branchName] of
    [dbName] comes to in the store [w], once dbExists has found the
    database, and the number of turns of the loop it takes. *)
Inductive historyResult (w : world) (dbName branchName : string) : Response → nat → Prop :=
  | result_no_table e :
      loadHeads w dbName = Err e →
      historyResult w dbName branchName (WriteHeader StatusInternalServerError) 0
  | result_no_branch branches :
      loadHeads w dbName = Ok branches →
      branches !! branchName = None →
      historyResult w dbName branchName (WriteHeader StatusNotFound) 0
  | result_history branches id cs :
      loadHeads w dbName = Ok branches →
      branches !! branchName = Some id → historyOf w id cs →
      historyResult w dbName branchName (WriteAsJson (CommitsJson cs)) (length cs)
  | result_dangling branches id n :
      loadHeads w dbName = Ok branches →
      branches !! branchName = Some id → dangling w id n →
      historyResult w dbName branchName (WriteHeader StatusInternalServerError) n.

(** *** Uploads one after another, and at the same time *)

(** The requests [rs] served by dbUpload one after another. *)
Fixpoint serve (rs : list Request) (w : world) : list Response * world :=
  match rs with
  | [] => ([], w)
  | r :: rest =>
      let '(resp, w1) := run (dbUpload r) w in
      let '(resps, w2) := serve rest w1 in
      (resp :: resps, w2)
  end.

(** The stores the uploads [rs] leave, one after another, from [w]. *)
Fixpoint storesAfter (rs : list Request) (w : world) : list world :=
  match rs with
  | [] => []
  | r :: rest =>
      let w1 := snd (run (dbUpload r) w) in
      w1 :: storesAfter rest w1
  end.

(** The store [w'] has the commit [c], the branch [branchName] of
    [dbName] is at it, and the other branches are where they are in
    [branches]. *)
Definition landed (dbName branchName : string) (branches : gmap string string)
    (c : commit) (w' : world) : Prop :=
  loadCommit w' (ID c) = Ok c ∧
  ∃ heads, loadHeads w' dbName = Ok heads ∧
           heads !! branchName = Some (ID c) ∧
           ∀ other, other ≠ branchName → heads !! other = branches !! other.

(** Each commit has the one before it as its parent; the first has
    [head]. *)
Fixpoint chained (head : string) (cs : list commit) : Prop :=
  match cs with
  | [] => True
  | c :: rest => Parent c = head ∧ chained (ID c) rest
  end.

(** The head of a branch in a table, empty when the branch is not
    there. *)
Definition headOf (branches : gmap string string) (branchName : string) : string :=
  default ""%string (branches !! branchName).

(** A store in which dbExists finds the database, the database's meta
    directory is there, no write fails, and the clock gives years that
    JSON can hold. *)
Definition sound (w : world) (dbName : string) : Prop :=
  present w (FilesPath dbName) = true ∧
  disk w !! MetaDir dbName = Some Dir ∧
  isDir w (BranchHeads dbName) = false ∧
  (∀ p, faulty w p = false) ∧
  (∀ name, isDir w (FilesPath name) = false) ∧
  (∀ n, JSON.timeOK (reading w n) = true).

(** The number of commits in the answer to a branch-history request. *)
Definition historyLength (answer : option Response) : option nat :=
  match answer with
  | Some {| Payload := CommitsJson history |} => Some (length history)
  | _ => None
  end.

(* ===================================================================== *)
(** ** Sample inputs *)
(* ===================================================================== *)

(** A commit with a committer email and no committer name. *)
Definition commitNoName : commit :=
  mkCommit "a@example.org" "A" "c@example.org" "" "" "init" ""
           (mkTime 2023 2 18 18 29 7 0 "UTC" 0)
           "0043a09e65a25fb978c2f8e5dada647202ee1424322e1ac0d20de0ce8fd5a624".

(** The entry of a ten-byte a.db, modified at the given nanosecond of
    2023-02-18 18:29:07 UTC. *)
Definition entryAt (nanosecond : Z) : dbTreeEntry :=
  mkEntry DATABASE "84d89877f0d4041efb6bf91a16f0248f2fd573e6af05c19f96bedb9f882f7882" "a.db"
          (mkTime 2023 2 18 18 29 7 nanosecond "UTC" 0) 10.

Definition atSecond (s : Z) : Time := mkTime 2023 2 18 18 29 s 0 "UTC" 0.

(** An empty storage directory where every write goes through; the clock
    advances by a second from one reading to the next. *)
Definition freshWorld : world :=
  mkWorld ∅ (fun _ => false) (map atSecond [1; 2; 3; 4; 5; 6; 7; 8]) [] (fun _ => None).

Definition headers (l : list (string * string)) : gmap string string := list_to_map l.

(** curl -T a.db -H "Name: a.db" -H "Branch: master", a.db being the ten
    bytes 0123456789. *)
Definition uploadRequest : Request :=
  mkRequest (headers [("Name", "a.db"); ("Branch", "master")]%string) None ∅ "0123456789".

(** The same upload with no Branch header, and a commit message. *)
Definition uploadNoBranch : Request :=
  mkRequest (headers [("Name", "a.db"); ("Message", "init")]%string) None ∅ "0123456789".

(** The world after [uploadRequest] was served in [freshWorld]. *)
Definition afterFirstUpload : world := snd (run (dbUpload uploadRequest) freshWorld).

(** A storage directory where the file named after the digest of "abc"
    holds three other bytes. *)
Definition staleWorld : world :=
  mkWorld {[ FilesPath (EncodeToString (Sum256 "abc")) := Blob "xyz" ]} (fun _ => false) [] []
          (fun _ => None).

(** A storage directory in which dbExists finds a.db, with one branch. *)
Definition forkWorld : world :=
  mkWorld (<[FilesPath "a.db" := Blob ""]>
           (<[MetaDir "a.db" := Dir]>
            {[ BranchHeads "a.db" := HeadsDoc {[ "master"%string := "c1"%string ]} ]}))
          (fun _ => false) [] [] (fun _ => None).

(** curl -d database=a.db -d from-branch=master -d new-branch=dev *)
Definition forkRequest : Request :=
  mkRequest ∅ None
            (headers [("database", "a.db"); ("from-branch", "master"); ("new-branch", "dev")]%string)
            "".

Definition commitWithParent (id parent : string) : commit :=
  mkCommit "justin@postgresql.org" "Justin Clift" "" "" id "" parent (atSecond 1) "t".

(** dbExists finds a.db; master is at c2, whose parent c1 is a root. *)
Definition historyWorld : world :=
  mkWorld (<[FilesPath "a.db" := Blob ""]>
           (<[MetaDir "a.db" := Dir]>
            (<[BranchHeads "a.db" := HeadsDoc {[ "master"%string := "c2"%string ]}]>
             (<[FilesPath "c2" := CommitDoc (commitWithParent "c2" "c1")]>
              {[ FilesPath "c1" := CommitDoc (commitWithParent "c1" "") ]}))))
          (fun _ => false) [] [] (fun _ => None).

(** The same, but the commit c1 is not in the store. *)
Definition danglingWorld : world :=
  mkWorld (<[FilesPath "a.db" := Blob ""]>
           (<[MetaDir "a.db" := Dir]>
            (<[BranchHeads "a.db" := HeadsDoc {[ "master"%string := "c2"%string ]}]>
             {[ FilesPath "c2" := CommitDoc (commitWithParent "c2" "c1") ]})))
          (fun _ => false) [] [] (fun _ => None).

(** curl -H "Database: a.db" -H "Branch: master" *)
Definition historyRequest : Request :=
  mkRequest (headers [("Database", "a.db"); ("Branch", "master")]%string) None ∅ "".

(** [uploadRequest] with a commit message. *)
Definition uploadWithMessage : Request :=
  mkRequest (headers [("Name", "a.db"); ("Branch", "master"); ("Message", "init")]%string)
            None ∅ "0123456789".

(** dbExists finds a.db, and its branch table has no branch yet. *)
Definition servedWorld : world :=
  mkWorld (<[FilesPath "a.db" := Blob ""]>
           (<[MetaDir "a.db" := Dir]>
            {[ BranchHeads "a.db" := HeadsDoc ∅ ]}))
          (fun _ => false) (map atSecond [1; 2; 3; 4; 5; 6; 7; 8]) [] (fun _ => None).

(** [servedWorld], but the write of the branch table of a.db fails when
    [n] bytes have got into the file. *)
Definition tornWorld (n : nat) : world :=
  mkWorld (disk servedWorld) (fun p => bool_decide (p = BranchHeads "a.db"))
          (clock servedWorld) [] (fun _ => Some n).

(** A second upload to master of a.db, of other bytes. *)
Definition uploadOther : Request :=
  mkRequest (headers [("Name", "a.db"); ("Branch", "master")]%string) None ∅ "9876543210".

(** Two uploads served at the same time: each has read the branch table
    (four calls: the clock twice, os.Stat, ioutil.ReadFile) before the
    other writes it. *)
Definition overlapped : list nat :=
  [0; 0; 0; 0; 1; 1; 1; 1; 0; 0; 0; 0; 0; 0; 1; 1; 1; 1; 1; 1]%nat.

(** The same two uploads, the second served after the first is done. *)
Definition inTurn : list nat :=
  [0; 0; 0; 0; 0; 0; 0; 0; 0; 0; 1; 1; 1; 1; 1; 1; 1; 1; 1; 1]%nat.

(* ===================================================================== *)
(** ** Further definitions: stores, chains, identifiers *)
(* ===================================================================== *)

(** A store that takes every write, in which the database [dbName] has
    left no trace yet: nothing under files/ bears its name and it has no
    meta directory. *)
Definition brandNew (w : world) (dbName : string) : Prop :=
  disk w !! FilesPath dbName = None ∧
  disk w !! MetaDir dbName = None ∧
  disk w !! BranchHeads dbName = None ∧
  (∀ p, faulty w p = false) ∧
  (∀ name, isDir w (FilesPath name) = false) ∧
  (∀ n, JSON.timeOK (reading w n) = true).

(** [reaches w id n c]: [n] parent links away from [id] is the commit
    [c]. *)
Inductive reaches (w : world) : string → nat → commit → Prop :=
  | reaches_here id c :
      loadCommit w id = Ok c → reaches w id 0 c
  | reaches_next id c n c' :
      loadCommit w id = Ok c → Parent c ≠ ""%string →
      reaches w (Parent c) n c' → reaches w id (S n) c'.

(** From [id] the parent links never come to an end: however far one
    goes there is a commit, and it has a parent. *)
Definition endless (w : world) (id : string) : Prop :=
  ∀ n, ∃ c, reaches w id n c ∧ Parent c ≠ ""%string.

Definition isHexDigit (a : ascii) : bool :=
  existsb (Ascii.eqb a) (list_ascii_of_string "0123456789abcdef").

(** A string of lower-case hexadecimal digits. *)
Fixpoint hexString (s : string) : bool :=
  match s with
  | EmptyString => true
  | String a r => isHexDigit a && hexString r
  end.

Definition setTree (c : commit) (tree : string) : commit :=
  mkCommit (AuthorEmail c) (AuthorName c) (CommitterEmail c) (CommitterName c)
           (ID c) (Message c) (Parent c) (Timestamp c) tree.

(** The status codes the handlers write. *)
Definition statusIn (codes : list Z) (resp : Response) : Prop := StatusCode resp ∈ codes.

(** A commit that is its own parent, and a store where master of a.db is
    at it. *)
Definition loopWorld : world :=
  mkWorld (<[FilesPath "a.db" := Blob ""]>
           (<[MetaDir "a.db" := Dir]>
            (<[BranchHeads "a.db" := HeadsDoc {[ "master"%string := "c1"%string ]}]>
             {[ FilesPath "c1" := CommitDoc (commitWithParent "c1" "c1") ]})))
          (fun _ => false) [] [] (fun _ => None).

(** curl -H "Database: a.db" *)
Definition listRequest : Request :=
  mkRequest (headers [("Database", "a.db")]%string) None ∅ "".

(* ===================================================================== *)
(** ** cmd/push.go: the upload command of the client *)
(* ===================================================================== *)

Module Push.

(** filepath.Base, with the separator of Unix: the last element of the
    path, trailing separators removed first; "." for the empty path and
    "/" for a path of separators only. *)
Definition isSeparator (a : ascii) : bool := Ascii.eqb a "/".

Fixpoint stripSeparators (l : list ascii) : list ascii :=
  match l with
  | a :: r => if isSeparator a then stripSeparators r else l
  | [] => []
  end.

Fixpoint lastElement (l : list ascii) : list ascii :=
  match l with
  | a :: r => if isSeparator a then [] else a :: lastElement r
  | [] => []
  end.

Definition Base (path : string) : string :=
  if isEmpty path then "."%string
  else
    match rev (lastElement (stripSeparators (rev (list_ascii_of_string path)))) with
    | [] => "/"%string
    | e => string_of_list_ascii e
    end.

(** textproto.CanonicalMIMEHeaderKey, which http.Header.Set applies to
    the name of a header: the first letter and every letter after a
    hyphen in upper case, the others in lower case; a name with a byte
    that is not a token byte is left as it is. *)
Definition isTokenByte (a : ascii) : bool :=
  existsb (Ascii.eqb a)
    (list_ascii_of_string
       "!#$%&'*+-.^_`|~0123456789abcdefghijklmnopqrstuvwxyzABCDEFGHIJKLMNOPQRSTUVWXYZ").

Definition toUpper (a : ascii) : ascii :=
  let n := N_of_ascii a in
  if ((97 <=? n) && (n <=? 122))%N then ascii_of_N (n - 32) else a.

Definition toLower (a : ascii) : ascii :=
  let n := N_of_ascii a in
  if ((65 <=? n) && (n <=? 90))%N then ascii_of_N (n + 32) else a.

Fixpoint canonicalCase (upper : bool) (s : string) : string :=
  match s with
  | EmptyString => EmptyString
  | String a r =>
      String (if upper then toUpper a else toLower a) (canonicalCase (Ascii.eqb a "-") r)
  end.

Definition CanonicalMIMEHeaderKey (s : string) : string :=
  if forallb isTokenByte (list_ascii_of_string s) then canonicalCase true s else s.

(** os.FileInfo, as far as the command reads it. *)
Record FileInfo := mkFileInfo {
  ModTime : Time;
  FileSize : Z
}.

(** The package variables the command reads: the flags cobra has filled
    in, and pushDB. *)
Record Flags := mkFlags {
  cloud : string;
  branch : string;
  email : string;
  msg : string;
  name : string;
  pushDB : string
}.

(** The request the command builds with gorequest. *)
Record SuperAgent := mkAgent {
  Method : string;
  Url : string;
  ContentType : string;
  Headers : gmap string string;
  Files : list string
}.

Definition Post (targetUrl : string) : SuperAgent :=
  mkAgent "POST" targetUrl "" ∅ [].
Definition SetType (typeStr : string) (s : SuperAgent) : SuperAgent :=
  mkAgent (Method s) (Url s) typeStr (Headers s) (Files s).
Definition SetHeader (param value : string) (s : SuperAgent) : SuperAgent :=
  mkAgent (Method s) (Url s) (ContentType s)
          (<[CanonicalMIMEHeaderKey param := value]> (Headers s)) (Files s).
Definition SendFile (file : string) (s : SuperAgent) : SuperAgent :=
  mkAgent (Method s) (Url s) (ContentType s) (Headers s) (Files s ++ [file]).

Record HttpResponse := mkHttpResponse {
  RespStatusCode : Z;
  RespStatus : string
}.

(** What the command meets outside: os.Stat on the file, and what comes
    back from sending the request: a response or none, and the errors
    (none is nil). *)
Record Env := mkEnv {
  stat : string → string + FileInfo;
  send : SuperAgent → option HttpResponse * list string
}.

(** What a run of the command leaves: the error it returns (None is
    nil), the request it has sent if any, and the value of pushDB. *)
Record Outcome := mkOutcome {
  err : option string;
  sent : option SuperAgent;
  pushDBAfter : string
}.

(** The request of a push of [file]. *)
Definition request (fl : Flags) (file : string) (fi : FileInfo) (dbName : string)
  : SuperAgent :=
  let req := SendFile file
               (SetHeader "Database" dbName
                  (SetHeader "ModTime" (FormatRFC3339 (ModTime fi))
                     (SetHeader "Message" (msg fl)
                        (SetHeader "Branch" (branch fl)
                           (SetType "multipart" (Post (cloud fl +:+ "/db_upload"))))))) in
  if negb (isEmpty (name fl)) && negb (isEmpty (email fl))
  then SetHeader "Email" (email fl) (SetHeader "Author" (name fl) req)
  else req.

(** pushCmd.RunE *)
Definition RunE (fl : Flags) (env : Env) (args : list string) : Outcome :=
  match args with
  | [] => mkOutcome (Some "No database file specified"%string) None (pushDB fl)
  | _ :: _ :: _ =>
      mkOutcome (Some "Only one database can be uploaded at a time (for now)"%string)
                None (pushDB fl)
  | [file] =>
      match stat env file with
      | inl e => mkOutcome (Some e) None (pushDB fl)
      | inr fi =>
          if isEmpty (msg fl) then
            mkOutcome (Some "Missing commit message!"%string) None (pushDB fl)
          else
            let dbName := if isEmpty (pushDB fl) then Base file else pushDB fl in
            let req := request fl file fi dbName in
            match send env req with
            | (_, _ :: _) =>
                mkOutcome (Some "Error when uploading database to the cloud"%string)
                          (Some req) dbName
            | (Some resp, []) =>
                if negb (RespStatusCode resp =? StatusCreated) then
                  mkOutcome (Some ("Upload failed with an error: HTTP status " +:+
                                   fmt_d (RespStatusCode resp) +:+ " - '" +:+
                                   RespStatus resp +:+ "'" +:+ nl))
                            (Some req) dbName
                else mkOutcome None (Some req) dbName
            | (None, []) => mkOutcome None (Some req) dbName
            end
      end
  end.

(** The status line of a response that go-restful writes for [code]. *)
Definition statusLine (code : Z) : string :=
  fmt_d code +:+ (if (code =? StatusMethodNotAllowed)%Z then " Method Not Allowed"%string
                  else if (code =? StatusNotFound)%Z then " Not Found"%string
                  else ""%string).

(** Sample: the command run as "dio push --message init /home/u/a.db"
    against the server of main: the request goes to the path /db_upload
    and the answer is what the router gives it. *)
Definition sampleFlags : Flags := mkFlags "https://localhost:8080" "master" "" "init" "" "".

Definition sampleEnv : Env :=
  mkEnv (fun _ => inr (mkFileInfo (atSecond 0) 10))
        (fun req =>
           match refused (Method req) "/db_upload" with
           | Some code => (Some (mkHttpResponse code (statusLine code)), [])
           | None => (None, [])
           end).

End Push.

(* ===================================================================== *)
(** ** Strings and decimal digits *)
(* ===================================================================== *)

Section Strings.
Implicit Types (s r : string) (c : ascii).

Lemma append_cons c s r : String c s +:+ r = String c (s +:+ r).
Proof. reflexivity. Qed.

Lemma append_nil_l s : "" +:+ s = s.
Proof. reflexivity. Qed.

Lemma append_assoc s1 s2 s3 : (s1 +:+ s2) +:+ s3 = s1 +:+ (s2 +:+ s3).
Proof.
  induction s1 as [|a s1 IH]; [reflexivity |].
  now rewrite !append_cons, IH.
Qed.

Lemma append_nil_r s : s +:+ "" = s.
Proof.
  induction s as [|a s IH]; [reflexivity |].
  now rewrite append_cons, IH.
Qed.

Lemma freeb_app c s1 s2 : freeb c (s1 +:+ s2) = freeb c s1 && freeb c s2.
Proof.
  induction s1 as [|a s1 IH]; [reflexivity |].
  rewrite append_cons. simpl. now rewrite IH, andb_assoc.
Qed.

(** A string ends at the first occurrence of a byte it is free of. *)
Lemma split_at_sep c s1 s2 r1 r2 :
  freeb c s1 = true → freeb c s2 = true →
  s1 +:+ String c r1 = s2 +:+ String c r2 → s1 = s2 ∧ r1 = r2.
Proof.
  revert s2. induction s1 as [|a s1 IH]; intros [|b s2];
    rewrite ?append_cons, ?append_nil_l; simpl; intros F1 F2 E.
  - now inversion E.
  - inversion E; subst. rewrite Ascii.eqb_refl in F2. discriminate.
  - inversion E; subst. rewrite Ascii.eqb_refl in F1. discriminate.
  - inversion E; subst.
    apply andb_prop in F1 as [_ F1]. apply andb_prop in F2 as [_ F2].
    destruct (IH _ F1 F2 H1) as [-> ->]. now split.
Qed.

Lemma append_sep_nonempty c s r : s +:+ String c r ≠ EmptyString.
Proof. destruct s; discriminate. Qed.
End Strings.

Lemma freeb_uint c d : plainSep c = true → freeb c (NilEmpty.string_of_uint d) = true.
Proof.
  unfold plainSep. simpl. intros H.
  repeat (apply andb_prop in H as [?H H]).
  induction d; simpl; rewrite ?IHd, ?andb_true_r; auto.
Qed.

Lemma freeb_fmt_d c z : plainSep c = true → freeb c (fmt_d z) = true.
Proof.
  intros H. unfold fmt_d.
  destruct (Z.to_int z) as [d|d]; simpl.
  - now apply freeb_uint.
  - rewrite freeb_uint by assumption.
    unfold plainSep in H. simpl in H. apply andb_prop in H as [H _]. now rewrite H.
Qed.

(** %d prints different integers differently. *)
Lemma fmt_d_inj a b : fmt_d a = fmt_d b → a = b.
Proof.
  unfold fmt_d. intros E. apply DecimalZ.to_int_inj.
  assert (Some (Z.to_int a) = Some (Z.to_int b)) as [= ->]; [| reflexivity].
  now rewrite <- !NilEmpty.isi, E.
Qed.

Lemma freeb_zeros c n : plainSep c = true → freeb c (zeros n) = true.
Proof.
  unfold plainSep. simpl. intros H.
  apply andb_prop in H as [_ H]. apply andb_prop in H as [H _].
  induction n; simpl; [reflexivity |]. now rewrite H, IHn.
Qed.

Lemma freeb_appendInt c x width : plainSep c = true → freeb c (appendInt x width) = true.
Proof.
  intros H. unfold appendInt.
  rewrite !freeb_app, freeb_zeros, freeb_fmt_d by assumption.
  destruct (x <? 0); simpl; [| reflexivity].
  unfold plainSep in H. simpl in H. apply andb_prop in H as [H _]. now rewrite H.
Qed.

(** An RFC 3339 time has no zero byte. *)
Lemma freeb_NUL_RFC3339 t : freeb NUL (FormatRFC3339 t) = true.
Proof.
  unfold FormatRFC3339, clockText, zoneColon.
  destruct (ZoneOffset t =? 0);
    [| destruct (Z.quot (ZoneOffset t) 60 <? 0)];
    rewrite ?freeb_app, ?freeb_appendInt by reflexivity; reflexivity.
Qed.

(* ===================================================================== *)
(** ** Known answers of SHA-256 *)
(* ===================================================================== *)

Example Sum256_empty :
  EncodeToString (Sum256 "")
  = "e3b0c44298fc1c149afbf4c8996fb92427ae41e4649b934ca495991b7852b855"%string.
Proof. vm_compute. reflexivity. Qed.

Example Sum256_abc :
  EncodeToString (Sum256 "abc")
  = "ba7816bf8f01cfea414140de5dae2223b00361a396177a9cb410ff61f20015ad"%string.
Proof. vm_compute. reflexivity. Qed.

Example Sum256_two_blocks :
  EncodeToString (Sum256 "abcdbcdecdefdefgefghfghighijhijkijkljklmklmnlmnomnopnopq")
  = "248d6a61d20638b8e5c026930c3e6039a33ce45964ff2167f6ecedd419db06c1"%string.
Proof. vm_compute. reflexivity. Qed.

(* ===================================================================== *)
(** ** Commit identifiers *)
(* ===================================================================== *)

Lemma optional_if (b : bool) (buf line : string) :
  (if b then WriteString buf line else buf) = buf +:+ optional b line.
Proof. destruct b; simpl; [reflexivity | now rewrite append_nil_r]. Qed.

(** The buffer createCommitID fills holds the lines of [canonical], the
    committer line being there whenever the committer email is. *)
Lemma commitBytes_canonical c : commitBytes c = canonical committerEmailGiven c.
Proof.
  unfold commitBytes, canonical, committerEmailGiven, isEmpty.
  rewrite !optional_if.
  unfold WriteString, WriteByte, treeLine, parentLine, authorLine, committerLine, sep.
  cbn [concatBytes].
  now rewrite !append_nil_l, !append_assoc, ?append_nil_r.
Qed.

Lemma canonical_sameFields shown c c' :
  sameFields c c' → shown c = shown c' → canonical shown c = canonical shown c'.
Proof.
  intros (HT & HP & HAN & HAE & HCN & HCE & HTS & HM) Hs.
  unfold canonical, treeLine, parentLine, authorLine, committerLine.
  now rewrite HT, HP, HAN, HAE, HCN, HCE, HTS, HM, Hs.
Qed.

(** C2, as the specification states it, fails: a commit with a committer
    email and no committer name gets a committer line, so its identifier
    is not the digest of the serialization that leaves the line out
    unless both committer fields are given. *)
Lemma createCommitID_not_both_fields :
  bothCommitterFields commitNoName = false ∧
  commitBytes commitNoName ≠ canonical bothCommitterFields commitNoName ∧
  createCommitID commitNoName
    ≠ EncodeToString (Sum256 (canonical bothCommitterFields commitNoName)).
Proof.
  split; [reflexivity |]. split.
  - intros E. apply (f_equal String.length) in E. vm_compute in E. discriminate.
  - vm_compute. discriminate.
Qed.

(** C2, amended: the commit identifier is the hex SHA-256 digest of the
    tree line, the parent line only when a parent is present, the author
    line, the committer line only when the committer email is non-empty,
    a blank line, the message and a zero byte, in this order; two commits
    with the same field values, timestamp included, get the same
    identifier. *)
Theorem createCommitID_canonical (c c' : commit) (H : sameFields c c') :
  createCommitID c = EncodeToString (Sum256 (canonical committerEmailGiven c)) ∧
  createCommitID c = createCommitID c'.
Proof.
  unfold createCommitID. rewrite !commitBytes_canonical. split; [reflexivity |].
  rewrite (canonical_sameFields committerEmailGiven c c' H); [reflexivity |].
  unfold committerEmailGiven. destruct H as (_ & _ & _ & _ & _ & -> & _). reflexivity.
Qed.

Lemma createCommitID_canonical_witness :
  sameFields commitNoName (setID commitNoName "anything") ∧
  createCommitID commitNoName
    = EncodeToString (Sum256 (canonical committerEmailGiven commitNoName)) ∧
  createCommitID commitNoName = createCommitID (setID commitNoName "anything").
Proof.
  assert (H : sameFields commitNoName (setID commitNoName "anything")).
  { repeat split. }
  split; [exact H |].
  exact (createCommitID_canonical commitNoName (setID commitNoName "anything") H).
Defined.

(* ===================================================================== *)
(** ** Tree identifiers *)
(* ===================================================================== *)

Lemma writeEntry_app b j : writeEntry b j = b +:+ entryBytes j.
Proof.
  unfold writeEntry, entryBytes, WriteString, WriteByte, sep.
  now rewrite !append_assoc.
Qed.

Lemma fold_writeEntry entries b :
  fold_left writeEntry entries b = b +:+ concatBytes (map entryBytes entries).
Proof.
  revert b. induction entries as [|j entries IH]; intros b; simpl.
  - now rewrite append_nil_r.
  - now rewrite IH, writeEntry_app, append_assoc.
Qed.

(** The buffer createDBTreeID fills is the entries' bytes, in order. *)
Lemma treeBytes_concat entries : treeBytes entries = concatBytes (map entryBytes entries).
Proof. unfold treeBytes. now rewrite fold_writeEntry. Qed.

Lemma entryBytes_fields j1 j2 : entryFields j1 = entryFields j2 → entryBytes j1 = entryBytes j2.
Proof. unfold entryFields, entryBytes. now intros [= -> -> -> -> ->]. Qed.

Lemma entryBytes_inj j1 j2 r1 r2 :
  nulFree j1 = true → nulFree j2 = true →
  entryBytes j1 +:+ r1 = entryBytes j2 +:+ r2 →
  entryFields j1 = entryFields j2 ∧ r1 = r2.
Proof.
  unfold nulFree, entryBytes, entryFields, sep, nl.
  intros F1 F2 E.
  apply andb_prop in F1 as [F1 N1]. apply andb_prop in F1 as [A1 S1].
  apply andb_prop in F2 as [F2 N2]. apply andb_prop in F2 as [A2 S2].
  rewrite !append_assoc, !append_cons, !append_nil_l in E.
  apply split_at_sep in E as [-> E]; [| assumption ..].
  apply split_at_sep in E as [-> E]; [| assumption ..].
  apply split_at_sep in E as [-> E]; [| assumption ..].
  apply split_at_sep in E as [-> E]; [| apply freeb_NUL_RFC3339 ..].
  apply split_at_sep in E as [E ->]; [| now apply freeb_fmt_d ..].
  apply fmt_d_inj in E. now rewrite E.
Qed.

Lemma concat_entryBytes_inj es1 es2 :
  forallb nulFree es1 = true → forallb nulFree es2 = true →
  concatBytes (map entryBytes es1) = concatBytes (map entryBytes es2) →
  map entryFields es1 = map entryFields es2.
Proof.
  revert es2. induction es1 as [|j1 es1 IH]; intros [|j2 es2]; simpl; intros F1 F2 E.
  - reflexivity.
  - symmetry in E. unfold entryBytes in E. rewrite !append_assoc in E.
    now apply append_sep_nonempty in E.
  - unfold entryBytes in E. rewrite !append_assoc in E.
    now apply append_sep_nonempty in E.
  - apply andb_prop in F1 as [N1 F1]. apply andb_prop in F2 as [N2 F2].
    destruct (entryBytes_inj _ _ _ _ N1 N2 E) as [-> E'].
    now rewrite (IH _ F1 F2 E').
Qed.

Lemma concat_entryBytes_fields es1 es2 :
  map entryFields es1 = map entryFields es2 →
  concatBytes (map entryBytes es1) = concatBytes (map entryBytes es2).
Proof.
  revert es2. induction es1 as [|j1 es1 IH]; intros [|j2 es2]; simpl; try discriminate.
  - reflexivity.
  - intros E. apply (f_equal tail) in E as E2. apply (f_equal head) in E as E1.
    simpl in E1, E2. apply (inj Some) in E1.
    now rewrite (entryBytes_fields _ _ E1), (IH _ E2).
Qed.

(** C7, as the specification states it, fails: two entry sequences that
    differ in the modification time, by less than a second, have the same
    serialized bytes and the same tree identifier. *)
Lemma treeBytes_collide_within_second :
  [entryAt 1] ≠ [entryAt 2] ∧
  treeBytes [entryAt 1] = treeBytes [entryAt 2] ∧
  createDBTreeID [entryAt 1] = createDBTreeID [entryAt 2].
Proof.
  assert (E : treeBytes [entryAt 1] = treeBytes [entryAt 2]) by (vm_compute; reflexivity).
  split; [discriminate |]. split; [exact E |].
  unfold createDBTreeID. now rewrite E.
Qed.

(** C7, amended: the tree identifier is the hex SHA-256 digest of the
    entries' bytes in order, each entry being its type, digest, name and
    RFC 3339 modification time, each closed by a zero byte, and its size
    in decimal closed by a line feed; two entry sequences whose types,
    digests and names hold no zero byte have the same serialized bytes
    exactly when they agree, entry by entry and in order, on type,
    digest, name, size and the modification time as RFC 3339 prints it
    (to the second). *)
Theorem createDBTreeID_serialization (es1 es2 : list dbTreeEntry)
    (H1 : forallb nulFree es1 = true) (H2 : forallb nulFree es2 = true) :
  createDBTreeID es1 = EncodeToString (Sum256 (concatBytes (map entryBytes es1))) ∧
  (treeBytes es1 = treeBytes es2 ↔ map entryFields es1 = map entryFields es2).
Proof.
  unfold createDBTreeID. rewrite !treeBytes_concat. split; [reflexivity |]. split.
  - now apply concat_entryBytes_inj.
  - apply concat_entryBytes_fields.
Qed.

Lemma createDBTreeID_serialization_witness :
  createDBTreeID [entryAt 1; entryAt 2]
    = EncodeToString (Sum256 (concatBytes (map entryBytes [entryAt 1; entryAt 2]))) ∧
  (treeBytes [entryAt 1; entryAt 2] = treeBytes [entryAt 2; entryAt 1]
   ↔ map entryFields [entryAt 1; entryAt 2] = map entryFields [entryAt 2; entryAt 1]).
Proof.
  apply (createDBTreeID_serialization [entryAt 1; entryAt 2] [entryAt 2; entryAt 1]);
    vm_compute; reflexivity.
Defined.

(* ===================================================================== *)
(** ** Running programs *)
(* ===================================================================== *)

Arguments createCommitID : simpl never.
Arguments createDBTreeID : simpl never.
Arguments Sum256 : simpl never.
Arguments EncodeToString : simpl never.
Arguments fileSize : simpl never.

Lemma run_bind {A B} (p : prog A) (f : A → prog B) w :
  run (bind p f) w = run (f (fst (run p w))) (snd (run p w)).
Proof.
  revert w. induction p as [a | X o k IH]; intros w; simpl; [reflexivity |].
  destruct (perform o w) as [x w']. apply IH.
Qed.

Lemma run_call {X} (o : op X) w : run (call o) w = perform o w.
Proof. unfold call. simpl. now destruct (perform o w). Qed.

Lemma run_Ret {A} (a : A) w : run (Ret a) w = (a, w).
Proof. reflexivity. Qed.

Lemma perform_Stat p w : perform (Stat p) w = (fileSize <$> disk w !! p, w).
Proof. reflexivity. Qed.

Lemma perform_ReadFile p w :
  perform (ReadFile p) w = (match disk w !! p with Some Dir => None | r => r end, w).
Proof. reflexivity. Qed.

Lemma perform_MkdirAll p w :
  perform (MkdirAll p) w
  = if faulty w p then (false, w)
    else match disk w !! p with
         | Some Dir => (true, w)
         | Some _ => (false, w)
         | None => (true, setDisk w p Dir)
         end.
Proof. reflexivity. Qed.

Lemma perform_WriteFile w p d :
  perform (WriteFile p d) w
  = if writable w p then (true, setDisk w p d) else (false, failedWrite w p d).
Proof.
  unfold writable, failedWrite. simpl.
  destruct (parentReady w p), (isDir w p), (faulty w p); reflexivity.
Qed.

Lemma perform_Now w : perform Now w = (reading w 0, ticked 1 w).
Proof. unfold reading, ticked. simpl. now destruct (clock w). Qed.

Arguments run : simpl never.
Arguments bind : simpl never.
Arguments perform : simpl never.

Lemma run_dbExists dbName w :
  run (dbExists dbName) w = (present w (FilesPath dbName), w).
Proof.
  unfold dbExists, present. rewrite run_bind, run_call, perform_Stat, run_Ret. simpl.
  now destruct (disk w !! FilesPath dbName).
Qed.

Lemma run_getBranches dbName w : run (getBranches dbName) w = (loadHeads w dbName, w).
Proof.
  unfold getBranches, loadHeads. rewrite run_bind, run_call, perform_ReadFile, run_Ret. simpl.
  now destruct (disk w !! BranchHeads dbName) as [[]|].
Qed.

Lemma run_getCommit id w : run (getCommit id) w = (loadCommit w id, w).
Proof.
  unfold getCommit, loadCommit. rewrite run_bind, run_call, perform_ReadFile, run_Ret. simpl.
  now destruct (disk w !! FilesPath id) as [[]|].
Qed.

Lemma run_Now w : run (call Now) w = (reading w 0, ticked 1 w).
Proof. now rewrite run_call, perform_Now. Qed.

(** *** Worlds after writes *)

Lemma written_cons w p d l : written w ((p, d) :: l) = written (setDisk w p d) l.
Proof. reflexivity. Qed.

Lemma written_app w l1 l2 : written w (l1 ++ l2) = written (written w l1) l2.
Proof. apply fold_left_app. Qed.

Lemma trace_written w l : trace (written w l) = trace w ++ map fst l.
Proof.
  revert w. induction l as [|[p d] l IH]; intros w.
  - simpl. now rewrite app_nil_r.
  - rewrite written_cons, IH. simpl. now rewrite <- app_assoc.
Qed.

Lemma faulty_written w l : faulty (written w l) = faulty w.
Proof.
  revert w. induction l as [|[p d] l IH]; intros w; [reflexivity |].
  now rewrite written_cons, IH.
Qed.

Lemma clock_written w l : clock (written w l) = clock w.
Proof.
  revert w. induction l as [|[p d] l IH]; intros w; [reflexivity |].
  now rewrite written_cons, IH.
Qed.

Lemma disk_written_other w l p :
  p ∉ map fst l → disk (written w l) !! p = disk w !! p.
Proof.
  revert w. induction l as [|[q d] l IH]; intros w Hp; [reflexivity |].
  simpl in Hp. apply not_elem_of_cons in Hp as [Hne Hp].
  rewrite written_cons, IH by assumption. simpl.
  now apply lookup_insert_ne.
Qed.

Lemma disk_written_last w l p d :
  disk (written w (l ++ [(p, d)])) !! p = Some d.
Proof. rewrite written_app. unfold written. simpl. apply lookup_insert_eq. Qed.

Lemma present_written w l p : present w p = true → present (written w l) p = true.
Proof.
  revert w. induction l as [|[q d] l IH]; intros w Hp; [assumption |].
  rewrite written_cons. apply IH. unfold present, setDisk in *. simpl.
  destruct (decide (q = p)) as [-> | Hne].
  - now rewrite lookup_insert_eq.
  - now rewrite lookup_insert_ne.
Qed.

Lemma plainName_not_empty s : plainName s = true → s ≠ ""%string.
Proof. intros H ->. discriminate H. Qed.

(** *** Writes that fail *)

Lemma failedWrite_cases w p d :
  failedWrite w p d = w ∨ ∃ n, failedWrite w p d = setDisk w p (cut n d).
Proof.
  unfold failedWrite.
  destruct (negb (parentReady w p) || isDir w p); [now left |].
  destruct (torn w p) as [n|]; [right; now exists n | now left].
Qed.

Lemma disk_failedWrite_other w p d q :
  q ≠ p → disk (failedWrite w p d) !! q = disk w !! q.
Proof.
  intros Hne. destruct (failedWrite_cases w p d) as [-> | [n ->]]; [reflexivity |].
  simpl. now apply lookup_insert_ne.
Qed.

Lemma sameStore_refl w : sameStore w w.
Proof. now repeat split. Qed.

Lemma sameStore_ticked k w : sameStore (ticked k w) w.
Proof. now repeat split. Qed.

Lemma sameStore_setDisk w1 w2 p d :
  sameStore w1 w2 → sameStore (setDisk w1 p d) (setDisk w2 p d).
Proof.
  intros (Hd & Hf & Ht & Hn). unfold setDisk. repeat split; simpl; congruence.
Qed.

Lemma sameStore_written w1 w2 l : sameStore w1 w2 → sameStore (written w1 l) (written w2 l).
Proof.
  revert w1 w2. induction l as [|[p d] l IH]; intros w1 w2 H; [exact H |].
  rewrite !written_cons. apply IH. now apply sameStore_setDisk.
Qed.

Lemma sameStore_failedWrite w1 w2 p d :
  sameStore w1 w2 → sameStore (failedWrite w1 p d) (failedWrite w2 p d).
Proof.
  intros H. pose proof H as (Hd & Hf & Ht & Hn). unfold failedWrite, parentReady, isDir.
  rewrite Hd, Hn.
  destruct (negb match p with
                 | BranchHeads db =>
                     match disk w2 !! MetaDir db with Some Dir => true | _ => false end
                 | _ => true
                 end || match disk w2 !! p with Some Dir => true | _ => false end);
    [exact H |].
  destruct (torn w2 p); [now apply sameStore_setDisk | exact H].
Qed.

(** *** The store functions, run *)

Lemma run_write w p d :
  run (ok <- call (WriteFile p d) ;; Ret (errorOf p ok)) w
  = if writable w p then (None, setDisk w p d) else (Some (ErrIO p), failedWrite w p d).
Proof.
  rewrite run_bind, run_call, perform_WriteFile, run_Ret.
  now destruct (writable w p).
Qed.

Lemma run_storeTree t w :
  run (storeTree t) w
  = if negb (forallb (fun e => JSON.timeOK (Last_Modified e)) (Entries t)) then (Some ErrJSON, w)
    else if writable w (FilesPath (TreeID t))
         then (None, setDisk w (FilesPath (TreeID t)) (TreeDoc t))
         else (Some (ErrIO (FilesPath (TreeID t))),
               failedWrite w (FilesPath (TreeID t)) (TreeDoc t)).
Proof.
  unfold storeTree.
  destruct (negb (forallb _ (Entries t))); [reflexivity | apply run_write].
Qed.

Lemma run_storeCommit c w :
  run (storeCommit c) w
  = if negb (JSON.timeOK (Timestamp c)) then (Some ErrJSON, w)
    else if writable w (FilesPath (ID c))
         then (None, setDisk w (FilesPath (ID c)) (CommitDoc c))
         else (Some (ErrIO (FilesPath (ID c))),
               failedWrite w (FilesPath (ID c)) (CommitDoc c)).
Proof.
  unfold storeCommit.
  destruct (negb (JSON.timeOK (Timestamp c))); [reflexivity | apply run_write].
Qed.

Lemma run_storeDatabase db w :
  let path := FilesPath (EncodeToString (Sum256 db)) in
  let write := if writable w path then (None, setDisk w path (Blob db))
               else (Some (ErrIO path), failedWrite w path (Blob db)) in
  run (storeDatabase db) w
  = match disk w !! path with
    | None => write
    | Some d => if Z.of_nat (String.length db) =? fileSize d then (None, w) else write
    end.
Proof.
  intros path write. unfold storeDatabase. fold path.
  rewrite run_bind, run_call, perform_Stat.
  destruct (disk w !! path) as [d|]; simpl.
  - destruct (Z.of_nat (String.length db) =? fileSize d); simpl; [reflexivity |].
    apply run_write.
  - apply run_write.
Qed.

Lemma run_storeBranches dbName branches w :
  let heads := BranchHeads dbName in
  let write w := if writable w heads then (None, setDisk w heads (HeadsDoc branches))
                 else (Some (ErrIO heads), failedWrite w heads (HeadsDoc branches)) in
  run (storeBranches dbName branches) w
  = match disk w !! MetaDir dbName with
    | Some _ => write w
    | None => if faulty w (MetaDir dbName) then (Some (ErrIO (MetaDir dbName)), w)
              else write (setDisk w (MetaDir dbName) Dir)
    end.
Proof.
  intros heads write. unfold storeBranches. fold heads.
  rewrite run_bind, run_call, perform_Stat.
  destruct (disk w !! MetaDir dbName) as [d|] eqn:E; simpl.
  - rewrite run_bind, run_Ret. simpl. apply run_write.
  - rewrite run_bind, run_call, perform_MkdirAll, E.
    destruct (faulty w (MetaDir dbName)); simpl; [reflexivity |].
    apply run_write.
Qed.

(* ===================================================================== *)
(** ** Where the paths lie *)
(* ===================================================================== *)

Lemma elementsFrom_plain current s :
  noSeparator s = true → elementsFrom current s = [(current +:+ s)%string].
Proof.
  revert current. induction s as [|a s IH]; intros current H.
  - simpl. now rewrite append_nil_r.
  - simpl in H. apply andb_true_iff in H as [Ha Hs].
    simpl. destruct (Ascii.eqb a "/"); [discriminate Ha |].
    rewrite IH by exact Hs. now rewrite append_assoc.
Qed.

Lemma elements_plain s : plainName s = true → elements s = [s].
Proof.
  intros H. unfold plainName in H. apply andb_true_iff in H as [_ H].
  unfold elements. now rewrite elementsFrom_plain.
Qed.

Lemma cleanOnto_plain done s rest :
  plainName s = true → cleanOnto done (s :: rest) = cleanOnto (s :: done) rest.
Proof.
  intros H. unfold plainName in H.
  apply andb_true_iff in H as [H _]. apply andb_true_iff in H as [H H2].
  apply andb_true_iff in H as [H0 H1].
  simpl. apply negb_true_iff in H0, H1, H2. now rewrite H0, H1, H2.
Qed.

(** For a name that is one path element, the path is the place its kind
    and the name say. *)
Lemma located_plain name :
  plainName name = true →
  located (FilesPath name) = ["files"%string; name] ∧
  located (MetaDir name) = ["meta"%string; name] ∧
  located (BranchHeads name) = ["meta"%string; name; "branchHeads"%string].
Proof.
  intros H. unfold located. rewrite (elements_plain _ H).
  split; [| split].
  - rewrite (cleanOnto_plain [] "files") by reflexivity.
    now rewrite (cleanOnto_plain ["files"%string] name) by exact H.
  - rewrite (cleanOnto_plain [] "meta") by reflexivity.
    now rewrite (cleanOnto_plain ["meta"%string] name) by exact H.
  - cbn [app]. rewrite (cleanOnto_plain [] "meta") by reflexivity.
    rewrite (cleanOnto_plain ["meta"%string] name) by exact H.
    now rewrite (cleanOnto_plain [name; "meta"%string] "branchHeads") by reflexivity.
Qed.

(** Paths of one-element names are the same place only when they are
    the same path. *)
Lemma located_plain_inj p q :
  plainPath p = true → plainPath q = true → located p = located q → p = q.
Proof.
  intros Hp Hq.
  destruct p as [n | d | d], q as [n' | d' | d']; simpl in Hp, Hq;
    destruct (located_plain _ Hp) as (Hf & Hm & Hh);
    destruct (located_plain _ Hq) as (Hf' & Hm' & Hh');
    rewrite ?Hf, ?Hm, ?Hh, ?Hf', ?Hm', ?Hh'; intros E;
    try discriminate E; now injection E as ->.
Qed.

(** Other names can lie elsewhere: a database name that climbs out of
    meta/ has its meta directory at a file of files/. *)
Lemma located_climbing :
  located (MetaDir "../files/x") = located (FilesPath "x") ∧
  located (BranchHeads "x/../y") = located (BranchHeads "y") ∧
  plainName "../files/x" = false ∧ plainName "x/../y" = false.
Proof. repeat split; vm_compute; reflexivity. Qed.

(* ===================================================================== *)
(** ** The upload workflow *)
(* ===================================================================== *)

Ltac upload_done n :=
  match goal with
  | |- ∃ l, l `prefix_of` ?full ∧ _ =>
      exists (take n full); split; [apply prefix_take |];
      left; split; [reflexivity |]; split; reflexivity
  end.

Ltac upload_stops n :=
  match goal with
  | |- ∃ l, l `prefix_of` ?full ∧ _ =>
      exists (take n full); split; [apply prefix_take |];
      right; split; [reflexivity |]; split; [discriminate |];
      left; reflexivity
  end.

Ltac upload_tears n :=
  match goal with
  | |- ∃ l, l `prefix_of` ?full ∧ _ =>
      exists (take n full); split; [apply prefix_take |];
      right; split; [reflexivity |]; split; [discriminate |];
      right; eexists _, _; split; [eexists; reflexivity |];
      split; [discriminate | reflexivity]
  end.

Ltac case_writable p :=
  match goal with
  | |- context [writable ?w' p] => destruct (writable w' p); simpl
  end.

(** Whatever happens, the writes of the second half of dbUpload follow
    the order blob, tree, commit, directory, branch heads. *)
Lemma run_uploadStore dbName branchName buf t c branches w :
  uploadOutcome dbName buf t c branches w
    (run (uploadStore dbName branchName buf t c branches) w).
Proof.
  unfold uploadOutcome, uploadPlan, uploadWrites, blobNeeded, dirNeeded, uploadStore.
  cbv zeta.
  rewrite run_bind, run_storeDatabase.
  set (sha := EncodeToString (Sum256 buf)).
  destruct (disk w !! FilesPath sha) as [d|];
    [destruct (Z.of_nat (String.length buf) =? fileSize d) |];
    try destruct (writable w (FilesPath sha)); simpl;
    try (rewrite ?run_Ret;
         destruct (disk w !! MetaDir dbName); simpl; upload_tears 0%nat).
  all: rewrite run_bind, run_storeTree;
    destruct (negb (forallb _ (Entries t))); simpl;
    try case_writable (FilesPath (TreeID t));
    try (rewrite ?run_Ret;
         destruct (disk w !! MetaDir dbName); simpl;
         first [upload_stops 0%nat | upload_stops 1%nat
               | upload_tears 0%nat | upload_tears 1%nat]).
  all: rewrite run_bind, run_storeCommit;
    destruct (negb (JSON.timeOK (Timestamp c))); simpl;
    try case_writable (FilesPath (ID c));
    try (rewrite ?run_Ret;
         destruct (disk w !! MetaDir dbName); simpl;
         first [upload_stops 1%nat | upload_stops 2%nat
               | upload_tears 1%nat | upload_tears 2%nat]).
  all: rewrite run_bind, run_storeBranches; simpl.
  all: rewrite !lookup_insert_ne by discriminate.
  all: destruct (disk w !! MetaDir dbName) as [md|];
    [| destruct (faulty w (MetaDir dbName))]; simpl;
    try case_writable (BranchHeads dbName); rewrite ?run_Ret.
  all: first
    [ upload_done 3%nat | upload_done 4%nat | upload_done 5%nat
    | upload_stops 2%nat | upload_stops 3%nat
    | upload_tears 2%nat | upload_tears 3%nat | upload_tears 4%nat ].
Qed.

Lemma ticked_ticked n m w : ticked n (ticked m w) = ticked (n + m) w.
Proof. unfold ticked. simpl. now rewrite drop_drop, Nat.add_comm. Qed.

(** dbUpload, run: the checks, two readings of the clock, the choice of
    the parent, then the second half. *)
Lemma run_dbUpload r w :
  let dbName := HeaderGet r "Name" in
  let branchName := HeaderGet r "Branch" in
  run (dbUpload r) w
  = if isEmpty dbName || isEmpty branchName then (WriteHeader StatusBadRequest, w)
    else if headsUnreadable w dbName then (WriteHeader StatusInternalServerError, ticked 2 w)
    else run (uploadStore dbName branchName (Body r)
                (uploadTree dbName (Body r) (reading w 0))
                (uploadCommitFor r w) (uploadHeadsFor r w))
             (ticked 2 w).
Proof.
  cbv zeta. unfold dbUpload.
  destruct (isEmpty (HeaderGet r "Name")) eqn:Edb; [reflexivity |].
  destruct (isEmpty (HeaderGet r "Branch")) eqn:Ebr; [reflexivity |]. simpl.
  rewrite run_bind, run_Now. simpl.
  rewrite run_bind, run_Now. simpl.
  rewrite ticked_ticked. simpl.
  rewrite run_bind, run_dbExists. simpl.
  unfold headsUnreadable, uploadHeadsFor, uploadCommitFor.
  change (present (ticked 2 w) (FilesPath (HeaderGet r "Name")))
    with (present w (FilesPath (HeaderGet r "Name"))).
  change (reading (ticked 1 w) 0) with (reading w 1).
  destruct (present w (FilesPath (HeaderGet r "Name"))); simpl; [| reflexivity].
  rewrite run_bind, run_getBranches. simpl.
  change (loadHeads (ticked 2 w) (HeaderGet r "Name")) with (loadHeads w (HeaderGet r "Name")).
  destruct (loadHeads w (HeaderGet r "Name")) as [branches | e]; simpl; reflexivity.
Qed.

(** The branch heads are the last write of a complete upload, and the
    only one at that path. *)
Lemma uploadWrites_heads_last dbName buf t c branches blob dir :
  ∃ pre, uploadWrites dbName buf t c branches blob dir
         = pre ++ [(BranchHeads dbName, HeadsDoc branches)] ∧
         BranchHeads dbName ∉ map fst pre.
Proof.
  unfold uploadWrites.
  exists ((if blob then [(FilesPath (EncodeToString (Sum256 buf)), Blob buf)] else []) ++
          [(FilesPath (TreeID t), TreeDoc t); (FilesPath (ID c), CommitDoc c)] ++
          (if dir then [(MetaDir dbName, Dir)] else [])).
  split.
  - now rewrite <- !app_assoc.
  - destruct blob, dir; simpl; rewrite ?elem_of_cons, elem_of_nil; intuition discriminate.
Qed.

(** The commit of a complete upload is in the store afterwards. *)
Lemma uploadWrites_commit_kept w dbName buf t c branches blob dir :
  disk (written w (uploadWrites dbName buf t c branches blob dir)) !! FilesPath (ID c)
  = Some (CommitDoc c).
Proof.
  unfold uploadWrites.
  replace ((if blob then [(FilesPath (EncodeToString (Sum256 buf)), Blob buf)] else []) ++
           [(FilesPath (TreeID t), TreeDoc t); (FilesPath (ID c), CommitDoc c)] ++
           (if dir then [(MetaDir dbName, Dir)] else []) ++
           [(BranchHeads dbName, HeadsDoc branches)])
    with ((((if blob then [(FilesPath (EncodeToString (Sum256 buf)), Blob buf)] else []) ++
            [(FilesPath (TreeID t), TreeDoc t)]) ++ [(FilesPath (ID c), CommitDoc c)]) ++
          ((if dir then [(MetaDir dbName, Dir)] else []) ++
           [(BranchHeads dbName, HeadsDoc branches)]))
    by now rewrite <- !app_assoc.
  rewrite written_app, disk_written_other.
  - apply disk_written_last.
  - destruct dir; simpl; rewrite ?elem_of_cons, elem_of_nil; intuition discriminate.
Qed.

Lemma prefix_snoc_strict {A} (l pre : list A) x :
  l `prefix_of` pre ++ [x] → l ≠ pre ++ [x] → l `prefix_of` pre.
Proof.
  intros [k Hk] Hne.
  destruct k as [|y k _] using rev_ind.
  - rewrite app_nil_r in Hk. congruence.
  - rewrite app_assoc in Hk. apply app_inj_tail in Hk as [-> _]. now exists k.
Qed.

Lemma prefix_map_fst_notin {A B} (l pre : list (A * B)) a :
  l `prefix_of` pre → a ∉ map fst pre → a ∉ map fst l.
Proof.
  intros [k ->] Hn Hin. apply Hn. rewrite map_app. apply elem_of_app. now left.
Qed.

Lemma prefix_snoc_inv {A} (l pre : list A) x h :
  (l ++ [x]) `prefix_of` (pre ++ [h]) →
  l `prefix_of` pre ∧ (l = pre ∧ x = h ∨ (l ++ [x]) `prefix_of` pre).
Proof.
  intros [k Hk].
  destruct k as [|y k _] using rev_ind.
  - rewrite app_nil_r in Hk. apply app_inj_tail in Hk as [-> ->].
    split; [reflexivity | now left].
  - rewrite app_assoc in Hk. apply app_inj_tail in Hk as [-> _].
    split; [| right; now exists k].
    exists ([x] ++ k). now rewrite app_assoc.
Qed.

Lemma uploadWrites_not_nil dbName buf t c branches blob dir :
  uploadWrites dbName buf t c branches blob dir ≠ [].
Proof. unfold uploadWrites. now destruct blob. Qed.

(** Once storeDatabase is past, the bytes are under their digest, where
    a file of their length that was there before held them. *)
Lemma blob_step (w : world) (buf : string) :
  (∀ d, disk w !! FilesPath (EncodeToString (Sum256 buf)) = Some d →
        fileSize d = Z.of_nat (String.length buf) → d = Blob buf) →
  disk (written w (if blobNeeded w buf
                   then [(FilesPath (EncodeToString (Sum256 buf)), Blob buf)] else []))
    !! FilesPath (EncodeToString (Sum256 buf)) = Some (Blob buf).
Proof.
  intros Hclean. unfold blobNeeded.
  destruct (disk w !! FilesPath (EncodeToString (Sum256 buf))) as [d|] eqn:E.
  - destruct (Z.of_nat (String.length buf) =? fileSize d) eqn:Es; simpl.
    + rewrite E. f_equal. apply Hclean; [reflexivity |].
      symmetry. now apply Z.eqb_eq.
    + apply lookup_insert_eq.
  - simpl. apply lookup_insert_eq.
Qed.

(** C5, as the specification states it, fails: the write of the branch
    table is not atomic. a.db is uploaded to master in a store where
    that write fails. When it fails after all the bytes got into the
    file, the upload is answered with 500 and the branch table has been
    advanced to the new commit; when it fails before any byte got into
    the file, the upload is answered with 500 and the branch table, which
    loaded before, no longer does. *)
Lemma dbUpload_failed_head_update_shows :
  let whole := run (dbUpload uploadRequest) (tornWorld 1000) in
  let none := run (dbUpload uploadRequest) (tornWorld 0) in
  loadHeads (tornWorld 1000) "a.db" = Ok ∅ ∧
  fst whole = WriteHeader StatusInternalServerError ∧
  loadHeads (snd whole) "a.db"
  = Ok {[ "master"%string := ID (uploadCommitFor uploadRequest (tornWorld 1000)) ]} ∧
  loadHeads (tornWorld 0) "a.db" = Ok ∅ ∧
  fst none = WriteHeader StatusInternalServerError ∧
  loadHeads (snd none) "a.db" = Err ErrJSON.
Proof.
  cbv zeta.
  split; [reflexivity |]. split; [vm_compute; reflexivity |].
  split; [vm_compute; reflexivity |]. split; [reflexivity |].
  split; vm_compute; reflexivity.
Qed.

(** C5, amended: the steps of an upload run in the order blob, tree,
    commit, branch-head update. The writes dbUpload makes are an initial
    part of these, in this order: the uploaded bytes under their digest
    (unless storeDatabase finds a file of their length there), the tree,
    the commit the branch is going to point at, the meta directory of the
    database if it is missing, the branch table. The answer is 201
    exactly when all of them were made, and the store is then the store
    of these writes. Otherwise the upload stops at the first step that
    fails: the store is that of the writes before it, and of what the
    write that failed has left of its file. The branch table comes last:
    its file is not touched before every other write was made. The store
    is taken to hold the uploaded bytes under their digest if it holds a
    file of their length there; then the bytes are under their digest
    once storeDatabase is past. The database is named by one path
    element, and its name and the name of the branch are valid UTF-8. *)
Theorem dbUpload_write_order (r : Request) (w : world)
    (Hplain : isEmpty (HeaderGet r "Name") || plainName (HeaderGet r "Name") = true)
    (Hutf : validUTF8 (HeaderGet r "Name") && validUTF8 (HeaderGet r "Branch") = true)
    (Hclean : ∀ d, disk w !! FilesPath (EncodeToString (Sum256 (Body r))) = Some d →
                   fileSize d = Z.of_nat (String.length (Body r)) → d = Blob (Body r)) :
  let out := run (dbUpload r) w in
  let dbName := HeaderGet r "Name" in
  let blobPath := FilesPath (EncodeToString (Sum256 (Body r))) in
  let blobWrites := if blobNeeded w (Body r) then [(blobPath, Blob (Body r))] else [] in
  let rest := [(FilesPath (TreeID (uploadTreeFor r w)), TreeDoc (uploadTreeFor r w));
               (FilesPath (ID (uploadCommitFor r w)), CommitDoc (uploadCommitFor r w))] ++
              (if dirNeeded w dbName then [(MetaDir dbName, Dir)] else []) in
  let heads := (BranchHeads dbName, HeadsDoc (uploadHeadsFor r w)) in
  uploadPlanFor r w = blobWrites ++ rest ++ [heads] ∧
  disk (written w blobWrites) !! blobPath = Some (Blob (Body r)) ∧
  ∃ l : list (path * content),
    l `prefix_of` uploadPlanFor r w ∧
    (StatusCode (fst out) = StatusCreated ∧ l = uploadPlanFor r w ∧
     sameStore (snd out) (written w l)
     ∨
     StatusCode (fst out) ≠ StatusCreated ∧ l ≠ uploadPlanFor r w ∧
     (sameStore (snd out) (written w l)
      ∨
      ∃ p d, (l ++ [(p, d)]) `prefix_of` uploadPlanFor r w ∧
             sameStore (snd out) (failedWrite (written w l) p d))) ∧
    (disk (snd out) !! BranchHeads dbName ≠ disk w !! BranchHeads dbName →
     (blobWrites ++ rest) `prefix_of` l).
Proof.
  cbv zeta.
  split; [reflexivity |]. split; [now apply blob_step |].
  set (dbName := HeaderGet r "Name").
  set (full := uploadPlanFor r w).
  destruct (uploadWrites_heads_last dbName (Body r) (uploadTreeFor r w) (uploadCommitFor r w)
              (uploadHeadsFor r w) (blobNeeded w (Body r)) (dirNeeded w dbName))
    as (pre & Hfull & Hnotin).
  change (uploadWrites dbName (Body r) (uploadTreeFor r w) (uploadCommitFor r w)
            (uploadHeadsFor r w) (blobNeeded w (Body r)) (dirNeeded w dbName))
    with full in Hfull.
  assert (Hpre : (if blobNeeded w (Body r)
                  then [(FilesPath (EncodeToString (Sum256 (Body r))), Blob (Body r))]
                  else []) ++
                 [(FilesPath (TreeID (uploadTreeFor r w)), TreeDoc (uploadTreeFor r w));
                  (FilesPath (ID (uploadCommitFor r w)), CommitDoc (uploadCommitFor r w))] ++
                 (if dirNeeded w dbName then [(MetaDir dbName, Dir)] else []) = pre).
  { apply (app_inv_tail [(BranchHeads dbName, HeadsDoc (uploadHeadsFor r w))]).
    rewrite <- Hfull. unfold full, uploadPlanFor, uploadPlan, uploadWrites.
    now rewrite <- !app_assoc. }
  rewrite Hpre.
  assert (Hearly : ∀ resp w',
    StatusCode resp ≠ StatusCreated → sameStore w' w →
    ∃ l : list (path * content),
      l `prefix_of` full ∧
      (StatusCode resp = StatusCreated ∧ l = full ∧ sameStore w' (written w l)
       ∨
       StatusCode resp ≠ StatusCreated ∧ l ≠ full ∧
       (sameStore w' (written w l)
        ∨
        ∃ p d, (l ++ [(p, d)]) `prefix_of` full ∧
               sameStore w' (failedWrite (written w l) p d))) ∧
      (disk w' !! BranchHeads dbName ≠ disk w !! BranchHeads dbName → pre `prefix_of` l)).
  { intros resp w' Hs Hsame. exists [].
    split; [apply prefix_nil |]. split.
    - right. split; [exact Hs |]. split; [| now left].
      intros E. symmetry in E. revert E. apply uploadWrites_not_nil.
    - intros Hch. contradiction Hch. now rewrite (proj1 Hsame). }
  rewrite run_dbUpload. cbv zeta. fold dbName.
  destruct (isEmpty dbName || isEmpty (HeaderGet r "Branch"));
    [apply Hearly; [discriminate | apply sameStore_refl] |].
  destruct (headsUnreadable w dbName);
    [apply Hearly; [discriminate | apply sameStore_ticked] |].
  clear Hearly.
  destruct (run_uploadStore dbName (HeaderGet r "Branch") (Body r)
              (uploadTree dbName (Body r) (reading w 0))
              (uploadCommitFor r w) (uploadHeadsFor r w) (ticked 2 w))
    as (l & Hl & Hres).
  change (uploadPlan dbName (Body r) (uploadTree dbName (Body r) (reading w 0))
            (uploadCommitFor r w) (uploadHeadsFor r w) (ticked 2 w))
    with full in Hl, Hres.
  assert (Hw : sameStore (written (ticked 2 w) l) (written w l))
    by apply sameStore_written, sameStore_ticked.
  exists l. split; [exact Hl |].
  destruct Hres as [(Hr & -> & Hout) | (Hr & Hne & [Hout | (p & d & Hp & _ & Hout)])];
    rewrite Hr, Hout.
  - split; [left; split; [reflexivity |]; split; [reflexivity | exact Hw] |].
    intros _. rewrite Hfull. now apply prefix_app_r.
  - split; [right; split; [discriminate |]; split; [exact Hne | left; exact Hw] |].
    intros Hch. contradiction Hch.
    rewrite (proj1 Hw). apply disk_written_other.
    eapply prefix_map_fst_notin; [| exact Hnotin].
    rewrite Hfull in Hl, Hne.
    now apply prefix_snoc_strict with (x := (BranchHeads dbName, HeadsDoc (uploadHeadsFor r w))).
  - assert (Hwf : sameStore (failedWrite (written (ticked 2 w) l) p d)
                            (failedWrite (written w l) p d))
      by now apply sameStore_failedWrite.
    split.
    { right. split; [discriminate |]. split; [exact Hne |]. right.
      exists p, d. split; [exact Hp | exact Hwf]. }
    intros Hch. rewrite Hfull in Hp.
    destruct (prefix_snoc_inv _ _ _ _ Hp) as [Hlpre [[-> _] | Hstrict]]; [reflexivity |].
    contradiction Hch.
    assert (Hpne : BranchHeads dbName ≠ p).
    { intros <-. apply Hnotin.
      destruct Hstrict as [k ->]. rewrite !map_app. simpl.
      rewrite !elem_of_app, elem_of_cons. auto. }
    rewrite (proj1 Hwf), disk_failedWrite_other by exact Hpne.
    apply disk_written_other.
    eapply prefix_map_fst_notin; [exact Hlpre | exact Hnotin].
Qed.

Lemma dbUpload_write_order_witness :
  let r := uploadRequest in
  let w := freshWorld in
  let out := run (dbUpload r) w in
  let dbName := HeaderGet r "Name" in
  let blobPath := FilesPath (EncodeToString (Sum256 (Body r))) in
  let blobWrites := if blobNeeded w (Body r) then [(blobPath, Blob (Body r))] else [] in
  let rest := [(FilesPath (TreeID (uploadTreeFor r w)), TreeDoc (uploadTreeFor r w));
               (FilesPath (ID (uploadCommitFor r w)), CommitDoc (uploadCommitFor r w))] ++
              (if dirNeeded w dbName then [(MetaDir dbName, Dir)] else []) in
  let heads := (BranchHeads dbName, HeadsDoc (uploadHeadsFor r w)) in
  uploadPlanFor r w = blobWrites ++ rest ++ [heads] ∧
  disk (written w blobWrites) !! blobPath = Some (Blob (Body r)) ∧
  ∃ l : list (path * content),
    l `prefix_of` uploadPlanFor r w ∧
    (StatusCode (fst out) = StatusCreated ∧ l = uploadPlanFor r w ∧
     sameStore (snd out) (written w l)
     ∨
     StatusCode (fst out) ≠ StatusCreated ∧ l ≠ uploadPlanFor r w ∧
     (sameStore (snd out) (written w l)
      ∨
      ∃ p d, (l ++ [(p, d)]) `prefix_of` uploadPlanFor r w ∧
             sameStore (snd out) (failedWrite (written w l) p d))) ∧
    (disk (snd out) !! BranchHeads dbName ≠ disk w !! BranchHeads dbName →
     (blobWrites ++ rest) `prefix_of` l).
Proof.
  apply (dbUpload_write_order uploadRequest freshWorld).
  - reflexivity.
  - reflexivity.
  - intros d H. change (disk freshWorld) with (∅ : gmap path content) in H.
    rewrite lookup_empty in H. discriminate H.
Defined.

(** A successful upload leaves the world of a complete sequence of
    writes. *)
Lemma dbUpload_created (r : Request) (w : world) :
  StatusCode (fst (run (dbUpload r) w)) = StatusCreated →
  ∃ blob dir : bool,
    snd (run (dbUpload r) w)
    = written (ticked 2 w)
        (uploadWrites (HeaderGet r "Name") (Body r)
           (uploadTree (HeaderGet r "Name") (Body r) (reading w 0))
           (uploadCommitFor r w) (uploadHeadsFor r w) blob dir).
Proof.
  intros Hok. rewrite run_dbUpload in Hok |- *.
  destruct (isEmpty (HeaderGet r "Name") || isEmpty (HeaderGet r "Branch"));
    [discriminate Hok |].
  destruct (headsUnreadable w (HeaderGet r "Name")); [discriminate Hok |].
  destruct (run_uploadStore (HeaderGet r "Name") (HeaderGet r "Branch") (Body r)
              (uploadTree (HeaderGet r "Name") (Body r) (reading w 0))
              (uploadCommitFor r w) (uploadHeadsFor r w) (ticked 2 w))
    as (l & _ & [(_ & -> & Hw) | (Hr & _)]);
    [| rewrite Hr in Hok; discriminate Hok].
  now exists (blobNeeded (ticked 2 w) (Body r)), (dirNeeded (ticked 2 w) (HeaderGet r "Name")).
Qed.

(** An upload changes nothing but at the paths of its writes. *)
Lemma dbUpload_frame (r : Request) (w : world) (p : path) :
  p ∉ map fst (uploadPlanFor r w) →
  disk (snd (run (dbUpload r) w)) !! p = disk w !! p.
Proof.
  intros Hp. rewrite run_dbUpload. cbv zeta.
  destruct (isEmpty (HeaderGet r "Name") || isEmpty (HeaderGet r "Branch")); [reflexivity |].
  destruct (headsUnreadable w (HeaderGet r "Name")); [reflexivity |].
  destruct (run_uploadStore (HeaderGet r "Name") (HeaderGet r "Branch") (Body r)
              (uploadTree (HeaderGet r "Name") (Body r) (reading w 0))
              (uploadCommitFor r w) (uploadHeadsFor r w) (ticked 2 w))
    as (l & Hl & Hres).
  change (uploadPlan (HeaderGet r "Name") (Body r)
            (uploadTree (HeaderGet r "Name") (Body r) (reading w 0))
            (uploadCommitFor r w) (uploadHeadsFor r w) (ticked 2 w))
    with (uploadPlanFor r w) in Hl, Hres.
  assert (Hl' : p ∉ map fst l) by (eapply prefix_map_fst_notin; eassumption).
  destruct Hres as [(_ & _ & ->) | (_ & _ & [-> | (q & d & Hq & _ & ->)])].
  - now rewrite disk_written_other.
  - now rewrite disk_written_other.
  - rewrite disk_failedWrite_other, disk_written_other; [reflexivity | exact Hl' |].
    intros ->. apply Hp. destruct Hq as [k ->].
    rewrite !map_app. simpl. rewrite !elem_of_app, elem_of_cons. auto.
Qed.

(** The branch table of a complete upload is in the store afterwards. *)
Lemma uploadWrites_heads_kept w dbName buf t c branches blob dir :
  disk (written w (uploadWrites dbName buf t c branches blob dir)) !! BranchHeads dbName
  = Some (HeadsDoc branches).
Proof. unfold uploadWrites. rewrite !app_assoc. apply disk_written_last. Qed.

(** Where dbExists does not find the database, the commit has no parent
    and the table to store has the one branch. *)
Lemma upload_plan_new (r : Request) (w : world) :
  disk w !! FilesPath (HeaderGet r "Name") = None →
  Parent (uploadCommitFor r w) = ""%string ∧
  uploadHeadsFor r w = {[ HeaderGet r "Branch" := ID (uploadCommitFor r w) ]}.
Proof.
  intros Hname.
  assert (Hp : present w (FilesPath (HeaderGet r "Name")) = false)
    by (unfold present; now rewrite Hname).
  unfold uploadHeadsFor, uploadCommitFor. rewrite Hp.
  split; [reflexivity | apply insert_empty].
Qed.

(** C10: a successful upload whose database name is not the name of a
    file under files/ goes the way of a new database: the commit it
    stores has no parent, and the branch table it writes for the database
    holds the uploaded branch and nothing else, whatever table was there
    before. *)
Theorem dbUpload_new_database_path (r : Request) (w : world)
    (Hname : disk w !! FilesPath (HeaderGet r "Name") = None)
    (Hok : StatusCode (fst (run (dbUpload r) w)) = StatusCreated) :
  let w' := snd (run (dbUpload r) w) in
  let c := uploadCommitFor r w in
  Parent c = ""%string ∧
  disk w' !! FilesPath (ID c) = Some (CommitDoc c) ∧
  disk w' !! BranchHeads (HeaderGet r "Name")
  = Some (HeadsDoc {[ HeaderGet r "Branch" := ID c ]}).
Proof.
  cbv zeta.
  destruct (upload_plan_new r w Hname) as [Hparent Hheads].
  destruct (dbUpload_created r w Hok) as (blob & dir & ->).
  split; [exact Hparent |].
  split; [apply uploadWrites_commit_kept |].
  rewrite <- Hheads. apply uploadWrites_heads_kept.
Qed.

Lemma dbUpload_new_database_path_witness :
  Parent (uploadCommitFor uploadRequest freshWorld) = ""%string ∧
  disk afterFirstUpload !! FilesPath (ID (uploadCommitFor uploadRequest freshWorld))
  = Some (CommitDoc (uploadCommitFor uploadRequest freshWorld)) ∧
  disk afterFirstUpload !! BranchHeads (HeaderGet uploadRequest "Name")
  = Some (HeadsDoc {[ HeaderGet uploadRequest "Branch"
                      := ID (uploadCommitFor uploadRequest freshWorld) ]}).
Proof.
  apply (dbUpload_new_database_path uploadRequest freshWorld).
  - reflexivity.
  - vm_compute. reflexivity.
Defined.

(** C1, where the code departs from it: a.db is uploaded to master twice
    in a row into an empty storage directory. Both uploads succeed; after
    the first the branch table maps master to the first commit; the
    commit of the second upload has no parent, not the first commit, and
    the branch table ends up with master at that parentless commit. *)
Theorem dbUpload_second_upload_has_no_parent :
  let c1 := uploadCommitFor uploadRequest freshWorld in
  let c2 := uploadCommitFor uploadRequest afterFirstUpload in
  let out2 := run (dbUpload uploadRequest) afterFirstUpload in
  StatusCode (fst (run (dbUpload uploadRequest) freshWorld)) = StatusCreated ∧
  loadHeads afterFirstUpload "a.db" = Ok {[ "master"%string := ID c1 ]} ∧
  StatusCode (fst out2) = StatusCreated ∧
  loadCommit (snd out2) (ID c2) = Ok c2 ∧
  loadHeads (snd out2) "a.db" = Ok {[ "master"%string := ID c2 ]} ∧
  Parent c2 = ""%string ∧ Parent c2 ≠ ID c1.
Proof.
  cbv zeta.
  assert (Hok1 : StatusCode (fst (run (dbUpload uploadRequest) freshWorld)) = StatusCreated)
    by (vm_compute; reflexivity).
  assert (Hname2 : disk afterFirstUpload !! FilesPath (HeaderGet uploadRequest "Name") = None)
    by (vm_compute; reflexivity).
  assert (Hok2 : StatusCode (fst (run (dbUpload uploadRequest) afterFirstUpload))
                 = StatusCreated)
    by (vm_compute; reflexivity).
  destruct (upload_plan_new uploadRequest freshWorld eq_refl) as [_ Hheads1].
  destruct (upload_plan_new uploadRequest afterFirstUpload Hname2) as [Hparent Hheads2].
  change (HeaderGet uploadRequest "Branch") with "master"%string in Hheads1, Hheads2.
  split; [exact Hok1 |].
  split.
  { unfold loadHeads, afterFirstUpload.
    destruct (dbUpload_created uploadRequest freshWorld Hok1) as (blob & dir & ->).
    change (HeaderGet uploadRequest "Name") with "a.db"%string.
    now rewrite uploadWrites_heads_kept, Hheads1. }
  split; [exact Hok2 |].
  destruct (dbUpload_created uploadRequest afterFirstUpload Hok2) as (blob & dir & ->).
  change (HeaderGet uploadRequest "Name") with "a.db"%string.
  split; [unfold loadCommit; now rewrite uploadWrites_commit_kept |].
  split; [unfold loadHeads; now rewrite uploadWrites_heads_kept, Hheads2 |].
  split; [exact Hparent |].
  rewrite Hparent. intros E. apply (f_equal String.length) in E.
  vm_compute in E. discriminate E.
Qed.

(* ===================================================================== *)
(** ** The blob store *)
(* ===================================================================== *)

(** When a file of the same length is there under the digest,
    storeDatabase leaves it as it is, whatever it holds. *)
Lemma storeDatabase_same_size db w d :
  disk w !! FilesPath (EncodeToString (Sum256 db)) = Some d →
  fileSize d = Z.of_nat (String.length db) →
  run (storeDatabase db) w = (None, w).
Proof.
  intros Hd Hs. rewrite run_storeDatabase. cbv zeta. rewrite Hd, Hs.
  now rewrite Z.eqb_refl.
Qed.

(** C3, where the code departs from it: the file named after the digest
    of "abc" holds "xyz", three other bytes. Storing "abc" reports no
    error and writes nothing: the store still has "xyz" under the digest
    of "abc". *)
Theorem storeDatabase_keeps_other_bytes :
  let path := FilesPath (EncodeToString (Sum256 "abc")) in
  run (storeDatabase "abc") staleWorld = (None, staleWorld) ∧
  disk staleWorld !! path = Some (Blob "xyz") ∧
  String.length "xyz" = String.length "abc" ∧
  "xyz"%string ≠ "abc"%string.
Proof.
  cbv zeta. split; [| split; [apply lookup_singleton_eq | split; [reflexivity | discriminate]]].
  apply storeDatabase_same_size with (d := Blob "xyz"); [apply lookup_singleton_eq | reflexivity].
Qed.

(* ===================================================================== *)
(** ** Branches *)
(* ===================================================================== *)

Lemma isEmpty_false s : s ≠ ""%string → isEmpty s = false.
Proof. intros H. unfold isEmpty. now apply String.eqb_neq. Qed.

(** Where dbExists does not find the database, branchCreate answers 404
    and reads no further. *)
Lemma branchCreate_database_not_found (r : Request) (w : world) :
  ParseFormError r = None →
  FormValue r "database" ≠ ""%string → FormValue r "from-branch" ≠ ""%string →
  FormValue r "new-branch" ≠ ""%string →
  present w (FilesPath (FormValue r "database")) = false →
  run (branchCreate r) w = (WriteHeader StatusNotFound, w).
Proof.
  intros Hform Hdb Hfrom Hnew Hno. unfold branchCreate. rewrite Hform.
  rewrite (isEmpty_false _ Hdb), (isEmpty_false _ Hfrom), (isEmpty_false _ Hnew). simpl.
  now rewrite run_bind, run_dbExists, Hno.
Qed.

(** C4, where the code departs from it: a.db is uploaded to master into
    an empty storage directory, and the upload succeeds: the database is
    there and its branch table has master. A request to create the
    branch dev from master is then answered with 404, and the branch
    table is as it was, with no branch dev: branchCreate looks for the
    database with dbExists, under files/, where an upload puts nothing
    under the name of the database. *)
Theorem branchCreate_after_upload_is_not_found :
  let c := uploadCommitFor uploadRequest freshWorld in
  StatusCode (fst (run (dbUpload uploadRequest) freshWorld)) = StatusCreated ∧
  loadHeads afterFirstUpload "a.db" = Ok {[ "master"%string := ID c ]} ∧
  FormValue forkRequest "database" = "a.db"%string ∧
  FormValue forkRequest "from-branch" = "master"%string ∧
  FormValue forkRequest "new-branch" = "dev"%string ∧
  run (branchCreate forkRequest) afterFirstUpload
  = (WriteHeader StatusNotFound, afterFirstUpload).
Proof.
  cbv zeta.
  assert (Hok : StatusCode (fst (run (dbUpload uploadRequest) freshWorld)) = StatusCreated)
    by (vm_compute; reflexivity).
  split; [exact Hok |].
  split.
  { destruct (upload_plan_new uploadRequest freshWorld eq_refl) as [_ Hheads].
    unfold loadHeads, afterFirstUpload.
    destruct (dbUpload_created uploadRequest freshWorld Hok) as (blob & dir & ->).
    change (HeaderGet uploadRequest "Name") with "a.db"%string.
    rewrite uploadWrites_heads_kept, Hheads. reflexivity. }
  split; [reflexivity |]. split; [reflexivity |]. split; [reflexivity |].
  apply branchCreate_database_not_found;
    [reflexivity | discriminate | discriminate | discriminate | vm_compute; reflexivity].
Qed.

(** The rule of branchCreate, where dbExists finds the database: a
    create-branch request that names a database by one path element, a
    from-branch and a new branch by valid UTF-8, on a database whose
    branch table loads and can be written:
    404 when the from-branch is not in the table; 409 when it is and the
    new branch is too; otherwise 204, and the table stored is the one
    loaded with the new branch added at the commit id of the
    from-branch. *)
Lemma branchCreate_fork_rule (r : Request) (w : world) (branches : gmap string string)
    (Hform : ParseFormError r = None)
    (Hdb : plainName (FormValue r "database") = true)
    (Hfrom : FormValue r "from-branch" ≠ ""%string)
    (Hnew : FormValue r "new-branch" ≠ ""%string)
    (Hutf : validUTF8 (FormValue r "new-branch") = true)
    (Hexists : present w (FilesPath (FormValue r "database")) = true)
    (Hheads : loadHeads w (FormValue r "database") = Ok branches)
    (Hstore : writable w (BranchHeads (FormValue r "database")) = true) :
  match branches !! FormValue r "from-branch" with
  | None => run (branchCreate r) w = (WriteHeader StatusNotFound, w)
  | Some fromId =>
      match branches !! FormValue r "new-branch" with
      | Some _ => run (branchCreate r) w = (WriteHeader StatusConflict, w)
      | None =>
          let branches' := <[FormValue r "new-branch" := fromId]> branches in
          let w' := setDisk w (BranchHeads (FormValue r "database")) (HeadsDoc branches') in
          run (branchCreate r) w = (WriteHeader StatusNoContent, w') ∧
          loadHeads w' (FormValue r "database") = Ok branches' ∧
          branches' !! FormValue r "new-branch" = Some fromId
      end
  end.
Proof.
  unfold branchCreate. rewrite Hform.
  rewrite (isEmpty_false _ (plainName_not_empty _ Hdb)), (isEmpty_false _ Hfrom),
    (isEmpty_false _ Hnew). simpl.
  rewrite run_bind, run_dbExists, Hexists. simpl.
  rewrite run_bind, run_getBranches, Hheads. simpl.
  destruct (branches !! FormValue r "from-branch") as [fromId|]; [| reflexivity].
  destruct (branches !! FormValue r "new-branch") as [other|]; [reflexivity |].
  cbv zeta. rewrite run_bind, run_storeBranches. cbv zeta.
  assert (Hdir : disk w !! MetaDir (FormValue r "database") = Some Dir).
  { unfold writable, parentReady in Hstore.
    destruct (disk w !! MetaDir (FormValue r "database")) as [[]|];
      try reflexivity; rewrite ?orb_true_r in Hstore; discriminate Hstore. }
  rewrite Hdir, Hstore. simpl. split; [reflexivity |]. split.
  - unfold loadHeads. simpl. now rewrite lookup_insert_eq.
  - apply lookup_insert_eq.
Qed.

Lemma branchCreate_fork_rule_witness :
  let branches' := <["dev"%string := "c1"%string]> {[ "master"%string := "c1"%string ]} in
  let w' := setDisk forkWorld (BranchHeads "a.db") (HeadsDoc branches') in
  run (branchCreate forkRequest) forkWorld = (WriteHeader StatusNoContent, w') ∧
  loadHeads w' "a.db" = Ok branches' ∧
  branches' !! "dev"%string = Some "c1"%string.
Proof.
  assert (Hne : ∀ s : string, String.length s ≠ 0%nat → s ≠ ""%string)
    by (intros s H ->; now apply H).
  exact (branchCreate_fork_rule forkRequest forkWorld {[ "master"%string := "c1"%string ]}
           eq_refl eq_refl
           (Hne "master"%string ltac:(discriminate))
           (Hne "dev"%string ltac:(discriminate)) eq_refl eq_refl eq_refl eq_refl).
Defined.

(* ===================================================================== *)
(** ** Branch history *)
(* ===================================================================== *)

(** The loop, on a chain that ends: it returns what it had plus the rest
    of the chain. *)
Lemma historyLoop_chain w c cs history :
  Parent c = ""%string ∧ cs = [] ∨ Parent c ≠ ""%string ∧ historyOf w (Parent c) cs →
  ∀ fuel, (length cs ≤ fuel)%nat →
  run (historyLoop fuel c history) w = (Some (WriteAsJson (CommitsJson (history ++ cs))), w).
Proof.
  intros H fuel. revert c cs history H.
  induction fuel as [|fuel IH]; intros c cs history H Hfuel.
  - destruct H as [[Hp ->] | [Hp Hh]].
    + simpl. unfold isEmpty. rewrite Hp. simpl. now rewrite app_nil_r.
    + inversion Hh; subst; simpl in Hfuel; lia.
  - destruct H as [[Hp ->] | [Hp Hh]].
    + simpl. unfold isEmpty. rewrite Hp. simpl. now rewrite app_nil_r.
    + simpl. rewrite (isEmpty_false _ Hp). simpl.
      rewrite run_bind, run_getCommit. simpl.
      inversion Hh as [id c' Hload Hroot | id c' cs' Hload Hnext Hrest]; subst;
        rewrite Hload.
      * rewrite (IH c' [] (history ++ [c'])); [| now left | simpl; lia].
        now rewrite app_nil_r.
      * rewrite (IH c' cs' (history ++ [c'])); [| now right | simpl in Hfuel; lia].
        now rewrite <- app_assoc.
Qed.

(** The loop, on a chain that breaks. *)
Lemma historyLoop_dangling w c n history :
  Parent c ≠ ""%string → dangling w (Parent c) n →
  ∀ fuel, (S n ≤ fuel)%nat →
  run (historyLoop fuel c history) w = (Some (WriteHeader StatusInternalServerError), w).
Proof.
  intros Hp Hd fuel. revert c n history Hp Hd.
  induction fuel as [|fuel IH]; intros c n history Hp Hd Hfuel; [lia |].
  simpl. rewrite (isEmpty_false _ Hp). simpl.
  rewrite run_bind, run_getCommit. simpl.
  inversion Hd as [id e Hload | id c' n' Hload Hnext Hrest]; subst; rewrite Hload.
  - reflexivity.
  - apply (IH c' n'); [assumption | assumption | lia].
Qed.

Lemma isEmpty_true s : isEmpty s = true → s = ""%string.
Proof. unfold isEmpty. apply String.eqb_eq. Qed.

Lemma isEmpty_not s : isEmpty s = false → s ≠ ""%string.
Proof. unfold isEmpty. apply String.eqb_neq. Qed.

(** The loop gives no other answers: when it ends, the chain ended or
    broke. *)
Lemma historyLoop_only w fuel c history resp w' :
  run (historyLoop fuel c history) w = (Some resp, w') →
  w' = w ∧
  ((∃ cs, resp = WriteAsJson (CommitsJson (history ++ cs)) ∧
          (Parent c = ""%string ∧ cs = [] ∨
           Parent c ≠ ""%string ∧ historyOf w (Parent c) cs)) ∨
   (∃ n, resp = WriteHeader StatusInternalServerError ∧
         Parent c ≠ ""%string ∧ dangling w (Parent c) n)).
Proof.
  revert c history.
  induction fuel as [|fuel IH]; intros c history; simpl;
    destruct (isEmpty (Parent c)) eqn:Ep; simpl.
  - intros [= <- <-]. split; [reflexivity |]. left. exists [].
    rewrite app_nil_r. split; [reflexivity |]. left. split; [now apply isEmpty_true | reflexivity].
  - discriminate.
  - intros [= <- <-]. split; [reflexivity |]. left. exists [].
    rewrite app_nil_r. split; [reflexivity |]. left. split; [now apply isEmpty_true | reflexivity].
  - apply isEmpty_not in Ep.
    rewrite run_bind, run_getCommit. simpl.
    destruct (loadCommit w (Parent c)) as [c' | e] eqn:Eload.
    + intros Hrun. destruct (IH c' (history ++ [c']) Hrun) as [-> Hcases].
      split; [reflexivity |].
      destruct Hcases as [(cs & -> & Hcs) | (n & -> & Hp & Hd)].
      * left. exists (c' :: cs). rewrite <- app_assoc. split; [reflexivity |].
        right. split; [exact Ep |].
        destruct Hcs as [[Hroot ->] | [Hnext Hrest]].
        -- now apply history_root.
        -- now apply history_step.
      * right. exists (S n). split; [reflexivity |]. split; [exact Ep |].
        now apply dangling_later with (c := c').
    + intros [= <- <-]. split; [reflexivity |].
      right. exists 0%nat. split; [reflexivity |]. split; [exact Ep |].
      now apply dangling_here with (e := e).
Qed.

(** C6, as the specification states it, fails: master of a.db is at c2,
    whose parent c1 is not in the store. The request is answered with 500
    Internal Server Error, not with 404 Not Found. *)
Lemma branchHistory_dangling_is_500 :
  loadCommit danglingWorld "c1" = Err (ErrIO (FilesPath "c1")) ∧
  fst (run (branchHistory 5 historyRequest) danglingWorld)
  = Some (WriteHeader StatusInternalServerError) ∧
  fst (run (branchHistory 5 historyRequest) danglingWorld)
  ≠ Some (WriteHeader StatusNotFound).
Proof.
  assert (E : fst (run (branchHistory 5 historyRequest) danglingWorld)
              = Some (WriteHeader StatusInternalServerError))
    by (vm_compute; reflexivity).
  split; [vm_compute; reflexivity |]. split; [exact E |].
  rewrite E. discriminate.
Qed.

(** C6, amended: a branch-history request that names a database and a
    branch, for a database that dbExists finds, is answered, once the
    loop is given turns enough, and leaves the store as it was: with 404
    when the branch is not in the table of the database; with 500 when
    the table does not load or a commit on the chain of parents does not
    load; and otherwise with the commits from the branch head along the
    parents to the commit with no parent, head first. *)
Theorem branchHistory_result (r : Request) (w : world) (resp : Response) (n fuel : nat)
    (Hdb : HeaderGet r "Database" ≠ ""%string)
    (Hbranch : HeaderGet r "Branch" ≠ ""%string)
    (Hfound : present w (FilesPath (HeaderGet r "Database")) = true)
    (Hres : historyResult w (HeaderGet r "Database") (HeaderGet r "Branch") resp n)
    (Hfuel : (n ≤ fuel)%nat) :
  run (branchHistory fuel r) w = (Some resp, w).
Proof.
  unfold branchHistory.
  rewrite (isEmpty_false _ Hdb), (isEmpty_false _ Hbranch). simpl.
  rewrite run_bind, run_dbExists, Hfound. simpl.
  rewrite run_bind, run_getBranches.
  destruct Hres as [e Hheads | branches Hheads Hb
                    | branches id cs Hheads Hb Hh | branches id k Hheads Hb Hd];
    rewrite Hheads; simpl.
  - reflexivity.
  - now rewrite Hb.
  - rewrite Hb, run_bind, run_getCommit. simpl.
    inversion Hh as [id' c Hload Hroot | id' c cs' Hload Hnext Hrest]; subst;
      rewrite Hload.
    + apply (historyLoop_chain w c [] [c]); [now left | simpl; lia].
    + apply (historyLoop_chain w c cs' [c]); [now right | simpl in Hfuel; lia].
  - rewrite Hb, run_bind, run_getCommit. simpl.
    inversion Hd as [id' e Hload | id' c k' Hload Hnext Hrest]; subst; rewrite Hload.
    + reflexivity.
    + now apply (historyLoop_dangling w c k' [c]).
Qed.

(** And a request that names a database and a branch gets no other
    answer than those, where dbExists finds the database; where it does
    not, the answer is 404. *)
Lemma branchHistory_result_only (r : Request) (w w' : world) (resp : Response) (fuel : nat) :
  HeaderGet r "Database" ≠ ""%string → HeaderGet r "Branch" ≠ ""%string →
  run (branchHistory fuel r) w = (Some resp, w') →
  w' = w ∧
  (present w (FilesPath (HeaderGet r "Database")) = false ∧ resp = WriteHeader StatusNotFound
   ∨
   present w (FilesPath (HeaderGet r "Database")) = true ∧
   ∃ n, historyResult w (HeaderGet r "Database") (HeaderGet r "Branch") resp n).
Proof.
  intros Hdb Hbranch. unfold branchHistory.
  rewrite (isEmpty_false _ Hdb), (isEmpty_false _ Hbranch). simpl.
  rewrite run_bind, run_dbExists. simpl.
  destruct (present w (FilesPath (HeaderGet r "Database"))) eqn:Ep; simpl.
  2: { intros [= <- <-]. split; [reflexivity |]. now left. }
  rewrite run_bind, run_getBranches. simpl.
  destruct (loadHeads w (HeaderGet r "Database")) as [branches | e] eqn:Eh; simpl.
  2: { intros [= <- <-]. split; [reflexivity |]. right. split; [reflexivity |].
       exists 0%nat. now apply result_no_table with (e := e). }
  destruct (branches !! HeaderGet r "Branch") as [id |] eqn:Eb.
  2: { intros [= <- <-]. split; [reflexivity |]. right. split; [reflexivity |].
       exists 0%nat. now apply result_no_branch with (branches := branches). }
  rewrite run_bind, run_getCommit. simpl.
  destruct (loadCommit w id) as [c | e] eqn:Ec.
  2: { intros [= <- <-]. split; [reflexivity |]. right. split; [reflexivity |].
       exists 0%nat.
       apply result_dangling with (branches := branches) (id := id); try assumption.
       now apply dangling_here with (e := e). }
  intros Hrun. destruct (historyLoop_only w fuel c [c] resp w' Hrun) as [-> Hcases].
  split; [reflexivity |]. right. split; [reflexivity |].
  destruct Hcases as [(cs & -> & Hcs) | (n & -> & Hp & Hd)].
  - exists (length (c :: cs)).
    apply result_history with (branches := branches) (id := id); try assumption.
    destruct Hcs as [[Hroot ->] | [Hnext Hrest]].
    + now apply history_root.
    + now apply history_step.
  - exists (S n).
    apply result_dangling with (branches := branches) (id := id); try assumption.
    now apply dangling_later with (c := c).
Qed.

Lemma branchHistory_result_witness :
  run (branchHistory 2 historyRequest) historyWorld
  = (Some (WriteAsJson (CommitsJson [commitWithParent "c2" "c1"; commitWithParent "c1" ""])),
     historyWorld).
Proof.
  apply (branchHistory_result historyRequest historyWorld _ 2 2).
  - discriminate.
  - discriminate.
  - reflexivity.
  - apply (result_history historyWorld "a.db" "master" {[ "master"%string := "c2"%string ]}
             "c2" [commitWithParent "c2" "c1"; commitWithParent "c1" ""]);
      [reflexivity | reflexivity |].
    apply history_step; [reflexivity | discriminate |].
    apply history_root; reflexivity.
  - lia.
Defined.

(* ===================================================================== *)
(** ** What dbUpload reads of a request *)
(* ===================================================================== *)

Lemma HeaderGet_except_Message (r r' : Request) key :
  delete "Message"%string (Header r') = delete "Message"%string (Header r) →
  key ≠ "Message"%string → HeaderGet r' key = HeaderGet r key.
Proof.
  intros H Hk. unfold HeaderGet.
  rewrite <- (lookup_delete_ne (Header r') "Message"%string key) by congruence.
  rewrite <- (lookup_delete_ne (Header r) "Message"%string key) by congruence.
  now rewrite H.
Qed.

(** C8, as the specification states it, fails: an upload with a name and
    a branch and no commit message succeeds; an upload with a name and a
    message and no branch is refused with 400. *)
Lemma dbUpload_message_not_required :
  Header uploadRequest !! "Message"%string = None ∧
  StatusCode (fst (run (dbUpload uploadRequest) freshWorld)) = StatusCreated ∧
  Header uploadNoBranch !! "Branch"%string = None ∧
  fst (run (dbUpload uploadNoBranch) freshWorld) = WriteHeader StatusBadRequest.
Proof.
  split; [reflexivity |]. split; [vm_compute; reflexivity |].
  split; reflexivity.
Qed.

(** C8, amended: an upload request with no database name is refused with
    400 and nothing is written; the handler does not read the commit
    message: two requests that differ only in the Message header are
    served alike. *)
Theorem dbUpload_input_check (r r' : Request) (w : world)
    (Hheaders : delete "Message"%string (Header r') = delete "Message"%string (Header r))
    (Hbody : Body r' = Body r) :
  (HeaderGet r "Name" = ""%string → run (dbUpload r) w = (WriteHeader StatusBadRequest, w)) ∧
  run (dbUpload r') w = run (dbUpload r) w.
Proof.
  split.
  - intros Hname. unfold dbUpload. now rewrite Hname.
  - unfold dbUpload.
    rewrite (HeaderGet_except_Message r r' "Name" Hheaders) by discriminate.
    rewrite (HeaderGet_except_Message r r' "Branch" Hheaders) by discriminate.
    now rewrite Hbody.
Qed.

Lemma dbUpload_input_check_witness :
  (HeaderGet uploadRequest "Name" = ""%string →
   run (dbUpload uploadRequest) freshWorld = (WriteHeader StatusBadRequest, freshWorld)) ∧
  run (dbUpload uploadWithMessage) freshWorld = run (dbUpload uploadRequest) freshWorld.
Proof.
  apply (dbUpload_input_check uploadRequest uploadWithMessage freshWorld).
  - vm_compute. reflexivity.
  - reflexivity.
Defined.

(* ===================================================================== *)
(** ** Uploads at the same time and one after another *)
(* ===================================================================== *)

(** C9, as the specification states it, fails: two uploads to master of
    a.db are served at the same time, each reading the branch table
    before the other writes it. Both are answered with 201, and the
    history of master afterwards has one commit, not two. Served one
    after the other from the same store, they leave a history of two. *)
Lemma uploads_overlapped_lose_a_commit :
  let both := [dbUpload uploadRequest; dbUpload uploadOther] in
  let served := interleave overlapped both servedWorld in
  let served' := interleave inTurn both servedWorld in
  map finished (fst served) = [Some (created "a.db"); Some (created "a.db")] ∧
  historyLength (fst (run (branchHistory 5 historyRequest) (snd served))) = Some 1%nat ∧
  map finished (fst served') = [Some (created "a.db"); Some (created "a.db")] ∧
  historyLength (fst (run (branchHistory 5 historyRequest) (snd served'))) = Some 2%nat.
Proof.
  cbv zeta.
  split; [vm_compute; reflexivity |].
  split; [vm_compute; reflexivity |].
  split; [vm_compute; reflexivity |].
  vm_compute; reflexivity.
Qed.

(** *** A store that takes every write *)

Lemma isDir_setDisk_file w q d p :
  d ≠ Dir → isDir w p = false → isDir (setDisk w q d) p = false.
Proof.
  intros Hd Hp. unfold isDir, setDisk in *. simpl.
  destruct (decide (q = p)) as [-> | Hne].
  - rewrite lookup_insert_eq. now destruct d.
  - now rewrite lookup_insert_ne.
Qed.

Lemma sound_writable_file w dbName name :
  sound w dbName → writable w (FilesPath name) = true.
Proof.
  intros (_ & _ & _ & Hf & Hd & _). unfold writable. now rewrite Hf, Hd.
Qed.

Lemma sound_writable_heads w dbName :
  sound w dbName → writable w (BranchHeads dbName) = true.
Proof.
  intros (_ & Hm & Hh & Hf & _ & _). unfold writable, parentReady. now rewrite Hf, Hm, Hh.
Qed.

Lemma sound_setDisk_file w dbName name d :
  d ≠ Dir → sound w dbName → sound (setDisk w (FilesPath name) d) dbName.
Proof.
  intros Hd (Hp & Hm & Hh & Hf & Hdir & Ht).
  split; [| split; [| split; [| split; [| split]]]].
  - apply (present_written w [(FilesPath name, d)]), Hp.
  - unfold setDisk. simpl. now rewrite lookup_insert_ne.
  - now apply isDir_setDisk_file.
  - exact Hf.
  - intros n. now apply isDir_setDisk_file.
  - exact Ht.
Qed.

Lemma sound_setDisk_heads w dbName branches :
  sound w dbName → sound (setDisk w (BranchHeads dbName) (HeadsDoc branches)) dbName.
Proof.
  intros (Hp & Hm & Hh & Hf & Hdir & Ht).
  split; [| split; [| split; [| split; [| split]]]].
  - apply (present_written w [(BranchHeads dbName, HeadsDoc branches)]), Hp.
  - unfold setDisk. simpl. now rewrite lookup_insert_ne.
  - now apply isDir_setDisk_file.
  - exact Hf.
  - intros n. now apply isDir_setDisk_file.
  - exact Ht.
Qed.

Lemma reading_ticked w k n : reading (ticked k w) n = reading w (n + k).
Proof. unfold reading, ticked. simpl. now rewrite drop_drop, Nat.add_comm. Qed.

Lemma sound_ticked w dbName k : sound w dbName → sound (ticked k w) dbName.
Proof.
  intros (Hp & Hm & Hh & Hf & Hdir & Ht).
  split; [| split; [| split; [| split; [| split]]]]; try assumption.
  intros n. rewrite reading_ticked. apply Ht.
Qed.

(** In such a store the second half of dbUpload goes through. *)
Lemma uploadStore_succeeds dbName branchName buf t c branches w :
  sound w dbName →
  forallb (fun e => JSON.timeOK (Last_Modified e)) (Entries t) = true →
  JSON.timeOK (Timestamp c) = true →
  ∃ w', run (uploadStore dbName branchName buf t c branches) w = (created dbName, w') ∧
        sound w' dbName ∧ loadHeads w' dbName = Ok branches ∧
        loadCommit w' (ID c) = Ok c.
Proof.
  intros Hs Ht Hc. unfold uploadStore.
  rewrite run_bind, run_storeDatabase. cbv zeta.
  rewrite (sound_writable_file w dbName) by assumption.
  set (w1 := setDisk w (FilesPath (EncodeToString (Sum256 buf))) (Blob buf)).
  assert (Hs1 : sound w1 dbName) by (now apply sound_setDisk_file).
  assert (Hrest : ∀ w0, sound w0 dbName →
    ∃ w', run (err <- storeTree t ;;
               match err with
               | Some _ => Ret (WriteHeader StatusInternalServerError)
               | None =>
                   err <- storeCommit c ;;
                   match err with
                   | Some _ => Ret (WriteHeader StatusInternalServerError)
                   | None =>
                       err <- storeBranches dbName branches ;;
                       match err with
                       | Some _ => Ret (WriteHeader StatusInternalServerError)
                       | None => Ret (mkResponse StatusCreated (Some ("/" +:+ dbName)) NoBody)
                       end
                   end
               end) w0 = (created dbName, w') ∧
          sound w' dbName ∧ loadHeads w' dbName = Ok branches ∧ loadCommit w' (ID c) = Ok c).
  { intros w0 Hs0.
    rewrite run_bind, run_storeTree, Ht. simpl.
    rewrite (sound_writable_file w0 dbName) by assumption. simpl.
    set (w2 := setDisk w0 (FilesPath (TreeID t)) (TreeDoc t)).
    assert (Hs2 : sound w2 dbName) by (now apply sound_setDisk_file).
    rewrite run_bind, run_storeCommit, Hc. simpl.
    rewrite (sound_writable_file w2 dbName) by assumption. simpl.
    set (w3 := setDisk w2 (FilesPath (ID c)) (CommitDoc c)).
    assert (Hs3 : sound w3 dbName) by (now apply sound_setDisk_file).
    rewrite run_bind, run_storeBranches. cbv zeta.
    destruct Hs3 as (Hp3 & Hm3 & Hrest3) eqn:E3. rewrite Hm3.
    rewrite (sound_writable_heads w3 dbName) by assumption. simpl.
    eexists. split; [reflexivity |].
    split; [now apply sound_setDisk_heads |]. split.
    - unfold loadHeads, setDisk. simpl. now rewrite lookup_insert_eq.
    - unfold loadCommit, setDisk. simpl.
      rewrite lookup_insert_ne by discriminate. now rewrite lookup_insert_eq. }
  destruct (disk w !! FilesPath (EncodeToString (Sum256 buf))) as [d|];
    [destruct (Z.of_nat (String.length buf) =? fileSize d) |]; simpl;
    now apply Hrest.
Qed.

Arguments uploadCommitFor : simpl never.
Arguments uploadHeadsFor : simpl never.
Arguments uploadTree : simpl never.

(** One upload in such a store: it succeeds, the store stays such a
    store, the commit has the branch's head as its parent and becomes
    the branch's head. *)
Lemma dbUpload_in_sound_store (r : Request) (w : world) (branches : gmap string string) :
  HeaderGet r "Name" ≠ ""%string → HeaderGet r "Branch" ≠ ""%string →
  sound w (HeaderGet r "Name") → loadHeads w (HeaderGet r "Name") = Ok branches →
  let c := uploadCommitFor r w in
  ∃ w', run (dbUpload r) w = (created (HeaderGet r "Name"), w') ∧
        sound w' (HeaderGet r "Name") ∧
        loadHeads w' (HeaderGet r "Name") = Ok (<[HeaderGet r "Branch" := ID c]> branches) ∧
        loadCommit w' (ID c) = Ok c ∧
        Parent c = headOf branches (HeaderGet r "Branch").
Proof.
  intros Hdb Hb Hs Hheads. cbv zeta.
  assert (Hp : present w (FilesPath (HeaderGet r "Name")) = true) by apply Hs.
  assert (Hclock : ∀ n, JSON.timeOK (reading w n) = true) by apply Hs.
  assert (Htime : JSON.timeOK (Timestamp (uploadCommitFor r w)) = true).
  { unfold uploadCommitFor. rewrite Hp, Hheads.
    destruct (branches !! HeaderGet r "Branch"); apply Hclock. }
  assert (Hplan : uploadHeadsFor r w
                  = <[HeaderGet r "Branch" := ID (uploadCommitFor r w)]> branches).
  { unfold uploadHeadsFor. now rewrite Hp, Hheads. }
  rewrite run_dbUpload. cbv zeta.
  rewrite (isEmpty_false _ Hdb), (isEmpty_false _ Hb). cbn [orb].
  unfold headsUnreadable. rewrite Hp, Hheads. cbn [andb].
  destruct (uploadStore_succeeds (HeaderGet r "Name") (HeaderGet r "Branch") (Body r)
              (uploadTree (HeaderGet r "Name") (Body r) (reading w 0))
              (uploadCommitFor r w) (uploadHeadsFor r w) (ticked 2 w))
    as (w' & Hrun & Hs' & Hheads' & Hcommit').
  - now apply sound_ticked.
  - unfold uploadTree. simpl. now rewrite Hclock.
  - exact Htime.
  - exists w'. rewrite Hplan in Hheads'.
    split; [exact Hrun |]. split; [exact Hs' |]. split; [exact Hheads' |].
    split; [exact Hcommit' |].
    unfold uploadCommitFor, headOf. rewrite Hp, Hheads.
    now destruct (branches !! HeaderGet r "Branch").
Qed.

Lemma last_cons_default {A} (l : list A) (x d : A) : List.last (x :: l) d = List.last l x.
Proof.
  revert x d. induction l as [|y l IH]; intros x d; [reflexivity |].
  change (List.last (x :: y :: l) d) with (List.last (y :: l) d).
  now rewrite !IH.
Qed.

Lemma sound_servedWorld : sound servedWorld "a.db".
Proof.
  split; [reflexivity |]. split; [reflexivity |]. split; [reflexivity |].
  split; [intros p; reflexivity |]. split.
  - intros name. unfold isDir, servedWorld. simpl.
    destruct (decide (name = "a.db"%string)) as [-> | Hne].
    + now rewrite lookup_insert_eq.
    + rewrite lookup_insert_ne by congruence.
      rewrite lookup_insert_ne by discriminate.
      now rewrite lookup_singleton_ne by discriminate.
  - intros n. unfold reading, servedWorld. simpl.
    do 8 (destruct n as [|n]; [reflexivity |]).
    now destruct n.
Qed.

(* ===================================================================== *)
(** ** Object names and database names *)
(* ===================================================================== *)

Lemma length_EncodeToString bs : String.length (EncodeToString bs) = (2 * length bs)%nat.
Proof.
  induction bs as [|b bs IH]; [reflexivity |].
  change (EncodeToString (b :: bs))
    with (String (hexdigit (b / 16)) (String (hexdigit (b mod 16)) (EncodeToString bs))).
  simpl. rewrite IH. lia.
Qed.

Lemma length_round st kw : length st = 8%nat → length (SHA256.round st kw) = 8%nat.
Proof.
  intros H. do 9 (destruct st as [|? st]; try discriminate H). reflexivity.
Qed.

Lemma length_fold_round l st :
  length st = 8%nat → length (fold_left SHA256.round l st) = 8%nat.
Proof.
  revert st. induction l as [|kw l IH]; intros st H; [exact H |].
  simpl. apply IH. now apply length_round.
Qed.

Lemma length_compress h blk : length h = 8%nat → length (SHA256.compress h blk) = 8%nat.
Proof.
  intros H. unfold SHA256.compress.
  rewrite length_map, length_combine, length_fold_round by exact H. rewrite H. reflexivity.
Qed.

Lemma length_fold_compress bs h :
  length h = 8%nat → length (fold_left SHA256.compress bs h) = 8%nat.
Proof.
  revert h. induction bs as [|b bs IH]; intros h H; [exact H |].
  simpl. apply IH. now apply length_compress.
Qed.

Lemma length_flat_map_be_bytes hs :
  length (flat_map (SHA256.be_bytes 4) hs) = (4 * length hs)%nat.
Proof.
  induction hs as [|x hs IH]; [reflexivity |].
  change (flat_map (SHA256.be_bytes 4) (x :: hs))
    with (SHA256.be_bytes 4 x ++ flat_map (SHA256.be_bytes 4) hs).
  rewrite length_app, IH. unfold SHA256.be_bytes. rewrite length_map. simpl. lia.
Qed.

(** A SHA-256 digest has 32 bytes, 64 hexadecimal digits. *)
Lemma length_hex_digest data : String.length (EncodeToString (Sum256 data)) = 64%nat.
Proof.
  rewrite length_EncodeToString. unfold Sum256, SHA256.digest.
  rewrite length_flat_map_be_bytes, length_fold_compress; reflexivity.
Qed.

(** An upload writes under files/ only at names that are digests. A
    database whose name is not 64 bytes long is therefore not found by
    dbExists after any upload, if it was not before. *)
Lemma dbUpload_leaves_database_unseen (r : Request) (w : world) (dbName : string) :
  String.length dbName ≠ 64%nat →
  disk w !! FilesPath dbName = None →
  disk (snd (run (dbUpload r) w)) !! FilesPath dbName = None.
Proof.
  intros Hlen Hnone. rewrite dbUpload_frame; [exact Hnone |].
  assert (Hne : ∀ data, FilesPath dbName ≠ FilesPath (EncodeToString (Sum256 data))).
  { intros data [= E]. apply Hlen. rewrite E. apply length_hex_digest. }
  unfold uploadPlanFor, uploadPlan, uploadWrites.
  destruct (blobNeeded w (Body r)), (dirNeeded w (HeaderGet r "Name")); simpl;
    rewrite ?elem_of_cons, elem_of_nil;
    intros H; repeat destruct H as [H | H]; try discriminate H; try exact H;
    revert H; apply Hne.
Qed.

(** Every upload after a successful first one, to a database whose name
    is not 64 bytes long and was not under files/, stores a commit with
    no parent: the prior head is never the parent. *)
Lemma dbUpload_again_is_a_root (r r' : Request) (w : world) :
  String.length (HeaderGet r' "Name") ≠ 64%nat →
  disk w !! FilesPath (HeaderGet r' "Name") = None →
  let w1 := snd (run (dbUpload r) w) in
  StatusCode (fst (run (dbUpload r') w1)) = StatusCreated →
  Parent (uploadCommitFor r' w1) = ""%string ∧
  disk (snd (run (dbUpload r') w1)) !! BranchHeads (HeaderGet r' "Name")
  = Some (HeadsDoc {[ HeaderGet r' "Branch" := ID (uploadCommitFor r' w1) ]}).
Proof.
  intros Hlen Hnone w1 Hok.
  assert (Hnone1 : disk w1 !! FilesPath (HeaderGet r' "Name") = None)
    by (now apply dbUpload_leaves_database_unseen).
  destruct (upload_plan_new r' w1 Hnone1) as [Hparent Hheads].
  destruct (dbUpload_created r' w1 Hok) as (blob & dir & ->).
  split; [exact Hparent |].
  rewrite <- Hheads. apply uploadWrites_heads_kept.
Qed.

(** *** Schedules and runs *)

(** A handler served alone goes through its calls and ends where [run]
    ends. *)
Lemma interleave_alone {A} (p : prog A) w :
  ∃ n, interleave (repeat 0%nat n) [p] w = ([Ret (fst (run p w))], snd (run p w)).
Proof.
  revert w. induction p as [a | X o k IH]; intros w.
  - exists 0%nat. reflexivity.
  - destruct (perform o w) as [x w'] eqn:E.
    destruct (IH x w') as [n Hn]. exists (S n).
    change (interleave (repeat 0%nat (S n)) [Vis o k] w)
      with (let '(p', w') := (let '(x, w') := perform o w in (k x, w')) in
            interleave (repeat 0%nat n) [p'] w').
    change (run (Vis o k) w) with (let '(x, w') := perform o w in run (k x) w').
    rewrite E. exact Hn.
Qed.

(* ===================================================================== *)
(** ** Uploads one after another *)
(* ===================================================================== *)

Lemma createCommitID_not_empty c : createCommitID c ≠ ""%string.
Proof.
  intros E. apply (f_equal String.length) in E.
  unfold createCommitID in E. rewrite length_hex_digest in E. discriminate E.
Qed.

Lemma ID_uploadCommitFor r w : ID (uploadCommitFor r w) ≠ ""%string.
Proof. unfold uploadCommitFor. cbv zeta. apply createCommitID_not_empty. Qed.

(** C9, amended: dbUpload takes no lock, and the calls of uploads served
    at the same time interleave. Uploads to one branch of one database
    that are served one after another, in a store where dbExists finds
    the database, its branch table loads and no write fails, all succeed.
    Each of them leaves its commit in the store, under an identifier
    that is not empty, and the branch at that commit; each commit has as
    its parent the head the upload before it left (the first, the head
    the branch had); the other branches stay as they were. The database
    is named by one path element and the branch by valid UTF-8. *)
Theorem uploads_in_turn_chain (rs : list Request) (w : world)
    (dbName branchName : string) (branches : gmap string string)
    (Hplain : plainName dbName = true)
    (Hb : branchName ≠ ""%string)
    (Hutf : validUTF8 branchName = true)
    (Hrs : Forall (fun r => HeaderGet r "Name" = dbName ∧ HeaderGet r "Branch" = branchName) rs)
    (Hs : sound w dbName)
    (Hheads : loadHeads w dbName = Ok branches) :
  fst (serve rs w) = map (fun _ => created dbName) rs ∧
  snd (serve rs w) = List.last (storesAfter rs w) w ∧
  ∃ cs : list commit,
    Forall2 (landed dbName branchName branches) cs (storesAfter rs w) ∧
    chained (headOf branches branchName) cs ∧
    Forall (fun c => ID c ≠ ""%string) cs.
Proof.
  pose proof (plainName_not_empty _ Hplain) as Hdb. clear Hplain Hutf.
  revert w branches Hs Hheads.
  induction Hrs as [| r rs [Hname Hbranch] Hrs IH]; intros w branches Hs Hheads.
  - split; [reflexivity |]. split; [reflexivity |].
    exists []. split; [constructor |]. split; [exact I | constructor].
  - subst dbName branchName.
    destruct (dbUpload_in_sound_store r w branches Hdb Hb Hs Hheads)
      as (w1 & Hrun & Hs1 & Hheads1 & Hcommit & Hparent).
    destruct (IH w1 _ Hs1 Hheads1) as (Hresp & Hlast & cs & Hland & Hchain & Hids).
    simpl. rewrite Hrun.
    destruct (serve rs w1) as [resps w2] eqn:Eserve. cbn [fst snd] in *.
    split; [now rewrite Hresp |].
    split; [rewrite Hlast; symmetry; apply last_cons_default |].
    exists (uploadCommitFor r w :: cs).
    split; [| split].
    + constructor.
      * split; [exact Hcommit |].
        exists (<[HeaderGet r "Branch" := ID (uploadCommitFor r w)]> branches).
        split; [exact Hheads1 |]. split; [apply lookup_insert_eq |].
        intros other Hne. now apply lookup_insert_ne.
      * eapply Forall2_impl; [exact Hland |].
        intros c w' (Hc & heads & Hh & Hat & Hother).
        split; [exact Hc |]. exists heads. split; [exact Hh |]. split; [exact Hat |].
        intros other Hne. rewrite Hother by exact Hne. now apply lookup_insert_ne.
    + split; [exact Hparent |].
      unfold headOf in Hchain. now rewrite lookup_insert_eq in Hchain.
    + constructor; [apply ID_uploadCommitFor | exact Hids].
Qed.

Lemma uploads_in_turn_chain_witness :
  let rs := [uploadRequest; uploadOther] in
  fst (serve rs servedWorld) = map (fun _ => created "a.db") rs ∧
  snd (serve rs servedWorld) = List.last (storesAfter rs servedWorld) servedWorld ∧
  ∃ cs : list commit,
    Forall2 (landed "a.db" "master" ∅) cs (storesAfter rs servedWorld) ∧
    chained (headOf ∅ "master") cs ∧
    Forall (fun c => ID c ≠ ""%string) cs.
Proof.
  apply (uploads_in_turn_chain [uploadRequest; uploadOther] servedWorld "a.db" "master" ∅).
  - reflexivity.
  - discriminate.
  - reflexivity.
  - repeat constructor.
  - apply sound_servedWorld.
  - reflexivity.
Defined.

(* ===================================================================== *)
(** ** The store functions on their own *)
(* ===================================================================== *)

Lemma disk_setDisk_other w p d q : q ≠ p → disk (setDisk w p d) !! q = disk w !! q.
Proof. intros H. unfold setDisk. simpl. apply lookup_insert_ne. congruence. Qed.

Lemma disk_setDisk_same w p d : disk (setDisk w p d) !! p = Some d.
Proof. unfold setDisk. simpl. apply lookup_insert_eq. Qed.

(** X2: storing a database file twice is storing it once. When
    storeDatabase reports no error, the store has a file of the length
    of the bytes under their digest, the very bytes if nothing was there
    before; no other path has changed; and a second storeDatabase of the
    same bytes reports no error and writes nothing. *)
Theorem storeDatabase_again (db : string) (w : world)
    (Hok : fst (run (storeDatabase db) w) = None) :
  let path := FilesPath (EncodeToString (Sum256 db)) in
  let w' := snd (run (storeDatabase db) w) in
  (∃ d, disk w' !! path = Some d ∧ fileSize d = Z.of_nat (String.length db)) ∧
  (disk w !! path = None → disk w' !! path = Some (Blob db)) ∧
  (∀ p, p ≠ path → disk w' !! p = disk w !! p) ∧
  run (storeDatabase db) w' = (None, w').
Proof.
  cbv zeta. rewrite run_storeDatabase in Hok |- *. cbv zeta in Hok |- *.
  set (path := FilesPath (EncodeToString (Sum256 db))) in *.
  assert (Hwritten :
    let w' := setDisk w path (Blob db) in
    (∃ d, disk w' !! path = Some d ∧ fileSize d = Z.of_nat (String.length db)) ∧
    (disk w !! path = None → disk w' !! path = Some (Blob db)) ∧
    (∀ p, p ≠ path → disk w' !! p = disk w !! p) ∧
    run (storeDatabase db) w' = (None, w')).
  { cbv zeta. split; [exists (Blob db); split; [apply disk_setDisk_same | reflexivity] |].
    split; [intros _; apply disk_setDisk_same |].
    split; [intros p Hp; now apply disk_setDisk_other |].
    apply storeDatabase_same_size with (d := Blob db);
      [apply disk_setDisk_same | reflexivity]. }
  destruct (disk w !! path) as [d|] eqn:Ed.
  - destruct (Z.of_nat (String.length db) =? fileSize d) eqn:Es; simpl in *.
    + apply Z.eqb_eq in Es. split; [exists d; split; [exact Ed | now symmetry] |].
      split; [discriminate |]. split; [reflexivity |].
      apply storeDatabase_same_size with (d := d); [exact Ed | now symmetry].
    + destruct (writable w path); simpl in *; [exact Hwritten | discriminate Hok].
  - destruct (writable w path); simpl in *; [exact Hwritten | discriminate Hok].
Qed.

Lemma storeDatabase_again_witness :
  let path := FilesPath (EncodeToString (Sum256 "abc")) in
  let w' := snd (run (storeDatabase "abc") freshWorld) in
  (∃ d, disk w' !! path = Some d ∧ fileSize d = Z.of_nat (String.length "abc")) ∧
  (disk freshWorld !! path = None → disk w' !! path = Some (Blob "abc")) ∧
  (∀ p, p ≠ path → disk w' !! p = disk freshWorld !! p) ∧
  run (storeDatabase "abc") w' = (None, w').
Proof.
  apply (storeDatabase_again "abc" freshWorld).
  rewrite run_storeDatabase. reflexivity.
Defined.

(* ===================================================================== *)
(** ** More on uploads *)
(* ===================================================================== *)

(** X3: the answers of dbUpload. The status is 400, 500 or 201 and
    nothing else; it is 400 exactly when the Name or the Branch header is
    empty or missing, and then the store and the clock are untouched; the
    Location header is set, to "/" and the database name, exactly when
    the status is 201. *)
Theorem dbUpload_answers (r : Request) (w : world) :
  let out := run (dbUpload r) w in
  statusIn [StatusBadRequest; StatusInternalServerError; StatusCreated] (fst out) ∧
  (StatusCode (fst out) = StatusBadRequest
   ↔ HeaderGet r "Name" = ""%string ∨ HeaderGet r "Branch" = ""%string) ∧
  (StatusCode (fst out) = StatusBadRequest → snd out = w) ∧
  Location (fst out)
  = if StatusCode (fst out) =? StatusCreated then Some ("/" +:+ HeaderGet r "Name") else None.
Proof.
  cbv zeta. rewrite run_dbUpload. cbv zeta. unfold statusIn.
  destruct (isEmpty (HeaderGet r "Name")) eqn:En.
  { apply isEmpty_true in En. simpl.
    split; [rewrite !elem_of_cons; auto |]. split; [split; [now left | reflexivity] |].
    split; reflexivity. }
  destruct (isEmpty (HeaderGet r "Branch")) eqn:Eb.
  { apply isEmpty_true in Eb. simpl.
    split; [rewrite !elem_of_cons; auto |]. split; [split; [now right | reflexivity] |].
    split; reflexivity. }
  apply isEmpty_not in En, Eb. cbn [orb].
  assert (Hno : HeaderGet r "Name" = ""%string ∨ HeaderGet r "Branch" = ""%string → False)
    by (intros [H | H]; contradiction).
  destruct (headsUnreadable w (HeaderGet r "Name")).
  { simpl. split; [rewrite !elem_of_cons; auto |].
    split; [split; [discriminate | intros H; destruct (Hno H)] |].
    split; [discriminate | reflexivity]. }
  destruct (run_uploadStore (HeaderGet r "Name") (HeaderGet r "Branch") (Body r)
              (uploadTree (HeaderGet r "Name") (Body r) (reading w 0))
              (uploadCommitFor r w) (uploadHeadsFor r w) (ticked 2 w))
    as (l & _ & [(-> & _) | (-> & _)]); simpl.
  - split; [rewrite !elem_of_cons; auto |].
    split; [split; [discriminate | intros H; destruct (Hno H)] |].
    split; [discriminate | reflexivity].
  - split; [rewrite !elem_of_cons; auto |].
    split; [split; [discriminate | intros H; destruct (Hno H)] |].
    split; [discriminate | reflexivity].
Qed.

(** *** The first upload of a database *)

Lemma writable_file_of w name :
  (∀ p, faulty w p = false) → (∀ n, isDir w (FilesPath n) = false) →
  writable w (FilesPath name) = true.
Proof. intros Hf Hd. unfold writable. now rewrite Hf, Hd. Qed.

(** In a store that takes every write and has no meta directory for the
    database, the second half of dbUpload makes the directory and goes
    through. *)
Lemma uploadStore_first dbName branchName buf t c branches w :
  disk w !! MetaDir dbName = None → disk w !! BranchHeads dbName = None →
  (∀ p, faulty w p = false) → (∀ n, isDir w (FilesPath n) = false) →
  forallb (fun e => JSON.timeOK (Last_Modified e)) (Entries t) = true →
  JSON.timeOK (Timestamp c) = true →
  ∃ blob, run (uploadStore dbName branchName buf t c branches) w
          = (created dbName, written w (uploadWrites dbName buf t c branches blob true)) ∧
          (blob = false → present w (FilesPath (EncodeToString (Sum256 buf))) = true).
Proof.
  intros Hmeta Hheads Hf Hd Ht Hc. unfold uploadStore.
  rewrite run_bind, run_storeDatabase. cbv zeta.
  rewrite (writable_file_of w) by assumption.
  assert (Hrest : ∀ w0 l0, w0 = written w l0 →
    Forall (fun pd => ∃ n, fst pd = FilesPath n ∧ snd pd ≠ Dir) l0 →
    run (err <- storeTree t ;;
         match err with
         | Some _ => Ret (WriteHeader StatusInternalServerError)
         | None =>
             err <- storeCommit c ;;
             match err with
             | Some _ => Ret (WriteHeader StatusInternalServerError)
             | None =>
                 err <- storeBranches dbName branches ;;
                 match err with
                 | Some _ => Ret (WriteHeader StatusInternalServerError)
                 | None => Ret (mkResponse StatusCreated (Some ("/" +:+ dbName)) NoBody)
                 end
             end
         end) w0
    = (created dbName,
       written w (l0 ++ [(FilesPath (TreeID t), TreeDoc t); (FilesPath (ID c), CommitDoc c)] ++
                  [(MetaDir dbName, Dir)] ++ [(BranchHeads dbName, HeadsDoc branches)]))).
  { intros w0 l0 -> Hl0.
    assert (Hinv : ∀ l, Forall (fun pd => ∃ n, fst pd = FilesPath n ∧ snd pd ≠ Dir) l →
              (∀ p, faulty (written w l) p = false) ∧
              (∀ n, isDir (written w l) (FilesPath n) = false) ∧
              disk (written w l) !! MetaDir dbName = None ∧
              disk (written w l) !! BranchHeads dbName = None).
    { intros l Hl. split; [intros p; now rewrite faulty_written |].
      assert (Hpaths : ∀ q, (∀ n, q ≠ FilesPath n) → q ∉ map fst l).
      { intros q Hq Hin. apply list_elem_of_In, in_map_iff in Hin as ((p & d) & Hp & Hin).
        rewrite Forall_forall in Hl. apply list_elem_of_In in Hin.
        destruct (Hl _ Hin) as (n & Hn & _). simpl in *. subst. now apply (Hq n). }
      split.
      - intros n. clear Hpaths. revert Hd. generalize w. clear -Hl.
        induction Hl as [| [p d] l (m & Hm & Hdir) Hl IH]; intros w0 Hd; [apply Hd |].
        rewrite written_cons. apply IH. intros k. now apply isDir_setDisk_file.
      - split; (rewrite disk_written_other; [assumption | apply Hpaths; discriminate]). }
    destruct (Hinv l0 Hl0) as (Hf0 & Hd0 & Hm0 & Hh0).
    rewrite run_bind, run_storeTree, Ht. simpl.
    rewrite (writable_file_of (written w l0)) by assumption. simpl.
    change (setDisk (written w l0) (FilesPath (TreeID t)) (TreeDoc t))
      with (written (written w l0) [(FilesPath (TreeID t), TreeDoc t)]).
    rewrite <- written_app.
    assert (Hl1 : Forall (fun pd => ∃ n, fst pd = FilesPath n ∧ snd pd ≠ Dir)
                    (l0 ++ [(FilesPath (TreeID t), TreeDoc t)])).
    { apply Forall_app. split; [exact Hl0 |]. constructor; [| constructor].
      exists (TreeID t). split; [reflexivity | discriminate]. }
    destruct (Hinv _ Hl1) as (Hf1 & Hd1 & Hm1 & Hh1).
    rewrite run_bind, run_storeCommit, Hc. simpl.
    rewrite (writable_file_of (written w (l0 ++ [(FilesPath (TreeID t), TreeDoc t)])))
      by assumption. simpl.
    set (l2 := (l0 ++ [(FilesPath (TreeID t), TreeDoc t)]) ++ [(FilesPath (ID c), CommitDoc c)]).
    change (setDisk (written w (l0 ++ [(FilesPath (TreeID t), TreeDoc t)]))
              (FilesPath (ID c)) (CommitDoc c))
      with (written (written w (l0 ++ [(FilesPath (TreeID t), TreeDoc t)]))
              [(FilesPath (ID c), CommitDoc c)]).
    rewrite <- written_app. fold l2.
    assert (Hl2 : Forall (fun pd => ∃ n, fst pd = FilesPath n ∧ snd pd ≠ Dir) l2).
    { apply Forall_app. split; [exact Hl1 |]. constructor; [| constructor].
      exists (ID c). split; [reflexivity | discriminate]. }
    destruct (Hinv _ Hl2) as (Hf2 & Hd2 & Hm2 & Hh2).
    rewrite run_bind, run_storeBranches. cbv zeta. rewrite Hm2, Hf2.
    assert (Hw : writable (setDisk (written w l2) (MetaDir dbName) Dir) (BranchHeads dbName)
                 = true).
    { unfold writable, parentReady, isDir. simpl.
      rewrite Hf2, lookup_insert_eq, lookup_insert_ne by discriminate. now rewrite Hh2. }
    rewrite Hw. simpl. rewrite run_Ret. f_equal.
    unfold l2. rewrite <- !app_assoc. simpl.
    rewrite !written_app. reflexivity. }
  unfold present.
  destruct (disk w !! FilesPath (EncodeToString (Sum256 buf))) as [d|];
    [destruct (Z.of_nat (String.length buf) =? fileSize d) |]; simpl.
  - exists false. split; [| reflexivity].
    apply (Hrest w []); [reflexivity | constructor].
  - exists true. split; [| discriminate].
    apply (Hrest _ [(FilesPath (EncodeToString (Sum256 buf)), Blob buf)]); [reflexivity |].
    constructor; [| constructor]. eexists. split; [reflexivity | discriminate].
  - exists true. split; [| discriminate].
    apply (Hrest _ [(FilesPath (EncodeToString (Sum256 buf)), Blob buf)]); [reflexivity |].
    constructor; [| constructor]. eexists. split; [reflexivity | discriminate].
Qed.

(** X4: the first upload of a database. In a store that takes every
    write and holds nothing of the database yet, an upload that names the
    database, by a name that is one path element, and a branch, by a name
    that is valid UTF-8, is answered with 201; the commit it stores has
    no parent and loads again under its identifier, the branch table of
    the database loads and holds the one branch at that commit, the meta
    directory of the database is there, and a file is there under the
    digest of the uploaded bytes. *)
Theorem dbUpload_first_upload (r : Request) (w : world)
    (Hplain : plainName (HeaderGet r "Name") = true)
    (Hbranch : HeaderGet r "Branch" ≠ ""%string)
    (Hutf : validUTF8 (HeaderGet r "Branch") = true)
    (Hnew : brandNew w (HeaderGet r "Name")) :
  let out := run (dbUpload r) w in
  let c := uploadCommitFor r w in
  fst out = created (HeaderGet r "Name") ∧
  Parent c = ""%string ∧
  loadCommit (snd out) (ID c) = Ok c ∧
  loadHeads (snd out) (HeaderGet r "Name") = Ok {[ HeaderGet r "Branch" := ID c ]} ∧
  disk (snd out) !! MetaDir (HeaderGet r "Name") = Some Dir ∧
  present (snd out) (FilesPath (EncodeToString (Sum256 (Body r)))) = true.
Proof.
  destruct Hnew as (Hfiles & Hmeta & Hheads & Hf & Hd & Hclock). cbv zeta.
  pose proof (plainName_not_empty _ Hplain) as Hname.
  destruct (upload_plan_new r w Hfiles) as [Hparent Hplan].
  assert (Hp : present w (FilesPath (HeaderGet r "Name")) = false)
    by (unfold present; now rewrite Hfiles).
  rewrite run_dbUpload. cbv zeta.
  rewrite (isEmpty_false _ Hname), (isEmpty_false _ Hbranch). cbn [orb].
  unfold headsUnreadable. rewrite Hp. cbn [andb].
  destruct (uploadStore_first (HeaderGet r "Name") (HeaderGet r "Branch") (Body r)
              (uploadTree (HeaderGet r "Name") (Body r) (reading w 0))
              (uploadCommitFor r w) (uploadHeadsFor r w) (ticked 2 w))
    as (blob & -> & Hblob); try assumption.
  - unfold uploadTree. simpl. now rewrite Hclock.
  - unfold uploadCommitFor. rewrite Hp. apply Hclock.
  - cbn [fst snd]. split; [reflexivity |]. split; [exact Hparent |].
    split; [unfold loadCommit; now rewrite uploadWrites_commit_kept |].
    split; [unfold loadHeads; now rewrite uploadWrites_heads_kept, Hplan |].
    split.
    + unfold uploadWrites. rewrite !app_assoc, written_app.
      rewrite disk_written_other
        by (simpl; rewrite elem_of_cons, elem_of_nil; intuition discriminate).
      apply disk_written_last.
    + destruct blob.
      * unfold uploadWrites. cbn [app]. rewrite written_cons.
        apply present_written. unfold present. now rewrite disk_setDisk_same.
      * apply present_written. now apply Hblob.
Qed.

Lemma brandNew_freshWorld : brandNew freshWorld "a.db".
Proof.
  split; [reflexivity |]. split; [reflexivity |]. split; [reflexivity |].
  split; [intros p; reflexivity |]. split; [intros name; reflexivity |].
  intros n. unfold reading, freshWorld. simpl.
  do 8 (destruct n as [|n]; [reflexivity |]).
  now destruct n.
Qed.

Lemma dbUpload_first_upload_witness :
  let out := run (dbUpload uploadRequest) freshWorld in
  let c := uploadCommitFor uploadRequest freshWorld in
  fst out = created "a.db" ∧
  Parent c = ""%string ∧
  loadCommit (snd out) (ID c) = Ok c ∧
  loadHeads (snd out) "a.db" = Ok {[ "master"%string := ID c ]} ∧
  disk (snd out) !! MetaDir "a.db" = Some Dir ∧
  present (snd out) (FilesPath (EncodeToString (Sum256 (Body uploadRequest)))) = true.
Proof.
  apply (dbUpload_first_upload uploadRequest freshWorld).
  - reflexivity.
  - discriminate.
  - reflexivity.
  - apply brandNew_freshWorld.
Defined.


(* ===================================================================== *)
(** ** More on branches *)
(* ===================================================================== *)

(** What branchCreate comes to: 204 with the table stored; or 400, 404
    or 409 with the store as it was; or 500, with the store as it was,
    or with the meta directory made, or with what the write of the table
    that failed has left. *)
Lemma branchCreate_cases (r : Request) (w : world) :
  let out := run (branchCreate r) w in
  let dbName := FormValue r "database" in
  (fst out = WriteHeader StatusNoContent ∧
   ∃ branches fromId w1,
     ParseFormError r = None ∧
     present w (FilesPath dbName) = true ∧
     loadHeads w dbName = Ok branches ∧
     branches !! FormValue r "from-branch" = Some fromId ∧
     branches !! FormValue r "new-branch" = None ∧
     (w1 = w ∨ w1 = setDisk w (MetaDir dbName) Dir) ∧
     snd out = setDisk w1 (BranchHeads dbName)
                 (HeadsDoc (<[FormValue r "new-branch" := fromId]> branches))) ∨
  (statusIn [StatusBadRequest; StatusNotFound; StatusConflict] (fst out) ∧ snd out = w) ∨
  (fst out = WriteHeader StatusInternalServerError ∧
   ∃ w1, (w1 = w ∨ w1 = setDisk w (MetaDir dbName) Dir) ∧
         (snd out = w1 ∨ ∃ d, snd out = failedWrite w1 (BranchHeads dbName) d)).
Proof.
  cbv zeta. unfold branchCreate, statusIn.
  destruct (ParseFormError r) as [err|] eqn:Eform.
  { right. left. rewrite run_Ret. simpl. split; [rewrite !elem_of_cons; auto | reflexivity]. }
  destruct (isEmpty (FormValue r "database") || isEmpty (FormValue r "from-branch")
            || isEmpty (FormValue r "new-branch")).
  { right. left. rewrite run_Ret. simpl. split; [rewrite !elem_of_cons; auto | reflexivity]. }
  rewrite run_bind, run_dbExists. cbn [fst snd].
  destruct (present w (FilesPath (FormValue r "database"))) eqn:Ep; cbn [negb].
  2: { right. left. rewrite run_Ret. simpl.
       split; [rewrite !elem_of_cons; auto | reflexivity]. }
  rewrite run_bind, run_getBranches. cbn [fst snd].
  destruct (loadHeads w (FormValue r "database")) as [branches | e] eqn:Eh.
  2: { right. right. rewrite run_Ret. simpl. split; [reflexivity |].
       exists w. split; now left. }
  destruct (branches !! FormValue r "from-branch") as [fromId |] eqn:Efrom.
  2: { right. left. rewrite run_Ret. simpl.
       split; [rewrite !elem_of_cons; auto | reflexivity]. }
  destruct (branches !! FormValue r "new-branch") as [other |] eqn:Enew.
  { right. left. rewrite run_Ret. simpl. split; [rewrite !elem_of_cons; auto | reflexivity]. }
  rewrite run_bind, run_storeBranches. cbv zeta.
  destruct (disk w !! MetaDir (FormValue r "database")) as [d|].
  - destruct (writable w (BranchHeads (FormValue r "database"))); cbn [fst snd]; rewrite run_Ret.
    + left. split; [reflexivity |]. exists branches, fromId, w.
      repeat split; try assumption. now left.
    + right. right. simpl. split; [reflexivity |].
      exists w. split; [now left |]. right. eexists. reflexivity.
  - destruct (faulty w (MetaDir (FormValue r "database"))); cbn [fst snd].
    { right. right. rewrite run_Ret. simpl. split; [reflexivity |].
      exists w. split; now left. }
    destruct (writable (setDisk w (MetaDir (FormValue r "database")) Dir)
                (BranchHeads (FormValue r "database"))); cbn [fst snd]; rewrite run_Ret.
    + left. split; [reflexivity |].
      exists branches, fromId, (setDisk w (MetaDir (FormValue r "database")) Dir).
      repeat split; try assumption. now right.
    + right. right. simpl. split; [reflexivity |].
      exists (setDisk w (MetaDir (FormValue r "database")) Dir).
      split; [now right |]. right. eexists. reflexivity.
Qed.

(** X5: what branchCreate leaves alone. Whatever the store and the
    request, if it names the database by one path element: the answer is
    204, 400, 404, 409 or 500; of the places that one-element names give,
    none changes but the meta directory and the branch table of that
    database, so no file under files/ and nothing of another database;
    and when the answer is 400, 404 or 409 nothing has changed at all. *)
Theorem branchCreate_frame (r : Request) (w : world)
    (Hplain : plainName (FormValue r "database") = true) :
  let out := run (branchCreate r) w in
  let dbName := FormValue r "database" in
  statusIn [StatusNoContent; StatusBadRequest; StatusNotFound; StatusConflict;
            StatusInternalServerError] (fst out) ∧
  (∀ p, plainPath p = true → p ≠ MetaDir dbName → p ≠ BranchHeads dbName →
        disk (snd out) !! p = disk w !! p) ∧
  (StatusCode (fst out) ≠ StatusNoContent →
   StatusCode (fst out) ≠ StatusInternalServerError → snd out = w).
Proof.
  cbv zeta.
  assert (Hmeta : ∀ w1 p, w1 = w ∨ w1 = setDisk w (MetaDir (FormValue r "database")) Dir →
                          p ≠ MetaDir (FormValue r "database") →
                          disk w1 !! p = disk w !! p).
  { intros w1 p [-> | ->] Hp; [reflexivity | now apply disk_setDisk_other]. }
  destruct (branchCreate_cases r w)
    as [(-> & branches & fromId & w1 & _ & _ & _ & _ & _ & Hw1 & ->)
       | [(Hst & ->) | (-> & w1 & Hw1 & Hout)]];
    unfold statusIn in *.
  - split; [rewrite !elem_of_cons; auto |].
    split.
    + intros p _ Hm Hh. rewrite disk_setDisk_other by exact Hh. now apply Hmeta.
    + intros H. now contradiction H.
  - split.
    { rewrite !elem_of_cons, elem_of_nil in Hst. rewrite !elem_of_cons.
      destruct Hst as [H | [H | [H | []]]]; rewrite H; auto 6. }
    split; [reflexivity |]. reflexivity.
  - split; [rewrite !elem_of_cons; auto 6 |].
    split.
    + intros p _ Hm Hh. destruct Hout as [-> | [d ->]].
      * now apply Hmeta.
      * rewrite disk_failedWrite_other by exact Hh. now apply Hmeta.
    + intros _ H. now contradiction H.
Qed.

Lemma branchCreate_frame_witness :
  let out := run (branchCreate forkRequest) forkWorld in
  let dbName := FormValue forkRequest "database" in
  statusIn [StatusNoContent; StatusBadRequest; StatusNotFound; StatusConflict;
            StatusInternalServerError] (fst out) ∧
  (∀ p, plainPath p = true → p ≠ MetaDir dbName → p ≠ BranchHeads dbName →
        disk (snd out) !! p = disk forkWorld !! p) ∧
  (StatusCode (fst out) ≠ StatusNoContent →
   StatusCode (fst out) ≠ StatusInternalServerError → snd out = forkWorld).
Proof.
  apply (branchCreate_frame forkRequest forkWorld).
  reflexivity.
Defined.

Lemma run_branchList (r : Request) (w : world) :
  run (branchList r) w
  = (if isEmpty (HeaderGet r "Database") then WriteHeader StatusBadRequest
     else if negb (present w (FilesPath (HeaderGet r "Database")))
          then WriteHeader StatusNotFound
          else match loadHeads w (HeaderGet r "Database") with
               | Err _ => WriteHeader StatusInternalServerError
               | Ok branches => WriteAsJson (BranchesJson branches)
               end, w).
Proof.
  unfold branchList.
  destruct (isEmpty (HeaderGet r "Database")); [reflexivity |].
  rewrite run_bind, run_dbExists. cbn [fst snd].
  destruct (present w (FilesPath (HeaderGet r "Database"))); cbn [negb]; [| reflexivity].
  rewrite run_bind, run_getBranches. cbn [fst snd].
  now destruct (loadHeads w (HeaderGet r "Database")).
Qed.

(** X6: a branch that was created is listed. The database is named by
    one path element and the new branch by valid UTF-8. When branchCreate
    answers 204, the from-branch
    was in the table and the new branch was not, and a branch-list
    request for the database, served next, is answered with the table as
    it was plus the new branch at the commit of the from-branch: every
    branch that was there is still there, at the same commit. *)
Theorem branchCreate_then_branchList (r l : Request) (w : world)
    (Hplain : plainName (FormValue r "database") = true)
    (Hutf : validUTF8 (FormValue r "new-branch") = true)
    (Hok : StatusCode (fst (run (branchCreate r) w)) = StatusNoContent)
    (Hl : HeaderGet l "Database" = FormValue r "database") :
  let w' := snd (run (branchCreate r) w) in
  ∃ branches fromId,
    loadHeads w (FormValue r "database") = Ok branches ∧
    branches !! FormValue r "from-branch" = Some fromId ∧
    branches !! FormValue r "new-branch" = None ∧
    run (branchList l) w'
    = (WriteAsJson (BranchesJson (<[FormValue r "new-branch" := fromId]> branches)), w') ∧
    FormValue r "database" ≠ ""%string ∧
    ∀ b id, branches !! b = Some id →
            (<[FormValue r "new-branch" := fromId]> branches) !! b = Some id.
Proof.
  cbv zeta.
  destruct (branchCreate_cases r w)
    as [(Hresp & branches & fromId & w1 & Hform & Hp & Hh & Hfrom & Hnew & Hw1 & Hw)
       | [(Hst & _) | (Hresp & _)]].
  2: { unfold statusIn in Hst. rewrite Hok, !elem_of_cons, elem_of_nil in Hst.
       destruct Hst as [H | [H | [H | []]]]; discriminate H. }
  2: { rewrite Hresp in Hok. discriminate Hok. }
  assert (Hdb : FormValue r "database" ≠ ""%string).
  { intros E. unfold branchCreate in Hok. rewrite Hform, E in Hok.
    simpl in Hok. discriminate Hok. }
  exists branches, fromId. rewrite Hw.
  split; [exact Hh |]. split; [exact Hfrom |]. split; [exact Hnew |].
  split; [| split; [exact Hdb |]].
  - rewrite run_branchList, Hl, (isEmpty_false _ Hdb).
    assert (Hp' : present (setDisk w1 (BranchHeads (FormValue r "database"))
                    (HeadsDoc (<[FormValue r "new-branch" := fromId]> branches)))
                    (FilesPath (FormValue r "database")) = true).
    { apply (present_written w1 [(BranchHeads (FormValue r "database"), _)]).
      destruct Hw1 as [-> | ->]; [exact Hp |].
      now apply (present_written w [(MetaDir (FormValue r "database"), Dir)]). }
    rewrite Hp'. cbn [negb]. unfold loadHeads. now rewrite disk_setDisk_same.
  - intros b id Hb. rewrite lookup_insert_ne; [exact Hb |].
    intros <-. rewrite Hnew in Hb. discriminate Hb.
Qed.

Lemma branchCreate_then_branchList_witness :
  let w' := snd (run (branchCreate forkRequest) forkWorld) in
  ∃ branches fromId,
    loadHeads forkWorld (FormValue forkRequest "database") = Ok branches ∧
    branches !! FormValue forkRequest "from-branch" = Some fromId ∧
    branches !! FormValue forkRequest "new-branch" = None ∧
    run (branchList listRequest) w'
    = (WriteAsJson (BranchesJson (<[FormValue forkRequest "new-branch" := fromId]> branches)),
       w') ∧
    FormValue forkRequest "database" ≠ ""%string ∧
    ∀ b id, branches !! b = Some id →
            (<[FormValue forkRequest "new-branch" := fromId]> branches) !! b = Some id.
Proof.
  apply (branchCreate_then_branchList forkRequest listRequest forkWorld).
  - reflexivity.
  - reflexivity.
  - vm_compute. reflexivity.
  - reflexivity.
Defined.

(* ===================================================================== *)
(** ** More on histories *)
(* ===================================================================== *)

Lemma historyOf_shape w id cs :
  historyOf w id cs →
  ∃ c rest, cs = c :: rest ∧ loadCommit w id = Ok c ∧ Parent (List.last rest c) = ""%string.
Proof.
  induction 1 as [id c Hload Hroot | id c cs Hload Hnext Hrest IH].
  - exists c, []. repeat split; assumption.
  - destruct IH as (c' & rest & -> & _ & Hlast).
    exists c, (c' :: rest). repeat split; try assumption.
    now rewrite last_cons_default.
Qed.

(** X7: what a history answer holds. When branchHistory answers 200, the
    store is as it was, the branch is in the table of the database, and
    the commits answered start with the commit the branch head names, go
    from each commit to the one its parent field names, and end with a
    commit that has no parent; the list is never empty. *)
Theorem branchHistory_answer_is_chain (r : Request) (w w' : world) (resp : Response)
    (fuel : nat)
    (Hrun : run (branchHistory fuel r) w = (Some resp, w'))
    (Hok : StatusCode resp = StatusOK) :
  w' = w ∧
  ∃ branches id c rest,
    loadHeads w (HeaderGet r "Database") = Ok branches ∧
    branches !! HeaderGet r "Branch" = Some id ∧
    loadCommit w id = Ok c ∧
    resp = WriteAsJson (CommitsJson (c :: rest)) ∧
    historyOf w id (c :: rest) ∧
    Parent (List.last rest c) = ""%string.
Proof.
  assert (Hdb : HeaderGet r "Database" ≠ ""%string).
  { intros E. unfold branchHistory in Hrun. rewrite E in Hrun. simpl in Hrun.
    rewrite run_Ret in Hrun. injection Hrun as <- _. discriminate Hok. }
  assert (Hb : HeaderGet r "Branch" ≠ ""%string).
  { intros E. unfold branchHistory in Hrun. rewrite E, (isEmpty_false _ Hdb) in Hrun.
    simpl in Hrun. rewrite run_Ret in Hrun. injection Hrun as <- _. discriminate Hok. }
  destruct (branchHistory_result_only r w w' resp fuel Hdb Hb Hrun)
    as [-> [[_ ->] | [_ [n Hres]]]]; [discriminate Hok |].
  split; [reflexivity |].
  destruct Hres as [e Hheads | branches Hheads Hbr
                    | branches id cs Hheads Hbr Hh | branches id k Hheads Hbr Hd];
    try discriminate Hok.
  destruct (historyOf_shape w id cs Hh) as (c & rest & -> & Hload & Hlast).
  exists branches, id, c, rest. repeat split; assumption.
Qed.

Lemma branchHistory_answer_is_chain_witness :
  historyWorld = historyWorld ∧
  ∃ branches id c rest,
    loadHeads historyWorld (HeaderGet historyRequest "Database") = Ok branches ∧
    branches !! HeaderGet historyRequest "Branch" = Some id ∧
    loadCommit historyWorld id = Ok c ∧
    WriteAsJson (CommitsJson [commitWithParent "c2" "c1"; commitWithParent "c1" ""])
    = WriteAsJson (CommitsJson (c :: rest)) ∧
    historyOf historyWorld id (c :: rest) ∧
    Parent (List.last rest c) = ""%string.
Proof.
  apply (branchHistory_answer_is_chain historyRequest historyWorld historyWorld _ 3).
  - vm_compute. reflexivity.
  - reflexivity.
Defined.

(** The loop on a chain with no end: no number of turns is enough. *)
Lemma historyLoop_endless w fuel c history :
  Parent c ≠ ""%string → endless w (Parent c) →
  run (historyLoop fuel c history) w = (None, w).
Proof.
  revert c history. induction fuel as [|fuel IH]; intros c history Hp Hend; simpl;
    rewrite (isEmpty_false _ Hp); simpl; [reflexivity |].
  rewrite run_bind, run_getCommit. cbn [fst snd].
  destruct (Hend 0%nat) as (c' & Hreach & Hp').
  inversion Hreach as [id c0 Hload | ]; subst. rewrite Hload.
  apply IH; [exact Hp' |].
  intros n. destruct (Hend (S n)) as (c'' & Hreach' & Hp'').
  inversion Hreach' as [| id c0 n0 c1 Hload' _ Hrest]; subst.
  rewrite Hload in Hload'. injection Hload' as <-.
  now exists c''.
Qed.

(** X8: a history that does not end. When the parent links from the
    head of the branch never come to a commit without parent (they run in
    a circle), the loop of branchHistory has no exit: whatever number of
    turns it is given, it has not answered, and it has written
    nothing. *)
Theorem branchHistory_endless (r : Request) (w : world) (branches : gmap string string)
    (id : string) (fuel : nat)
    (Hdb : HeaderGet r "Database" ≠ ""%string)
    (Hbranch : HeaderGet r "Branch" ≠ ""%string)
    (Hfound : present w (FilesPath (HeaderGet r "Database")) = true)
    (Hheads : loadHeads w (HeaderGet r "Database") = Ok branches)
    (Hhead : branches !! HeaderGet r "Branch" = Some id)
    (Hend : endless w id) :
  run (branchHistory fuel r) w = (None, w).
Proof.
  unfold branchHistory.
  rewrite (isEmpty_false _ Hdb), (isEmpty_false _ Hbranch). cbn [orb].
  rewrite run_bind, run_dbExists, Hfound. cbn [fst snd negb].
  rewrite run_bind, run_getBranches, Hheads. cbn [fst snd]. rewrite Hhead.
  rewrite run_bind, run_getCommit. cbn [fst snd].
  destruct (Hend 0%nat) as (c & Hreach & Hp).
  inversion Hreach as [id0 c0 Hload | ]; subst. rewrite Hload.
  apply historyLoop_endless; [exact Hp |].
  intros n. destruct (Hend (S n)) as (c'' & Hreach' & Hp'').
  inversion Hreach' as [| id0 c0 n0 c1 Hload' _ Hrest]; subst.
  rewrite Hload in Hload'. injection Hload' as <-.
  now exists c''.
Qed.

Lemma endless_loopWorld : endless loopWorld "c1".
Proof.
  intros n. exists (commitWithParent "c1" "c1"). split; [| discriminate].
  induction n as [|n IH].
  - apply reaches_here. reflexivity.
  - apply reaches_next with (c := commitWithParent "c1" "c1");
      [reflexivity | discriminate | exact IH].
Qed.

Lemma branchHistory_endless_witness :
  run (branchHistory 1000 historyRequest) loopWorld = (None, loopWorld).
Proof.
  apply (branchHistory_endless historyRequest loopWorld {[ "master"%string := "c1"%string ]}
           "c1" 1000).
  - discriminate.
  - discriminate.
  - reflexivity.
  - reflexivity.
  - reflexivity.
  - apply endless_loopWorld.
Defined.

Lemma historyOf_kept w w' id cs :
  (∀ id c, loadCommit w id = Ok c → loadCommit w' id = Ok c) →
  historyOf w id cs → historyOf w' id cs.
Proof.
  intros Hkept. induction 1 as [id c Hload Hroot | id c cs Hload Hnext Hrest IH].
  - apply history_root; [now apply Hkept | exact Hroot].
  - apply history_step; [now apply Hkept | exact Hnext | exact IH].
Qed.

Lemma loadCommit_disk w id c :
  loadCommit w id = Ok c → disk w !! FilesPath id = Some (CommitDoc c).
Proof.
  unfold loadCommit. destruct (disk w !! FilesPath id) as [[]|]; try discriminate.
  now intros [= ->].
Qed.

(** An upload that writes over no commit leaves every commit where it
    was. *)
Lemma dbUpload_keeps_commits (r : Request) (w : world) :
  Forall (fun pd => ∀ c, disk w !! fst pd ≠ Some (CommitDoc c)) (uploadPlanFor r w) →
  ∀ id c, loadCommit w id = Ok c → loadCommit (snd (run (dbUpload r) w)) id = Ok c.
Proof.
  intros Hkept id c Hload. pose proof (loadCommit_disk _ _ _ Hload) as Hdisk.
  unfold loadCommit. rewrite dbUpload_frame; [now rewrite Hdisk |].
  intros Hin. apply list_elem_of_In, in_map_iff in Hin as ((p & d) & Hp & Hin).
  simpl in Hp. subst p. rewrite Forall_forall in Hkept.
  apply list_elem_of_In in Hin. now apply (Hkept _ Hin c).
Qed.

(** X9: an upload adds to the history. In a store where dbExists finds
    the database, its branch table loads and no write fails, an upload
    to a branch that writes over no commit file is answered with 201, and
    a branch-history request for that branch, served next, is answered
    with the uploaded commit first, followed by the history the branch
    had before the upload; with the uploaded commit alone when the
    branch was not in the table or was at the empty id. The database is
    named by one path element and the branch by valid UTF-8. *)
Theorem dbUpload_then_branchHistory (r h : Request) (w : world)
    (branches : gmap string string) (cs : list commit) (fuel : nat)
    (Hplain : plainName (HeaderGet r "Name") = true)
    (Hbranch : HeaderGet r "Branch" ≠ ""%string)
    (Hutf : validUTF8 (HeaderGet r "Branch") = true)
    (Hs : sound w (HeaderGet r "Name"))
    (Hheads : loadHeads w (HeaderGet r "Name") = Ok branches)
    (Hhdb : HeaderGet h "Database" = HeaderGet r "Name")
    (Hhbr : HeaderGet h "Branch" = HeaderGet r "Branch")
    (Hold : match branches !! HeaderGet r "Branch" with
            | None => cs = []
            | Some id => if isEmpty id then cs = [] else historyOf w id cs
            end)
    (Hkept : Forall (fun pd => ∀ c, disk w !! fst pd ≠ Some (CommitDoc c))
               (uploadPlanFor r w))
    (Hfuel : (length cs ≤ fuel)%nat) :
  let w' := snd (run (dbUpload r) w) in
  fst (run (dbUpload r) w) = created (HeaderGet r "Name") ∧
  run (branchHistory fuel h) w'
  = (Some (WriteAsJson (CommitsJson (uploadCommitFor r w :: cs))), w') ∧
  Parent (uploadCommitFor r w) = headOf branches (HeaderGet r "Branch").
Proof.
  cbv zeta.
  pose proof (plainName_not_empty _ Hplain) as Hname.
  pose proof (dbUpload_keeps_commits r w Hkept) as Hcommits.
  destruct (dbUpload_in_sound_store r w branches Hname Hbranch Hs Hheads)
    as (w' & Hrun & Hs' & Hheads' & Hcommit & Hparent).
  rewrite Hrun in *. cbn [fst snd] in *.
  split; [reflexivity |]. split; [| exact Hparent].
  unfold branchHistory. rewrite Hhdb, Hhbr.
  rewrite (isEmpty_false _ Hname), (isEmpty_false _ Hbranch). cbn [orb].
  assert (Hp : present w' (FilesPath (HeaderGet r "Name")) = true) by apply Hs'.
  rewrite run_bind, run_dbExists, Hp. cbn [fst snd negb].
  rewrite run_bind, run_getBranches, Hheads'. cbn [fst snd].
  rewrite lookup_insert_eq.
  rewrite run_bind, run_getCommit, Hcommit. cbn [fst snd].
  apply (historyLoop_chain w' (uploadCommitFor r w) cs [uploadCommitFor r w]);
    [| exact Hfuel].
  rewrite Hparent. unfold headOf.
  destruct (branches !! HeaderGet r "Branch") as [id|]; cbn [default].
  - destruct (isEmpty id) eqn:Eid.
    + left. split; [now apply isEmpty_true | exact Hold].
    + right. split; [now apply isEmpty_not |].
      now apply (historyOf_kept w w').
  - left. now split.
Qed.

Lemma sound_historyWorld : sound historyWorld "a.db".
Proof.
  split; [reflexivity |]. split; [reflexivity |]. split; [reflexivity |].
  split; [intros p; reflexivity |]. split.
  - intros name. unfold isDir, historyWorld. simpl.
    destruct (decide (name = "a.db"%string)) as [-> | Hne];
      [now rewrite lookup_insert_eq |].
    rewrite lookup_insert_ne by congruence.
    rewrite !lookup_insert_ne by discriminate.
    destruct (decide (name = "c2"%string)) as [-> | Hne2];
      [now rewrite lookup_insert_eq |].
    rewrite lookup_insert_ne by congruence.
    destruct (decide (name = "c1"%string)) as [-> | Hne1];
      [now rewrite lookup_singleton_eq |].
    now rewrite lookup_singleton_ne by congruence.
  - intros n. unfold reading, historyWorld. simpl. now rewrite drop_nil.
Qed.

Lemma dbUpload_then_branchHistory_witness :
  let w' := snd (run (dbUpload uploadRequest) historyWorld) in
  fst (run (dbUpload uploadRequest) historyWorld) = created (HeaderGet uploadRequest "Name") ∧
  run (branchHistory 2 historyRequest) w'
  = (Some (WriteAsJson (CommitsJson (uploadCommitFor uploadRequest historyWorld ::
                                     [commitWithParent "c2" "c1"; commitWithParent "c1" ""]))),
     w') ∧
  Parent (uploadCommitFor uploadRequest historyWorld)
  = headOf {[ "master"%string := "c2"%string ]} (HeaderGet uploadRequest "Branch").
Proof.
  apply (dbUpload_then_branchHistory uploadRequest historyRequest historyWorld
           {[ "master"%string := "c2"%string ]}
           [commitWithParent "c2" "c1"; commitWithParent "c1" ""] 2).
  - reflexivity.
  - discriminate.
  - reflexivity.
  - apply sound_historyWorld.
  - reflexivity.
  - reflexivity.
  - reflexivity.
  - change (HeaderGet uploadRequest "Branch") with "master"%string.
    rewrite lookup_singleton_eq. cbn [isEmpty String.eqb Ascii.eqb].
    change (isEmpty "c2") with false. cbv iota.
    apply history_step; [reflexivity | discriminate |].
    apply history_root; reflexivity.
  - assert (Hplan : map fst (uploadPlanFor uploadRequest historyWorld)
                    = [FilesPath (EncodeToString (Sum256 "0123456789"));
                       FilesPath (TreeID (uploadTreeFor uploadRequest historyWorld));
                       FilesPath (ID (uploadCommitFor uploadRequest historyWorld));
                       BranchHeads "a.db"])
      by (vm_compute; reflexivity).
    assert (Hnone : Forall (fun p => ∀ c, disk historyWorld !! p ≠ Some (CommitDoc c))
                      (map fst (uploadPlanFor uploadRequest historyWorld))).
    { rewrite Hplan. repeat constructor; intros c H; vm_compute in H; discriminate H. }
    now apply Forall_map in Hnone.
  - simpl. lia.
Defined.

(* ===================================================================== *)
(** ** More on identifiers *)
(* ===================================================================== *)

Lemma isHexDigit_hexdigit n : 0 ≤ n < 16 → isHexDigit (hexdigit n) = true.
Proof.
  intros H.
  assert (Hn : n = 0 ∨ n = 1 ∨ n = 2 ∨ n = 3 ∨ n = 4 ∨ n = 5 ∨ n = 6 ∨ n = 7 ∨
               n = 8 ∨ n = 9 ∨ n = 10 ∨ n = 11 ∨ n = 12 ∨ n = 13 ∨ n = 14 ∨ n = 15) by lia.
  repeat destruct Hn as [-> | Hn]; try reflexivity. now subst.
Qed.

Lemma hexString_EncodeToString bs :
  Forall (fun b => 0 ≤ b < 256) bs → hexString (EncodeToString bs) = true.
Proof.
  induction 1 as [| b bs Hb _ IH]; [reflexivity |].
  change (EncodeToString (b :: bs))
    with (String (hexdigit (b / 16)) (String (hexdigit (b mod 16)) (EncodeToString bs))).
  cbn [hexString]. rewrite IH, !isHexDigit_hexdigit; [reflexivity | |].
  - apply Z.mod_pos_bound. lia.
  - split; [apply Z.div_pos; lia | apply Z.div_lt_upper_bound; lia].
Qed.

Lemma be_bytes_range n x : Forall (fun b => 0 ≤ b < 256) (SHA256.be_bytes n x).
Proof.
  unfold SHA256.be_bytes. apply Forall_map, Forall_forall. intros i _.
  apply Z.mod_pos_bound. lia.
Qed.

Lemma digest_range msg : Forall (fun b => 0 ≤ b < 256) (SHA256.digest msg).
Proof.
  unfold SHA256.digest.
  generalize (fold_left SHA256.compress
                (SHA256.blocks (length (SHA256.words (SHA256.pad msg)))
                   (SHA256.words (SHA256.pad msg))) SHA256.H0).
  intros hs. induction hs as [|x hs IH]; [constructor |].
  change (flat_map (SHA256.be_bytes 4) (x :: hs))
    with (SHA256.be_bytes 4 x ++ flat_map (SHA256.be_bytes 4) hs).
  apply Forall_app. split; [apply be_bytes_range | exact IH].
Qed.

Lemma hexString_not_empty s : hexString s = true → String.length s = 64%nat → s ≠ ""%string.
Proof. intros _ H ->. discriminate H. Qed.

(** X10: the names of the objects. The identifier of every commit, the
    identifier of every tree and the name storeDatabase gives a database
    file are 64 lower-case hexadecimal digits: they are never empty, so a
    commit identifier is never taken for the missing parent of a root
    commit, and they hold no path separator. *)
Theorem object_names_are_hex (c : commit) (entries : list dbTreeEntry) (db : string) :
  Forall (fun s => String.length s = 64%nat ∧ hexString s = true ∧
                   isEmpty s = false ∧ freeb "/" s = true)
         [createCommitID c; createDBTreeID entries; EncodeToString (Sum256 db)].
Proof.
  assert (Hfree : ∀ s, hexString s = true → freeb "/" s = true).
  { induction s as [|a s IH]; [reflexivity |]. cbn [hexString freeb].
    intros H. apply andb_prop in H as [Ha Hs]. rewrite (IH Hs), andb_true_r.
    unfold isHexDigit in Ha. simpl in Ha.
    destruct (Ascii.eqb_spec a "/"); [subst; discriminate Ha | reflexivity]. }
  assert (Hall : ∀ data, String.length (EncodeToString (Sum256 data)) = 64%nat ∧
                         hexString (EncodeToString (Sum256 data)) = true ∧
                         isEmpty (EncodeToString (Sum256 data)) = false ∧
                         freeb "/" (EncodeToString (Sum256 data)) = true).
  { intros data.
    assert (Hhex : hexString (EncodeToString (Sum256 data)) = true)
      by apply hexString_EncodeToString, digest_range.
    split; [apply length_hex_digest |]. split; [exact Hhex |]. split; [| now apply Hfree].
    apply isEmpty_false, hexString_not_empty; [exact Hhex | apply length_hex_digest]. }
  repeat constructor; apply Hall.
Qed.

(** X11: createCommitID does not tell the tree from the parent. A commit
    with no parent whose tree field ends in a line feed, the word parent
    and an identifier has the bytes, and so the identifier, of the commit
    with that tree field cut short and that identifier as its parent: the
    fields are written without escaping. *)
Theorem createCommitID_tree_parent_confusion (c : commit) (tree parent : string)
    (Hparent : parent ≠ ""%string) :
  let a := setParent (setTree c (tree +:+ nl +:+ "parent " +:+ parent)) "" in
  let b := setParent (setTree c tree) parent in
  Tree a ≠ Tree b ∧ Parent a ≠ Parent b ∧
  commitBytes a = commitBytes b ∧ createCommitID a = createCommitID b.
Proof.
  cbv zeta.
  assert (E : commitBytes (setParent (setTree c (tree +:+ nl +:+ "parent " +:+ parent)) "")
              = commitBytes (setParent (setTree c tree) parent)).
  { rewrite !commitBytes_canonical. unfold canonical, treeLine, parentLine, authorLine,
      committerLine, committerEmailGiven. cbn [setParent setTree Tree Parent AuthorName
      AuthorEmail CommitterName CommitterEmail Timestamp Message concatBytes].
    rewrite (isEmpty_false _ Hparent). unfold isEmpty at 1. cbn [String.eqb negb optional].
    now rewrite !append_assoc. }
  split.
  { cbn [setParent setTree Tree]. intros H. apply (f_equal String.length) in H.
    revert H. clear. induction tree as [|x tree IH]; [discriminate |].
    rewrite append_cons. simpl. intros [= H]. now apply IH. }
  split; [cbn [setParent Parent]; congruence |].
  split; [exact E |]. unfold createCommitID. now rewrite E.
Qed.

Lemma createCommitID_tree_parent_confusion_witness :
  let a := setParent (setTree commitNoName ("t1" +:+ nl +:+ "parent " +:+ "c1")) "" in
  let b := setParent (setTree commitNoName "t1") "c1" in
  Tree a ≠ Tree b ∧ Parent a ≠ Parent b ∧
  commitBytes a = commitBytes b ∧ createCommitID a = createCommitID b.
Proof.
  apply (createCommitID_tree_parent_confusion commitNoName "t1" "c1").
  discriminate.
Defined.

(* ===================================================================== *)
(** ** The upload command of the client *)
(* ===================================================================== *)

Lemma Base_not_empty path : Push.Base path ≠ ""%string.
Proof.
  unfold Push.Base. destruct (isEmpty path); [discriminate |].
  destruct (rev (Push.lastElement (Push.stripSeparators (rev (list_ascii_of_string path)))));
    discriminate.
Qed.

(** X12: when the upload command sends a request. It sends one only when
    it was given exactly one file, os.Stat found the file and the commit
    message is not empty, and then the request is the one built from the
    flags, the file and, for the database name, the --dbname flag or else
    the base name of the file. Otherwise it sends nothing, leaves pushDB
    as it was, and returns an error: that no file was given, that more
    than one was, the error of os.Stat, or that the message is
    missing. *)
Theorem push_sends_when_complete (fl : Push.Flags) (env : Push.Env) (args : list string) :
  match Push.sent (Push.RunE fl env args) with
  | Some req =>
      ∃ file fi,
        args = [file] ∧ Push.stat env file = inr fi ∧ Push.msg fl ≠ ""%string ∧
        req = Push.request fl file fi
                (if isEmpty (Push.pushDB fl) then Push.Base file else Push.pushDB fl)
  | None =>
      Push.pushDBAfter (Push.RunE fl env args) = Push.pushDB fl ∧
      ∃ e, Push.err (Push.RunE fl env args) = Some e ∧
           (args = [] ∧ e = "No database file specified"%string ∨
            (1 < length args)%nat ∧
            e = "Only one database can be uploaded at a time (for now)"%string ∨
            ∃ file, args = [file] ∧
                    (Push.stat env file = inl e ∨
                     (∃ fi, Push.stat env file = inr fi) ∧ Push.msg fl = ""%string ∧
                     e = "Missing commit message!"%string))
  end.
Proof.
  unfold Push.RunE.
  destruct args as [| file [| file' args]].
  - simpl. split; [reflexivity |]. eexists. split; [reflexivity |]. now left.
  - destruct (Push.stat env file) as [e | fi] eqn:Estat.
    + simpl. split; [reflexivity |]. exists e. split; [reflexivity |].
      right. right. exists file. split; [reflexivity | now left].
    + destruct (isEmpty (Push.msg fl)) eqn:Emsg.
      * simpl. split; [reflexivity |]. eexists. split; [reflexivity |].
        right. right. exists file. split; [reflexivity |]. right.
        split; [now exists fi |]. split; [now apply isEmpty_true | reflexivity].
      * apply isEmpty_not in Emsg. cbv zeta.
        destruct (Push.send env _) as [[resp |] [| e errs]]; simpl;
          try destruct (negb (Push.RespStatusCode resp =? StatusCreated)); simpl;
          exists file, fi; repeat split; assumption.
  - simpl. split; [reflexivity |]. eexists. split; [reflexivity |].
    right. left. split; [lia | reflexivity].
Qed.

Lemma sent_request (fl : Push.Flags) (env : Push.Env) (args : list string) req :
  Push.sent (Push.RunE fl env args) = Some req →
  ∃ file fi,
    args = [file] ∧ Push.stat env file = inr fi ∧ Push.msg fl ≠ ""%string ∧
    req = Push.request fl file fi
            (if isEmpty (Push.pushDB fl) then Push.Base file else Push.pushDB fl).
Proof.
  intros H.
  unfold Push.RunE in H.
  destruct args as [| file [| file' args]]; try discriminate H.
  destruct (Push.stat env file) as [e | fi] eqn:Estat; [discriminate H |].
  destruct (isEmpty (Push.msg fl)) eqn:Emsg; [discriminate H |].
  apply isEmpty_not in Emsg. cbv zeta in H.
  exists file, fi. split; [reflexivity |]. split; [exact Estat |]. split; [exact Emsg |].
  destruct (Push.send env _) as [[resp |] [| e errs]]; simpl in H;
    try destruct (negb (Push.RespStatusCode resp =? StatusCreated)); simpl in H;
    now injection H as <-.
Qed.

Lemma canonical_keys :
  Push.CanonicalMIMEHeaderKey "Branch" = "Branch"%string ∧
  Push.CanonicalMIMEHeaderKey "Message" = "Message"%string ∧
  Push.CanonicalMIMEHeaderKey "ModTime" = "Modtime"%string ∧
  Push.CanonicalMIMEHeaderKey "Database" = "Database"%string ∧
  Push.CanonicalMIMEHeaderKey "Author" = "Author"%string ∧
  Push.CanonicalMIMEHeaderKey "Email" = "Email"%string.
Proof. repeat split; vm_compute; reflexivity. Qed.

Lemma Headers_SetHeader param value s :
  Push.Headers (Push.SetHeader param value s)
  = <[Push.CanonicalMIMEHeaderKey param := value]> (Push.Headers s).
Proof. reflexivity. Qed.

Lemma Headers_SendFile file s : Push.Headers (Push.SendFile file s) = Push.Headers s.
Proof. reflexivity. Qed.

Lemma Headers_SetType typeStr s : Push.Headers (Push.SetType typeStr s) = Push.Headers s.
Proof. reflexivity. Qed.

Lemma Headers_Post targetUrl : Push.Headers (Push.Post targetUrl) = ∅.
Proof. reflexivity. Qed.

Lemma request_line (fl : Push.Flags) file fi dbName :
  Push.Method (Push.request fl file fi dbName) = "POST"%string ∧
  Push.Url (Push.request fl file fi dbName) = (Push.cloud fl +:+ "/db_upload")%string ∧
  Push.Files (Push.request fl file fi dbName) = [file].
Proof.
  unfold Push.request.
  destruct (negb (isEmpty (Push.name fl)) && negb (isEmpty (Push.email fl)));
    split; [reflexivity | split; reflexivity | reflexivity | split; reflexivity].
Qed.

(** The headers of the request of a push. *)
Lemma request_headers (fl : Push.Flags) file fi dbName :
  let both := negb (isEmpty (Push.name fl)) && negb (isEmpty (Push.email fl)) in
  let h := Push.Headers (Push.request fl file fi dbName) in
  h !! "Branch"%string = Some (Push.branch fl) ∧
  h !! "Message"%string = Some (Push.msg fl) ∧
  h !! "Modtime"%string = Some (FormatRFC3339 (Push.ModTime fi)) ∧
  h !! "Database"%string = Some dbName ∧
  h !! "Author"%string = (if both then Some (Push.name fl) else None) ∧
  h !! "Email"%string = (if both then Some (Push.email fl) else None) ∧
  h !! "Name"%string = None.
Proof.
  cbv zeta. unfold Push.request.
  destruct canonical_keys as (Kb & Km & Kt & Kd & Ka & Ke).
  destruct (negb (isEmpty (Push.name fl)) && negb (isEmpty (Push.email fl)));
    rewrite ?Headers_SetHeader, Headers_SendFile, ?Headers_SetHeader, Headers_SetType,
      Headers_Post, ?Kb, ?Km, ?Kt, ?Kd, ?Ka, ?Ke.
  - repeat split;
      repeat (first [ rewrite lookup_insert_eq; reflexivity
                    | rewrite lookup_insert_ne by discriminate ]);
      apply lookup_empty.
  - repeat split;
      repeat (first [ rewrite lookup_insert_eq; reflexivity
                    | rewrite lookup_insert_ne by discriminate ]);
      apply lookup_empty.
Qed.

(** X13: what a push sends. The request the command sends is a POST to
    the db_upload address of the cloud, of the one file, with the headers
    Branch (the --branch flag), Message (the commit message, never
    empty), Modtime (the file's modification time in RFC 3339) and
    Database; the database name is never empty: the --dbname flag, or the
    base name of the file when the flag is empty. Author and Email are
    both set, to the author name and email, when both are given, and
    neither is set otherwise. No header called Name is set. *)
Theorem push_request_headers (fl : Push.Flags) (env : Push.Env) (args : list string)
    (req : Push.SuperAgent)
    (Hsent : Push.sent (Push.RunE fl env args) = Some req) :
  ∃ file fi dbName,
    args = [file] ∧ Push.stat env file = inr fi ∧
    Push.Method req = "POST"%string ∧
    Push.Url req = (Push.cloud fl +:+ "/db_upload")%string ∧
    Push.Files req = [file] ∧
    Push.Headers req !! "Branch"%string = Some (Push.branch fl) ∧
    Push.Headers req !! "Message"%string = Some (Push.msg fl) ∧ Push.msg fl ≠ ""%string ∧
    Push.Headers req !! "Modtime"%string = Some (FormatRFC3339 (Push.ModTime fi)) ∧
    Push.Headers req !! "Database"%string = Some dbName ∧ dbName ≠ ""%string ∧
    dbName = (if isEmpty (Push.pushDB fl) then Push.Base file else Push.pushDB fl) ∧
    Push.pushDBAfter (Push.RunE fl env args) = dbName ∧
    (Push.name fl ≠ ""%string ∧ Push.email fl ≠ ""%string ∧
     Push.Headers req !! "Author"%string = Some (Push.name fl) ∧
     Push.Headers req !! "Email"%string = Some (Push.email fl)
     ∨
     (Push.name fl = ""%string ∨ Push.email fl = ""%string) ∧
     Push.Headers req !! "Author"%string = None ∧
     Push.Headers req !! "Email"%string = None) ∧
    Push.Headers req !! "Name"%string = None.
Proof.
  destruct (sent_request fl env args req Hsent) as (file & fi & -> & Hstat & Hmsg & ->).
  set (dbName := if isEmpty (Push.pushDB fl) then Push.Base file else Push.pushDB fl).
  destruct (request_headers fl file fi dbName) as (Hb & Hm & Ht & Hd & Ha & He & Hn).
  exists file, fi, dbName.
  split; [reflexivity |]. split; [exact Hstat |].
  destruct (request_line fl file fi dbName) as (Hmeth & Hurl & Hfiles).
  split; [exact Hmeth |]. split; [exact Hurl |]. split; [exact Hfiles |].
  split; [exact Hb |]. split; [exact Hm |]. split; [exact Hmsg |].
  split; [exact Ht |]. split; [exact Hd |].
  split.
  { unfold dbName. destruct (isEmpty (Push.pushDB fl)) eqn:E;
      [apply Base_not_empty | now apply isEmpty_not]. }
  split; [reflexivity |].
  split.
  { unfold Push.RunE. rewrite Hstat, (isEmpty_false _ Hmsg). cbv zeta. fold dbName.
    destruct (Push.send env _) as [[resp |] [| e errs]]; simpl;
      try destruct (negb (Push.RespStatusCode resp =? StatusCreated)); reflexivity. }
  split; [| exact Hn].
  destruct (isEmpty (Push.name fl)) eqn:En; destruct (isEmpty (Push.email fl)) eqn:Ee;
    simpl in Ha, He.
  - right. split; [left; now apply isEmpty_true | now split].
  - right. split; [left; now apply isEmpty_true | now split].
  - right. split; [right; now apply isEmpty_true | now split].
  - left. apply isEmpty_not in En, Ee. repeat split; assumption.
Qed.

Lemma push_request_headers_witness :
  ∃ file fi dbName,
    ["/home/u/a.db"%string] = [file] ∧ Push.stat Push.sampleEnv file = inr fi ∧
    Push.Method (Push.request Push.sampleFlags "/home/u/a.db" (Push.mkFileInfo (atSecond 0) 10)
                   "a.db") = "POST"%string ∧
    Push.Url (Push.request Push.sampleFlags "/home/u/a.db" (Push.mkFileInfo (atSecond 0) 10)
                "a.db") = (Push.cloud Push.sampleFlags +:+ "/db_upload")%string ∧
    Push.Files (Push.request Push.sampleFlags "/home/u/a.db" (Push.mkFileInfo (atSecond 0) 10)
                  "a.db") = [file] ∧
    Push.Headers (Push.request Push.sampleFlags "/home/u/a.db" (Push.mkFileInfo (atSecond 0) 10)
                    "a.db") !! "Branch"%string = Some (Push.branch Push.sampleFlags) ∧
    Push.Headers (Push.request Push.sampleFlags "/home/u/a.db" (Push.mkFileInfo (atSecond 0) 10)
                    "a.db") !! "Message"%string = Some (Push.msg Push.sampleFlags) ∧
    Push.msg Push.sampleFlags ≠ ""%string ∧
    Push.Headers (Push.request Push.sampleFlags "/home/u/a.db" (Push.mkFileInfo (atSecond 0) 10)
                    "a.db") !! "Modtime"%string = Some (FormatRFC3339 (Push.ModTime fi)) ∧
    Push.Headers (Push.request Push.sampleFlags "/home/u/a.db" (Push.mkFileInfo (atSecond 0) 10)
                    "a.db") !! "Database"%string = Some dbName ∧
    dbName ≠ ""%string ∧
    dbName = (if isEmpty (Push.pushDB Push.sampleFlags) then Push.Base file
              else Push.pushDB Push.sampleFlags) ∧
    Push.pushDBAfter (Push.RunE Push.sampleFlags Push.sampleEnv ["/home/u/a.db"%string])
    = dbName ∧
    (Push.name Push.sampleFlags ≠ ""%string ∧ Push.email Push.sampleFlags ≠ ""%string ∧
     Push.Headers (Push.request Push.sampleFlags "/home/u/a.db" (Push.mkFileInfo (atSecond 0) 10)
                     "a.db") !! "Author"%string = Some (Push.name Push.sampleFlags) ∧
     Push.Headers (Push.request Push.sampleFlags "/home/u/a.db" (Push.mkFileInfo (atSecond 0) 10)
                     "a.db") !! "Email"%string = Some (Push.email Push.sampleFlags)
     ∨
     (Push.name Push.sampleFlags = ""%string ∨ Push.email Push.sampleFlags = ""%string) ∧
     Push.Headers (Push.request Push.sampleFlags "/home/u/a.db" (Push.mkFileInfo (atSecond 0) 10)
                     "a.db") !! "Author"%string = None ∧
     Push.Headers (Push.request Push.sampleFlags "/home/u/a.db" (Push.mkFileInfo (atSecond 0) 10)
                     "a.db") !! "Email"%string = None) ∧
    Push.Headers (Push.request Push.sampleFlags "/home/u/a.db" (Push.mkFileInfo (atSecond 0) 10)
                    "a.db") !! "Name"%string = None.
Proof.
  apply (push_request_headers Push.sampleFlags Push.sampleEnv ["/home/u/a.db"%string]
           (Push.request Push.sampleFlags "/home/u/a.db" (Push.mkFileInfo (atSecond 0) 10)
              "a.db")).
  vm_compute. reflexivity.
Defined.

(** X14: the upload command and the server do not agree on the method.
    main routes /db_upload to dbUpload for PUT only, and the command
    sends a POST. So go-restful finds no route for what a push sends:
    whatever path the request has, no route of main takes it to
    dbUpload; at the path /db_upload the request is turned away with
    405 Method Not Allowed; and when that answer comes back, the command
    returns the error "Upload failed ... HTTP status 405". *)
Theorem push_is_not_routed_to_dbUpload (fl : Push.Flags) (env : Push.Env)
    (args : list string) (req : Push.SuperAgent)
    (Hsent : Push.sent (Push.RunE fl env args) = Some req) :
  Push.Method req = "POST"%string ∧
  Push.Url req = (Push.cloud fl +:+ "/db_upload")%string ∧
  Forall (fun rt => RouteTo rt = DbUpload → RouteMethod rt = "PUT"%string) routes ∧
  (∀ target, Forall (fun rt => RouteTo rt ≠ DbUpload) (routesOf (Push.Method req) target)) ∧
  routesOf (Push.Method req) "/db_upload" = [] ∧
  refused (Push.Method req) "/db_upload" = Some StatusMethodNotAllowed ∧
  ∀ resp,
    Push.send env req = (Some resp, []) →
    Push.RespStatusCode resp = StatusMethodNotAllowed →
    Push.err (Push.RunE fl env args)
    = Some ("Upload failed with an error: HTTP status 405 - '" +:+ Push.RespStatus resp +:+
            "'" +:+ nl)%string.
Proof.
  destruct (sent_request fl env args req Hsent) as (file & fi & -> & Hstat & Hmsg & ->).
  set (dbName := if isEmpty (Push.pushDB fl) then Push.Base file else Push.pushDB fl) in *.
  destruct (request_line fl file fi dbName) as (Hmeth & Hurl & _).
  rewrite Hmeth.
  split; [reflexivity |]. split; [exact Hurl |].
  split; [repeat constructor; try discriminate |].
  split.
  { intros target. unfold routesOf, routes. cbn [List.filter RoutePath].
    repeat match goal with
           | |- context [String.eqb ?a target] => destruct (String.eqb a target)
           end;
      cbn [List.filter RouteMethod String.eqb Ascii.eqb Bool.eqb];
      repeat constructor; discriminate. }
  split; [reflexivity |]. split; [reflexivity |].
  intros resp Hsend Hcode.
  unfold Push.RunE. rewrite Hstat, (isEmpty_false _ Hmsg). cbv zeta. fold dbName.
  rewrite Hsend, Hcode. reflexivity.
Qed.

Lemma push_is_not_routed_to_dbUpload_witness :
  let req := Push.request Push.sampleFlags "/home/u/a.db" (Push.mkFileInfo (atSecond 0) 10)
               "a.db" in
  Push.Method req = "POST"%string ∧
  Push.Url req = (Push.cloud Push.sampleFlags +:+ "/db_upload")%string ∧
  Forall (fun rt => RouteTo rt = DbUpload → RouteMethod rt = "PUT"%string) routes ∧
  (∀ target, Forall (fun rt => RouteTo rt ≠ DbUpload) (routesOf (Push.Method req) target)) ∧
  routesOf (Push.Method req) "/db_upload" = [] ∧
  refused (Push.Method req) "/db_upload" = Some StatusMethodNotAllowed ∧
  ∀ resp,
    Push.send Push.sampleEnv req = (Some resp, []) →
    Push.RespStatusCode resp = StatusMethodNotAllowed →
    Push.err (Push.RunE Push.sampleFlags Push.sampleEnv ["/home/u/a.db"%string])
    = Some ("Upload failed with an error: HTTP status 405 - '" +:+ Push.RespStatus resp +:+
            "'" +:+ nl)%string.
Proof.
  apply (push_is_not_routed_to_dbUpload Push.sampleFlags Push.sampleEnv
           ["/home/u/a.db"%string]).
  vm_compute. reflexivity.
Defined.
